(** * Recurrence rules with time zones: parser and occurrence generator

    A shallow embedding of [src/timezone-rrule.ts] (the class
    [TimezoneRRule]) and of its closure-based twin, the hook
    [useRruleDatesGenerator] of the React source file.
    The class [RRule] of [src/rrule.ts], the types of [types.ts] and the
    helpers of [utils.ts] are embedded after them.

    Conventions of the embedding.
    - JavaScript strings are [string]s: the code units below 256.  The two
      line terminators above that range (U+2028, U+2029) and the white space
      above it are out of the model.
    - JavaScript numbers are [num]: [NaN] or an integer.  The code only
      produces integers (through [parseInt] and integer arithmetic); the
      model is exact for magnitudes up to 2^53.
    - A JavaScript fault is the [Throw] outcome of [result].
    - The date-time library (Luxon) and the host's [Date] are modelled after
      ECMA-262 and the library's behaviour; the host's zone is a fixed
      offset from UTC, zones handed to [setZone] are arbitrary offset
      functions. *)

From Stdlib Require Import ZArith List String Ascii Bool Lia DecimalString.
From Stdlib Require DecimalN.
Import ListNotations.

Open Scope string_scope.
Open Scope Z_scope.

(* ------------------------------------------------------------------ *)
(** ** JavaScript values *)

Inductive num : Type :=
| NaN
| Num (z : Z).

Inductive error : Type :=
| TypeError
| InvalidArgumentError.

Inductive result (A : Type) : Type :=
| Ok (a : A)
| Throw (e : error).

Arguments Ok {A} a.
Arguments Throw {A} e.

Definition bind {A B : Type} (r : result A) (k : A -> result B) : result B :=
  match r with
  | Ok a => k a
  | Throw e => Throw e
  end.

Notation "x <- r ;; k" := (bind r (fun x => k))
  (at level 61, r at next level, right associativity).

(** [x || d] on numbers: [NaN] and [0] are falsy. *)
Definition orDefault (n : num) (d : Z) : Z :=
  match n with
  | NaN => d
  | Num z => if z =? 0 then d else z
  end.

(* ------------------------------------------------------------------ *)
(** ** Strings *)

Definition codeOf (c : ascii) : Z := Z.of_nat (nat_of_ascii c).

Definition isDigit (c : ascii) : bool := (48 <=? codeOf c) && (codeOf c <=? 57).

(** [LineTerminator] of ECMA-262, below 256: LF and CR. *)
Definition isLineTerminator (c : ascii) : bool :=
  (codeOf c =? 10) || (codeOf c =? 13).

(** [WhiteSpace] and [LineTerminator], below 256: what [parseInt] skips. *)
Definition isStrWhiteSpace (c : ascii) : bool :=
  (codeOf c =? 9) || (codeOf c =? 10) || (codeOf c =? 11) || (codeOf c =? 12)
  || (codeOf c =? 13) || (codeOf c =? 32) || (codeOf c =? 160).

(** [s.substring(a, b)] for constants [a <= b]; indices beyond the end are
    clamped. *)
Fixpoint drop (n : nat) (s : string) : string :=
  match n, s with
  | O, _ => s
  | S _, EmptyString => EmptyString
  | S k, String _ s' => drop k s'
  end.

Fixpoint take (n : nat) (s : string) : string :=
  match n, s with
  | O, _ => EmptyString
  | S _, EmptyString => EmptyString
  | S k, String c s' => String c (take k s')
  end.

Definition substring (a b : nat) (s : string) : string :=
  take (b - a) (drop a s).

(** [s.split(sep)] for a one-character separator: never the empty list. *)
Fixpoint split (sep : ascii) (s : string) : list string :=
  match s with
  | EmptyString => [EmptyString]
  | String c s' =>
      if Ascii.eqb c sep then EmptyString :: split sep s'
      else match split sep s' with
           | h :: t => String c h :: t
           | [] => [String c EmptyString]
           end
  end.

(** *** parseInt(string), radix undefined (ECMA-262, 19.2.5) *)

Fixpoint trimStart (s : string) : string :=
  match s with
  | String c s' => if isStrWhiteSpace c then trimStart s' else s
  | EmptyString => s
  end.

Definition digitValue (radix : Z) (c : ascii) : option Z :=
  let n := codeOf c in
  let v := if (48 <=? n) && (n <=? 57) then n - 48
           else if (97 <=? n) && (n <=? 122) then n - 87
           else if (65 <=? n) && (n <=? 90) then n - 55
           else 36 in
  if v <? radix then Some v else None.

(** The longest prefix of radix digits, read left to right; [None] when it
    is empty. *)
Fixpoint readDigits (radix : Z) (acc : option Z) (s : string) : option Z :=
  match s with
  | String c s' =>
      match digitValue radix c with
      | Some v =>
          readDigits radix
            (Some (match acc with Some a => a * radix + v | None => v end)) s'
      | None => acc
      end
  | EmptyString => acc
  end.

Definition parseIntBody (sign : Z) (s : string) : num :=
  let '(radix, ds) :=
    match s with
    | String c1 (String c2 r) =>
        if Ascii.eqb c1 "0" && (Ascii.eqb c2 "x" || Ascii.eqb c2 "X")
        then (16, r) else (10, s)
    | _ => (10, s)
    end in
  match readDigits radix None ds with
  | Some v => Num (sign * v)
  | None => NaN
  end.

Definition parseInt (input : string) : num :=
  match trimStart input with
  | String c r =>
      if Ascii.eqb c "-" then parseIntBody (-1) r
      else if Ascii.eqb c "+" then parseIntBody 1 r
      else parseIntBody 1 (String c r)
  | EmptyString => parseIntBody 1 EmptyString
  end.

(** [ToString] of a value that may be [undefined]. *)
Definition toStr (v : option string) : string :=
  match v with
  | Some s => s
  | None => "undefined"
  end.

(** *** The two regular expressions of the parser *)

(** [String.prototype.match] without the global flag: the leftmost
    position at which the pattern matches. *)
Fixpoint findFirst {A : Type} (try : string -> option A) (s : string)
  : option A :=
  match try s with
  | Some a => Some a
  | None =>
      match s with
      | EmptyString => None
      | String _ s' => findFirst try s'
      end
  end.

Fixpoint stripPrefix (p s : string) : option string :=
  match p with
  | EmptyString => Some s
  | String a p' =>
      match s with
      | String b s' => if Ascii.eqb a b then stripPrefix p' s' else None
      | EmptyString => None
      end
  end.

(** The longest prefix of characters for which [stop] is false. *)
Fixpoint span (stop : ascii -> bool) (s : string) : string * string :=
  match s with
  | String c s' =>
      if stop c then (EmptyString, s)
      else let '(h, t) := span stop s' in (String c h, t)
  | EmptyString => (EmptyString, EmptyString)
  end.

(** [\d{n}] at the head of [s]: the digits and what follows them. *)
Fixpoint digits (n : nat) (s : string) : option (string * string) :=
  match n with
  | O => Some (EmptyString, s)
  | S k =>
      match s with
      | String c s' =>
          if isDigit c then
            match digits k s' with
            | Some (d, r) => Some (String c d, r)
            | None => None
            end
          else None
      | EmptyString => None
      end
  end.

(** [(\d{8}T\d{6})] at the head of [s]. *)
Definition dateTimeLit (s : string) : option string :=
  match digits 8 s with
  | Some (d, String c r) =>
      if Ascii.eqb c "T" then
        match digits 6 r with
        | Some (t, _) => Some (d ++ String "T" t)
        | None => None
        end
      else None
  | _ => None
  end.

Definition isColon (c : ascii) : bool := Ascii.eqb c ":".

(** [/DTSTART;TZID=([^:]+):(\d{8}T\d{6})/] anchored at the head of [s].
    [[^:]+] is greedy and must be followed by a colon, so its only possible
    match is the whole run of characters before the next colon. *)
Definition dtstartAt (s : string) : option (string * string) :=
  match stripPrefix "DTSTART;TZID=" s with
  | Some r =>
      match span isColon r with
      | (String c tz, String _ r') =>
          match dateTimeLit r' with
          | Some d => Some (String c tz, d)
          | None => None
          end
      | _ => None
      end
  | None => None
  end.

(** [/RRULE:(.+)/] anchored at the head of [s]: [.] is any character but a
    line terminator. *)
Definition rruleAt (s : string) : option string :=
  match stripPrefix "RRULE:" s with
  | Some r =>
      match span isLineTerminator r with
      | (String c g, _) => Some (String c g)
      | _ => None
      end
  | None => None
  end.

Definition matchDtstart (s : string) : option (string * string) :=
  findFirst dtstartAt s.

Definition matchRrule (s : string) : option string :=
  findFirst rruleAt s.

(* ------------------------------------------------------------------ *)
(** ** Time values (ECMA-262, 21.4.1) *)

Module Time.

Definition msPerDay : Z := 86400000.

Definition Day (t : Z) : Z := t / msPerDay.
Definition TimeWithinDay (t : Z) : Z := t mod msPerDay.

Definition DayFromYear (y : Z) : Z :=
  365 * (y - 1970) + (y - 1969) / 4 - (y - 1901) / 100 + (y - 1601) / 400.

Definition isLeapYear (y : Z) : bool :=
  (y mod 4 =? 0) && (negb (y mod 100 =? 0) || (y mod 400 =? 0)).

Definition leapDay (y : Z) : Z := if isLeapYear y then 1 else 0.

Definition DaysInYear (y : Z) : Z := 365 + leapDay y.

(** The largest [y] with [DayFromYear y <= d], found among the three years
    around the mean-year estimate (see [YearFromDay_spec]). *)
Definition YearFromDay (d : Z) : Z :=
  let y0 := 1970 + (400 * d) / 146097 in
  if DayFromYear (y0 + 1) <=? d then y0 + 1
  else if DayFromYear y0 <=? d then y0
  else y0 - 1.

(** Days before month [m] (0-based) in a year with [l] leap days. *)
Definition cumDays (m l : Z) : Z :=
  if m <=? 0 then 0
  else if m =? 1 then 31
  else if m =? 2 then 59 + l
  else if m =? 3 then 90 + l
  else if m =? 4 then 120 + l
  else if m =? 5 then 151 + l
  else if m =? 6 then 181 + l
  else if m =? 7 then 212 + l
  else if m =? 8 then 243 + l
  else if m =? 9 then 273 + l
  else if m =? 10 then 304 + l
  else 334 + l.

Definition MonthFromDayWithinYear (dw l : Z) : Z :=
  if dw <? 31 then 0
  else if dw <? 59 + l then 1
  else if dw <? 90 + l then 2
  else if dw <? 120 + l then 3
  else if dw <? 151 + l then 4
  else if dw <? 181 + l then 5
  else if dw <? 212 + l then 6
  else if dw <? 243 + l then 7
  else if dw <? 273 + l then 8
  else if dw <? 304 + l then 9
  else if dw <? 334 + l then 10
  else 11.

Definition YearFromTime (t : Z) : Z := YearFromDay (Day t).

Definition DayWithinYear (t : Z) : Z := Day t - DayFromYear (YearFromTime t).

Definition MonthFromTime (t : Z) : Z :=
  MonthFromDayWithinYear (DayWithinYear t) (leapDay (YearFromTime t)).

Definition DateFromTime (t : Z) : Z :=
  DayWithinYear t - cumDays (MonthFromTime t) (leapDay (YearFromTime t)) + 1.

Definition WeekDay (t : Z) : Z := (Day t + 4) mod 7.

Definition HourFromTime (t : Z) : Z := (t / 3600000) mod 24.
Definition MinFromTime (t : Z) : Z := (t / 60000) mod 60.
Definition SecFromTime (t : Z) : Z := (t / 1000) mod 60.
Definition msFromTime (t : Z) : Z := t mod 1000.

Definition MakeTime (h m s ms : Z) : Z :=
  h * 3600000 + m * 60000 + s * 1000 + ms.

(** [month] is 0-based and may lie outside 0..11; [date] may lie outside
    the month. *)
Definition MakeDay (year month date : Z) : Z :=
  let ym := year + month / 12 in
  let mn := month mod 12 in
  DayFromYear ym + cumDays mn (leapDay ym) + date - 1.

Definition MakeDate (day time : Z) : Z := day * msPerDay + time.

(** [TimeClip]: [None] is the time value NaN. *)
Definition TimeClip (t : Z) : option Z :=
  if Z.abs t <=? 8640000000000000 then Some t else None.

(** [Date.UTC(y, m, d, h, mi, s, ms)] on integers: years 0..99 mean
    1900..1999. *)
Definition DateUTC (y m d h mi s ms : Z) : option Z :=
  let yr := if (0 <=? y) && (y <=? 99) then 1900 + y else y in
  TimeClip (MakeDate (MakeDay yr m d) (MakeTime h mi s ms)).

(** [date.setUTCFullYear(y, m, d)] on the time value [t] ([None] counts
    as +0). *)
Definition setUTCFullYear (t : option Z) (y m d : Z) : option Z :=
  let t0 := match t with Some v => v | None => 0 end in
  TimeClip (MakeDate (MakeDay y m d) (TimeWithinDay t0)).

End Time.

(** A JavaScript [Date] object: its time value, or NaN. *)
Inductive JSDate : Type :=
| InvalidDate
| DateAt (tv : Z).

Definition dateOf (t : option Z) : JSDate :=
  match t with
  | Some v => DateAt v
  | None => InvalidDate
  end.

(** [a > b] and [a >= b] on two [Date]s compare time values; every
    comparison with NaN is false. *)
Definition dateGt (a b : JSDate) : bool :=
  match a, b with
  | DateAt x, DateAt y => y <? x
  | _, _ => false
  end.

Definition dateGe (a b : JSDate) : bool :=
  match a, b with
  | DateAt x, DateAt y => y <=? x
  | _, _ => false
  end.

(* ------------------------------------------------------------------ *)
(** ** The date-time library

    The part of Luxon's [DateTime] that the generators use. *)

Module Luxon.
Import Time.

Record Civil : Type := {
  year : Z; month : Z; day : Z;
  hour : Z; minute : Z; second : Z; millisecond : Z
}.

(** A zone gives its offset from UTC, in minutes, at every instant. *)
Record Zone : Type := {
  zoneName : string;
  isUniversal : bool;
  offset : Z -> Z
}.

Definition fixedZone (name : string) (o : Z) : Zone :=
  {| zoneName := name; isUniversal := true; offset := fun _ => o |}.

Definition utcZone : Zone := fixedZone "UTC" 0.

Definition daysInMonth (y m : Z) : Z :=
  let modMonth := (m - 1) mod 12 + 1 in
  let modYear := y + (m - modMonth) / 12 in
  if modMonth =? 2 then (if isLeapYear modYear then 29 else 28)
  else if (modMonth =? 4) || (modMonth =? 6) || (modMonth =? 9)
          || (modMonth =? 11) then 30
  else 31.

(** [tsToObj(ts, offset)], on the local time value [ts + offset * 60000]. *)
Definition tsToObj (t : Z) : Civil :=
  {| year := YearFromTime t; month := MonthFromTime t + 1;
     day := DateFromTime t;
     hour := HourFromTime t; minute := MinFromTime t;
     second := SecFromTime t; millisecond := msFromTime t |}.

Definition objToLocalTS (c : Civil) : option Z :=
  let d := DateUTC (year c) (month c - 1) (day c)
             (hour c) (minute c) (second c) (millisecond c) in
  if (0 <=? year c) && (year c <? 100)
  then setUTCFullYear d (year c) (month c - 1) (day c)
  else d.

(** [fixOffset(localTS, o, tz)]: the instant whose civil time in [tz] is
    [localTS], guessing the offset [o] first; in a gap of the zone the time
    is moved forward. *)
Definition fixOffset (localTS o : Z) (tz : Zone) : Z * Z :=
  let utcGuess := localTS - o * 60000 in
  let o2 := offset tz utcGuess in
  if o =? o2 then (utcGuess, o)
  else
    let utcGuess' := utcGuess - (o2 - o) * 60000 in
    let o3 := offset tz utcGuess' in
    if o2 =? o3 then (utcGuess', o2)
    else (localTS - Z.min o2 o3 * 60000, Z.max o2 o3).

Definition objToTS (c : Civil) (o : Z) (tz : Zone) : option Z :=
  match objToLocalTS c with
  | Some l => Some (fst (fixOffset l o tz))
  | None => None
  end.

(** An invalid [DateTime], or an instant seen in a zone.  The civil fields
    and the offset of a valid one are those of its zone at its instant. *)
Inductive DateTime : Type :=
| Invalid
| At (ts : Z) (zone : Zone).

(** The constructor: NaN, or civil fields out of the range of [Date], give
    an invalid [DateTime]. *)
Definition mkDateTime (ts : option Z) (z : Zone) : DateTime :=
  match ts with
  | Some t =>
      match TimeClip (t + offset z t * 60000) with
      | Some _ => At t z
      | None => Invalid
      end
  | None => Invalid
  end.

Definition offsetOf (t : Z) (z : Zone) : Z := offset z t.

Definition civilOf (t : Z) (z : Zone) : Civil :=
  tsToObj (t + offset z t * 60000).

Definition asNumber (n : num) : result Z :=
  match n with
  | Num z => Ok z
  | NaN => Throw InvalidArgumentError
  end.

Definition integerBetween (x lo hi : Z) : bool := (lo <=? x) && (x <=? hi).

Definition hasInvalidGregorianData (c : Civil) : bool :=
  negb (integerBetween (month c) 1 12
        && integerBetween (day c) 1 (daysInMonth (year c) (month c))).

Definition hasInvalidTimeData (c : Civil) : bool :=
  negb ((integerBetween (hour c) 0 23
         || ((hour c =? 24) && (minute c =? 0) && (second c =? 0)
             && (millisecond c =? 0)))
        && integerBetween (minute c) 0 59
        && integerBetween (second c) 0 59
        && integerBetween (millisecond c) 0 999).

(** [DateTime.fromObject({year, month, day, hour, minute, second},
    {zone: "UTC"})]. *)
Definition fromObjectUTC (y mo d h mi s : num) : result DateTime :=
  y' <- asNumber y ;; mo' <- asNumber mo ;; d' <- asNumber d ;;
  h' <- asNumber h ;; mi' <- asNumber mi ;; s' <- asNumber s ;;
  let c := {| year := y'; month := mo'; day := d';
              hour := h'; minute := mi'; second := s'; millisecond := 0 |} in
  if hasInvalidGregorianData c || hasInvalidTimeData c then Ok Invalid
  else Ok (mkDateTime (objToTS c 0 utcZone) utcZone).

Definition toJSDate (dt : DateTime) : JSDate :=
  match dt with
  | Invalid => InvalidDate
  | At t _ => dateOf (TimeClip t)
  end.

(** [DateTime.fromJSDate(date)]: in the zone [sys] of the host. *)
Definition fromJSDate (sys : Zone) (d : JSDate) : DateTime :=
  match d with
  | InvalidDate => Invalid
  | DateAt t => mkDateTime (Some t) sys
  end.

(** [dt.setZone(zone)]; [None] is a zone name that does not resolve. *)
Definition setZone (z : option Zone) (dt : DateTime) : DateTime :=
  match dt, z with
  | Invalid, _ => Invalid
  | At _ _, None => Invalid
  | At t _, Some z' => mkDateTime (Some t) z'
  end.

(** [dt.set(values)]: the civil fields are overwritten by [upd] and read
    back in the same zone; without a [day] among the values the day is
    clamped to the month. *)
Definition set (upd : Civil -> Civil) (dayGiven : bool) (dt : DateTime)
  : DateTime :=
  match dt with
  | Invalid => Invalid
  | At t z =>
      let m := upd (civilOf t z) in
      let m' :=
        if dayGiven then m
        else {| year := year m; month := month m;
                day := Z.min (daysInMonth (year m) (month m)) (day m);
                hour := hour m; minute := minute m; second := second m;
                millisecond := millisecond m |} in
      mkDateTime (objToTS m' (offsetOf t z) z) z
  end.

Definition withTime (h mi s : Z) (c : Civil) : Civil :=
  {| year := year c; month := month c; day := day c;
     hour := h; minute := mi; second := s; millisecond := millisecond c |}.

Definition withMonthStart (c : Civil) : Civil :=
  {| year := year c; month := month c; day := 1;
     hour := 0; minute := 0; second := 0; millisecond := 0 |}.

(** [dt.set({hour, minute, second})] with the fields of another
    [DateTime]; those of an invalid one are NaN, which [set] refuses. *)
Definition setTime (hms : option (Z * Z * Z)) (dt : DateTime)
  : result DateTime :=
  match dt with
  | Invalid => Ok Invalid
  | At _ _ =>
      match hms with
      | None => Throw InvalidArgumentError
      | Some (h, mi, s) => Ok (set (withTime h mi s) false dt)
      end
  end.

(** [adjustTime]: calendar arithmetic on the civil fields, then back to an
    instant; [ms] is added to the instant afterwards. *)
Definition adjustTime (years months days ms : Z) (dt : DateTime) : DateTime :=
  match dt with
  | Invalid => Invalid
  | At t z =>
      let c := civilOf t z in
      let y := year c + years in
      let m := month c + months in
      let c' := {| year := y; month := m;
                   day := Z.min (day c) (daysInMonth y m) + days;
                   hour := hour c; minute := minute c; second := second c;
                   millisecond := millisecond c |} in
      match objToTS c' (offsetOf t z) z with
      | Some ts => mkDateTime (Some (ts + ms)) z
      | None => Invalid
      end
  end.

Inductive Unit : Type := Days | Weeks | Months | Years.

(** [dt.plus({unit: n})]: an invalid [DateTime] is returned as it is,
    before the duration is looked at; NaN is refused. *)
Definition plus (u : Unit) (n : num) (dt : DateTime) : result DateTime :=
  match dt with
  | Invalid => Ok Invalid
  | At _ _ =>
      n' <- asNumber n ;;
      Ok (match u with
          | Days => adjustTime 0 0 n' 0 dt
          | Weeks => adjustTime 0 0 (n' * 7) 0 dt
          | Months => adjustTime 0 n' 0 0 dt
          | Years => adjustTime n' 0 0 0 dt
          end)
  end.

Definition plusDays1 (dt : DateTime) : DateTime := adjustTime 0 0 1 0 dt.

(** [dt.startOf("month")] and [dt.endOf("month")]. *)
Definition startOfMonth (dt : DateTime) : DateTime :=
  set withMonthStart true dt.

Definition endOfMonth (dt : DateTime) : DateTime :=
  adjustTime 0 0 0 (-1) (startOfMonth (adjustTime 0 1 0 0 dt)).

(** [dt.weekday]: 1 is Monday, 7 is Sunday; NaN when invalid. *)
Definition weekday (dt : DateTime) : num :=
  match dt with
  | Invalid => NaN
  | At t z =>
      let c := civilOf t z in
      let js := WeekDay (MakeDate (MakeDay (year c) (month c - 1) (day c)) 0) in
      Num (if js =? 0 then 7 else js)
  end.

(** [dt.valueOf()]: [None] is NaN. *)
Definition valueOf (dt : DateTime) : option Z :=
  match dt with
  | Invalid => None
  | At t _ => Some t
  end.

(** [a <= b] on two [DateTime]s. *)
Definition leDateTime (a b : DateTime) : bool :=
  match valueOf a, valueOf b with
  | Some x, Some y => x <=? y
  | _, _ => false
  end.

(** *** [dt.toString()]: extended ISO 8601 with milliseconds and offset *)

Definition decimal (z : Z) : string :=
  NilZero.string_of_uint (N.to_uint (Z.to_N z)).

Fixpoint zeros (n : nat) : string :=
  match n with
  | O => EmptyString
  | S k => String "0" (zeros k)
  end.

Definition padStart (input : Z) (n : nat) : string :=
  let body := decimal (Z.abs input) in
  let padded := zeros (n - String.length body) ++ body in
  if input <? 0 then String "-" padded else padded.

Definition toISODate (c : Civil) : string :=
  let longFormat := (9999 <? year c) || (year c <? 0) in
  (if longFormat && (0 <=? year c) then "+" else "")
  ++ padStart (year c) (if longFormat then 6 else 4)
  ++ "-" ++ padStart (month c) 2 ++ "-" ++ padStart (day c) 2.

Definition toISOTime (c : Civil) (o : Z) (universal : bool) : string :=
  padStart (hour c) 2 ++ ":" ++ padStart (minute c) 2 ++ ":"
  ++ padStart (second c) 2 ++ "." ++ padStart (millisecond c) 3
  ++ (if universal && (o =? 0) then "Z"
      else if o <? 0
           then "-" ++ padStart (Z.quot (- o) 60) 2 ++ ":"
                ++ padStart (Z.rem (- o) 60) 2
           else "+" ++ padStart (Z.quot o 60) 2 ++ ":"
                ++ padStart (Z.rem o 60) 2).

Definition toString (dt : DateTime) : string :=
  match dt with
  | Invalid => "Invalid DateTime"
  | At t z =>
      toISODate (civilOf t z) ++ "T"
      ++ toISOTime (civilOf t z) (offsetOf t z) (isUniversal z)
  end.

End Luxon.

(* ------------------------------------------------------------------ *)
(** ** The host

    What the code takes from its environment: the zone of the machine (a
    fixed offset from UTC, in minutes), the zones that a zone name resolves
    to, and [DateTime.fromISO], of which only the hour, minute and second
    of the result are read ([None] for a text that is not a date). *)

Record Host : Type := {
  hostOffset : Z;
  normalizeZone : string -> option Luxon.Zone;
  fromISO : string -> option (Z * Z * Z)
}.

Definition systemZone (host : Host) : Luxon.Zone :=
  {| Luxon.zoneName := "system"; Luxon.isUniversal := false;
     Luxon.offset := fun _ => hostOffset host |}.

(** [new Date(y, m, d, h, mi, s)]: civil fields in the zone of the host;
    years 0..99 mean 1900..1999. *)
Definition newDate (host : Host) (y m d : num) (h mi s : Z) : JSDate :=
  match y, m, d with
  | Num y', Num m', Num d' =>
      let yr := if (0 <=? y') && (y' <=? 99) then 1900 + y' else y' in
      let local := Time.MakeDate (Time.MakeDay yr m' d') (Time.MakeTime h mi s 0) in
      dateOf (Time.TimeClip (local - hostOffset host * 60000))
  | _, _, _ => InvalidDate
  end.

Definition numPred (n : num) : num :=
  match n with
  | Num z => Num (z - 1)
  | NaN => NaN
  end.

(* ------------------------------------------------------------------ *)
(** ** The recurrence options *)

Inductive Frequency : Type := DAILY | WEEKLY | MONTHLY | YEARLY.

Inductive Weekday : Type := SU | MO | TU | WE | TH | FR | SA.

Definition weekdayNum (w : Weekday) : Z :=
  match w with
  | SU => 0 | MO => 1 | TU => 2 | WE => 3 | TH => 4 | FR => 5 | SA => 6
  end.

Record Options : Type := {
  freq : Frequency;
  interval : num;
  dtstart : JSDate;
  until : option JSDate;
  wkst : option Weekday;
  byweekday : option (list Weekday);
  bysetpos : option (list num);
  count : option num
}.

Definition setFreq (f : Frequency) (o : Options) : Options :=
  {| freq := f; interval := interval o; dtstart := dtstart o;
     until := until o; wkst := wkst o; byweekday := byweekday o;
     bysetpos := bysetpos o; count := count o |}.

Definition setInterval (n : num) (o : Options) : Options :=
  {| freq := freq o; interval := n; dtstart := dtstart o;
     until := until o; wkst := wkst o; byweekday := byweekday o;
     bysetpos := bysetpos o; count := count o |}.

Definition setUntil (d : JSDate) (o : Options) : Options :=
  {| freq := freq o; interval := interval o; dtstart := dtstart o;
     until := Some d; wkst := wkst o; byweekday := byweekday o;
     bysetpos := bysetpos o; count := count o |}.

Definition setWkst (w : Weekday) (o : Options) : Options :=
  {| freq := freq o; interval := interval o; dtstart := dtstart o;
     until := until o; wkst := Some w; byweekday := byweekday o;
     bysetpos := bysetpos o; count := count o |}.

Definition setByweekday (l : list Weekday) (o : Options) : Options :=
  {| freq := freq o; interval := interval o; dtstart := dtstart o;
     until := until o; wkst := wkst o; byweekday := Some l;
     bysetpos := bysetpos o; count := count o |}.

Definition setBysetpos (l : list num) (o : Options) : Options :=
  {| freq := freq o; interval := interval o; dtstart := dtstart o;
     until := until o; wkst := wkst o; byweekday := byweekday o;
     bysetpos := Some l; count := count o |}.

Definition setCount (n : num) (o : Options) : Options :=
  {| freq := freq o; interval := interval o; dtstart := dtstart o;
     until := until o; wkst := wkst o; byweekday := byweekday o;
     bysetpos := bysetpos o; count := Some n |}.

(* ------------------------------------------------------------------ *)
(** ** The parser and the generators

    The source holds the algorithm twice: as the static methods of the
    class [TimezoneRRule] and as the closures of the hook
    [useRruleDatesGenerator].  The two texts are the same but for two
    places, both about [until]: how the UNTIL value becomes a [Date], and
    the comparison that ends the loops.  [Copy] selects the text. *)

Inductive Copy : Type := ClassCopy | HookCopy.

Section Algorithm.

Variable copy : Copy.
Variable host : Host.

(** *** parseRRuleString *)

Definition dtstartDate (dtstartStr : string) : result JSDate :=
  let year := parseInt (substring 0 4 dtstartStr) in
  let month := parseInt (substring 4 6 dtstartStr) in
  let day := parseInt (substring 6 8 dtstartStr) in
  let hour := parseInt (substring 9 11 dtstartStr) in
  let minute := parseInt (substring 11 13 dtstartStr) in
  let second := parseInt (substring 13 15 dtstartStr) in
  startInTargetZone <- Luxon.fromObjectUTC year month day hour minute second ;;
  Ok (Luxon.toJSDate startInTargetZone).

(** The UNTIL case.  The class calls [new Date(...)], which reads the
    fields in the zone of the host; the hook calls [DateTime.fromObject]
    with the zone UTC. *)
Definition untilDate (untilStr : string) : result JSDate :=
  let untilYear := parseInt (substring 0 4 untilStr) in
  let untilMonth := parseInt (substring 4 6 untilStr) in
  let untilDay := parseInt (substring 6 8 untilStr) in
  let untilHour := orDefault (parseInt (substring 9 11 untilStr)) 23 in
  let untilMinute := orDefault (parseInt (substring 11 13 untilStr)) 59 in
  let untilSecond := orDefault (parseInt (substring 13 15 untilStr)) 59 in
  match copy with
  | ClassCopy =>
      Ok (newDate host untilYear (numPred untilMonth) untilDay
            untilHour untilMinute untilSecond)
  | HookCopy =>
      untilDateTime <- Luxon.fromObjectUTC untilYear untilMonth untilDay
                         (Num untilHour) (Num untilMinute) (Num untilSecond) ;;
      Ok (Luxon.toJSDate untilDateTime)
  end.

Definition freqOfString (value : option string) : option Frequency :=
  match value with
  | Some v =>
      if (v =? "DAILY")%string then Some DAILY
      else if (v =? "WEEKLY")%string then Some WEEKLY
      else if (v =? "MONTHLY")%string then Some MONTHLY
      else if (v =? "YEARLY")%string then Some YEARLY
      else None
  | None => None
  end.

Definition weekdayOfString (v : string) : option Weekday :=
  if (v =? "SU")%string then Some SU
  else if (v =? "MO")%string then Some MO
  else if (v =? "TU")%string then Some TU
  else if (v =? "WE")%string then Some WE
  else if (v =? "TH")%string then Some TH
  else if (v =? "FR")%string then Some FR
  else if (v =? "SA")%string then Some SA
  else None.

(** A method call on [value]: a [TypeError] when it is [undefined]. *)
Definition defined (value : option string) : result string :=
  match value with
  | Some v => Ok v
  | None => Throw TypeError
  end.

(** The body of [parts.forEach]: [const [key, value] = part.split("=")]
    and the switch on [key]. *)
Definition parsePart (options : Options) (part : string) : result Options :=
  let kv := split "=" part in
  let key := hd EmptyString kv in
  let value := nth_error kv 1 in
  if (key =? "FREQ")%string then
    Ok (match freqOfString value with
        | Some f => setFreq f options
        | None => options
        end)
  else if (key =? "INTERVAL")%string then
    Ok (setInterval (parseInt (toStr value)) options)
  else if (key =? "UNTIL")%string then
    untilStr <- defined value ;;
    d <- untilDate untilStr ;;
    Ok (setUntil d options)
  else if (key =? "WKST")%string then
    Ok (match value with
        | Some v =>
            match weekdayOfString v with
            | Some w => setWkst w options
            | None => options
            end
        | None => options
        end)
  else if (key =? "BYDAY")%string then
    v <- defined value ;;
    Ok (setByweekday
          (map (fun day => match weekdayOfString day with
                           | Some w => w
                           | None => MO
                           end) (split "," v)) options)
  else if (key =? "BYSETPOS")%string then
    v <- defined value ;;
    Ok (setBysetpos (map (fun pos => parseInt pos) (split "," v)) options)
  else if (key =? "COUNT")%string then
    Ok (setCount (parseInt (toStr value)) options)
  else Ok options.

Fixpoint forEachPart (parts : list string) (options : Options)
  : result Options :=
  match parts with
  | [] => Ok options
  | part :: rest =>
      options' <- parsePart options part ;;
      forEachPart rest options'
  end.

Definition initialOptions (start : JSDate) : Options :=
  {| freq := DAILY; interval := Num 1; dtstart := start; until := None;
     wkst := Some MO; byweekday := None; bysetpos := None; count := None |}.

Definition parseRRuleString (rRuleString _startTime : string)
  : result (option Options) :=
  match rRuleString with
  | EmptyString => Ok None
  | _ =>
      match matchDtstart rRuleString with
      | None => Ok None
      | Some (_, dtstartStr) =>
          match matchRrule rRuleString with
          | None => Ok None
          | Some rrulePart =>
              start <- dtstartDate dtstartStr ;;
              options <- forEachPart (split ";" rrulePart)
                           (initialOptions start) ;;
              Ok (Some options)
          end
      end
  end.

(** *** The generators *)

Variable targetTimeZone : string.
Variable startTime : string.

(** [currentDate.setZone(targetTimeZone)] and [set] with the hour, minute
    and second of [DateTime.fromISO(startTime)]. *)
Definition finalDateTime (currentDate : Luxon.DateTime)
  : result Luxon.DateTime :=
  let dateInTargetZone :=
    Luxon.setZone (normalizeZone host targetTimeZone) currentDate in
  Luxon.setTime (fromISO host startTime) dateInTargetZone.

(** [options.until && currentDate.toJSDate() > options.until] in the
    class, [>=] in the hook. *)
Definition untilReached (options : Options) (currentDate : Luxon.DateTime)
  : bool :=
  match until options with
  | Some u =>
      match copy with
      | ClassCopy => dateGt (Luxon.toJSDate currentDate) u
      | HookCopy => dateGe (Luxon.toJSDate currentDate) u
      end
  | None => false
  end.

(** [options.count || 1000]. *)
Definition maxCount (options : Options) : Z :=
  match count options with
  | Some n => orDefault n 1000
  | None => 1000
  end.

(** The loop that the four generators share:
    [while (count < maxCount) { if (until is passed) break; body; count++ }].
    [count] goes up by one each time round, so the loop runs at most
    [maxCount] times: [fuel] is that number.  The body gives what it pushes
    and the next [currentDate]. *)
Fixpoint while
  (options : Options)
  (body : Luxon.DateTime -> result (list Luxon.DateTime * Luxon.DateTime))
  (fuel : nat) (currentDate : Luxon.DateTime) : result (list Luxon.DateTime) :=
  match fuel with
  | O => Ok []
  | S fuel' =>
      if untilReached options currentDate then Ok []
      else
        step <- body currentDate ;;
        rest <- while options body fuel' (snd step) ;;
        Ok (fst step ++ rest)%list
  end.

Definition startDate (options : Options) : Luxon.DateTime :=
  Luxon.fromJSDate (systemZone host) (dtstart options).

(** A body that pushes the current date and moves on by [interval]
    units. *)
Definition pushAndStep (u : Luxon.Unit) (options : Options)
  (currentDate : Luxon.DateTime)
  : result (list Luxon.DateTime * Luxon.DateTime) :=
  d <- finalDateTime currentDate ;;
  next <- Luxon.plus u (interval options) currentDate ;;
  Ok ([d], next).

Definition dailyDateTimes (options : Options) : result (list Luxon.DateTime) :=
  while options (pushAndStep Luxon.Days options)
    (Z.to_nat (maxCount options)) (startDate options).

(** [options.byweekday.includes(currentWeekday)], after Luxon's Sunday 7
    has become 0. *)
Definition includesWeekday (l : list Weekday) (wd : num) : bool :=
  match wd with
  | Num n =>
      let currentWeekday := if n =? 7 then 0 else n in
      existsb (fun w => weekdayNum w =? currentWeekday) l
  | NaN => false
  end.

Definition weeklyByDayBody (l : list Weekday) (currentDate : Luxon.DateTime)
  : result (list Luxon.DateTime * Luxon.DateTime) :=
  pushed <-
    (if includesWeekday l (Luxon.weekday currentDate)
     then d <- finalDateTime currentDate ;; Ok [d]
     else Ok []) ;;
  next <- Luxon.plus Luxon.Days (Num 1) currentDate ;;
  Ok (pushed, next).

Definition weeklyDateTimes (options : Options) : result (list Luxon.DateTime) :=
  match byweekday options with
  | Some (w :: l) =>
      while options (weeklyByDayBody (w :: l))
        (Z.to_nat (maxCount options)) (startDate options)
  | _ =>
      while options (pushAndStep Luxon.Weeks options)
        (Z.to_nat (maxCount options)) (startDate options)
  end.

(** The inner loop of the monthly generator:
    [while (checkDate <= monthEnd) { if (checkDate.weekday % 7 ===
    targetWeekday) push; checkDate = checkDate.plus({days: 1}) }].
    It gives the dates pushed and the [checkDate] it stopped at; a month
    has at most 31 days (see [weekdayOccurrences_month]). *)
Fixpoint weekdayOccurrences (fuel : nat) (targetWeekday : option Weekday)
  (monthEnd checkDate : Luxon.DateTime)
  : list Luxon.DateTime * Luxon.DateTime :=
  match fuel with
  | O => ([], checkDate)
  | S fuel' =>
      if Luxon.leDateTime checkDate monthEnd then
        let hit :=
          match Luxon.weekday checkDate, targetWeekday with
          | Num n, Some w => n mod 7 =? weekdayNum w
          | _, _ => false
          end in
        let '(l, final) :=
          weekdayOccurrences fuel' targetWeekday monthEnd
            (Luxon.plusDays1 checkDate) in
        (if hit then checkDate :: l else l, final)
      else ([], checkDate)
  end.

(** [weekdayOccurrences[occurrence - 1]] when [occurrence] is between 1
    and the length, the last element when it is -1, else [null]. *)
Definition targetOccurrence (occurrence : option num)
  (occurrences : list Luxon.DateTime) : option Luxon.DateTime :=
  match occurrence with
  | Some (Num n) =>
      if (0 <? n) && (n <=? Z.of_nat (List.length occurrences))
      then nth_error occurrences (Z.to_nat (n - 1))
      else if n =? -1 then last (map Some occurrences) None
      else None
  | _ => None
  end.

Definition monthlyBody (options : Options) (currentDate : Luxon.DateTime)
  : result (list Luxon.DateTime * Luxon.DateTime) :=
  pushed <-
    match byweekday options, bysetpos options with
    | Some ws, Some ps =>
        let targetWeekday := nth_error ws 0 in
        let occurrence := nth_error ps 0 in
        let monthStart := Luxon.startOfMonth currentDate in
        let monthEnd := Luxon.endOfMonth currentDate in
        let occurrences :=
          fst (weekdayOccurrences 31 targetWeekday monthEnd monthStart) in
        match targetOccurrence occurrence occurrences with
        | Some d => d' <- finalDateTime d ;; Ok [d']
        | None => Ok []
        end
    | _, _ => d <- finalDateTime currentDate ;; Ok [d]
    end ;;
  next <- Luxon.plus Luxon.Months (interval options) currentDate ;;
  Ok (pushed, next).

Definition monthlyDateTimes (options : Options)
  : result (list Luxon.DateTime) :=
  while options (monthlyBody options)
    (Z.to_nat (maxCount options)) (startDate options).

Definition yearlyDateTimes (options : Options) : result (list Luxon.DateTime) :=
  while options (pushAndStep Luxon.Years options)
    (Z.to_nat (maxCount options)) (startDate options).

(** Every generator pushes [finalDateTime.toString()]. *)
Definition strings (r : result (list Luxon.DateTime)) : result (list string) :=
  l <- r ;; Ok (map Luxon.toString l).

Definition generateDailyDates (options : Options) : result (list string) :=
  strings (dailyDateTimes options).

Definition generateWeeklyDates (options : Options) : result (list string) :=
  strings (weeklyDateTimes options).

Definition generateMonthlyDates (options : Options) : result (list string) :=
  strings (monthlyDateTimes options).

Definition generateYearlyDates (options : Options) : result (list string) :=
  strings (yearlyDateTimes options).

(** The [DateTime]s behind the strings of [getDatesWithCustomTimezone]. *)
Definition dateTimesOf (options : Options) : result (list Luxon.DateTime) :=
  match freq options with
  | DAILY => dailyDateTimes options
  | WEEKLY => weeklyDateTimes options
  | MONTHLY => monthlyDateTimes options
  | YEARLY => yearlyDateTimes options
  end.

Definition getDatesWithCustomTimezone (rRuleString : string)
  : result (list string) :=
  match rRuleString with
  | EmptyString => Ok []
  | _ =>
      parsed <- parseRRuleString rRuleString startTime ;;
      match parsed with
      | None => Ok []
      | Some options =>
          match freq options with
          | DAILY => generateDailyDates options
          | WEEKLY => generateWeeklyDates options
          | MONTHLY => generateMonthlyDates options
          | YEARLY => generateYearlyDates options
          end
      end
  end.

End Algorithm.

(** The class and the hook. *)
Module TimezoneRRule.

Definition parseRRuleString := parseRRuleString ClassCopy.

Definition getDatesWithCustomTimezone
  (host : Host) (rRuleString targetTimeZone startTime : string)
  : result (list string) :=
  getDatesWithCustomTimezone ClassCopy host targetTimeZone startTime
    rRuleString.

End TimezoneRRule.

Module useRruleDatesGenerator.

Definition parseRRuleString := parseRRuleString HookCopy.

Definition getDatesWithCustomTimezone
  (host : Host) (rRuleString targetTimeZone startTime : string)
  : result (list string) :=
  getDatesWithCustomTimezone HookCopy host targetTimeZone startTime
    rRuleString.

End useRruleDatesGenerator.

(* ------------------------------------------------------------------ *)
(** ** The host's [Date] in local time (ECMA-262, 21.4.4)

    The getters and setters that the class [RRule] calls, on a host whose
    zone is [k] minutes east of UTC.  A getter of an invalid date is NaN;
    a setter gives the date after the call. *)

Module JsDate.
Import Time.

Section Local.

Variable k : Z.

Definition LocalTime (t : Z) : Z := t + k * 60000.

Definition UTC (t : Z) : Z := t - k * 60000.

Definition getter (f : Z -> Z) (d : JSDate) : num :=
  match d with
  | InvalidDate => NaN
  | DateAt t => Num (f (LocalTime t))
  end.

Definition getSeconds : JSDate -> num := getter SecFromTime.
Definition getMinutes : JSDate -> num := getter MinFromTime.
Definition getHours : JSDate -> num := getter HourFromTime.
Definition getDate : JSDate -> num := getter DateFromTime.
Definition getDay : JSDate -> num := getter WeekDay.
Definition getMonth : JSDate -> num := getter MonthFromTime.
Definition getFullYear : JSDate -> num := getter YearFromTime.

(** [date.setSeconds(sec)], [date.setMinutes(min)], [date.setHours(hour)]:
    the other clock fields are those of the date. *)
Definition setSeconds (sec : num) (d : JSDate) : JSDate :=
  match d, sec with
  | DateAt t0, Num s =>
      let t := LocalTime t0 in
      let date := MakeDate (Day t)
                    (MakeTime (HourFromTime t) (MinFromTime t) s (msFromTime t)) in
      dateOf (TimeClip (UTC date))
  | _, _ => InvalidDate
  end.

Definition setMinutes (min : num) (d : JSDate) : JSDate :=
  match d, min with
  | DateAt t0, Num m =>
      let t := LocalTime t0 in
      let date := MakeDate (Day t)
                    (MakeTime (HourFromTime t) m (SecFromTime t) (msFromTime t)) in
      dateOf (TimeClip (UTC date))
  | _, _ => InvalidDate
  end.

Definition setHours (hour : num) (d : JSDate) : JSDate :=
  match d, hour with
  | DateAt t0, Num h =>
      let t := LocalTime t0 in
      let date := MakeDate (Day t)
                    (MakeTime h (MinFromTime t) (SecFromTime t) (msFromTime t)) in
      dateOf (TimeClip (UTC date))
  | _, _ => InvalidDate
  end.

(** [date.setDate(date)] and [date.setMonth(month)]: the argument may lie
    outside the month or the year; [MakeDay] carries it over. *)
Definition setDate (date : num) (d : JSDate) : JSDate :=
  match d, date with
  | DateAt t0, Num dt =>
      let t := LocalTime t0 in
      let newDate := MakeDate (MakeDay (YearFromTime t) (MonthFromTime t) dt)
                       (TimeWithinDay t) in
      dateOf (TimeClip (UTC newDate))
  | _, _ => InvalidDate
  end.

Definition setMonth (month : num) (d : JSDate) : JSDate :=
  match d, month with
  | DateAt t0, Num m =>
      let t := LocalTime t0 in
      let newDate := MakeDate (MakeDay (YearFromTime t) m (DateFromTime t))
                       (TimeWithinDay t) in
      dateOf (TimeClip (UTC newDate))
  | _, _ => InvalidDate
  end.

(** [date.setFullYear(year)]: an invalid date counts as the time value 0. *)
Definition setFullYear (year : num) (d : JSDate) : JSDate :=
  match year with
  | Num y =>
      let t := match d with
               | DateAt t0 => LocalTime t0
               | InvalidDate => 0
               end in
      let newDate := MakeDate (MakeDay y (MonthFromTime t) (DateFromTime t))
                       (TimeWithinDay t) in
      dateOf (TimeClip (UTC newDate))
  | NaN => InvalidDate
  end.

End Local.

(** [a <= b] on two [Date]s. *)
Definition dateLe (a b : JSDate) : bool :=
  match a, b with
  | DateAt x, DateAt y => x <=? y
  | _, _ => false
  end.

(** [date.toISOString()]: the fields in UTC; [None] is the [RangeError] of
    an invalid date.  Years outside 0..9999 are written with a sign and six
    digits. *)
Definition isoYear (y : Z) : string :=
  if (0 <=? y) && (y <=? 9999) then Luxon.padStart y 4
  else (if y <? 0 then "-" else "+") ++ Luxon.padStart (Z.abs y) 6.

Definition toISOString (d : JSDate) : option string :=
  match d with
  | InvalidDate => None
  | DateAt t =>
      Some (isoYear (YearFromTime t) ++ "-"
            ++ Luxon.padStart (MonthFromTime t + 1) 2 ++ "-"
            ++ Luxon.padStart (DateFromTime t) 2 ++ "T"
            ++ Luxon.padStart (HourFromTime t) 2 ++ ":"
            ++ Luxon.padStart (MinFromTime t) 2 ++ ":"
            ++ Luxon.padStart (SecFromTime t) 2 ++ "."
            ++ Luxon.padStart (msFromTime t) 3 ++ "Z")
  end.

End JsDate.

(** [a + b] on numbers, [b] an integer. *)
Definition numAdd (a : num) (b : Z) : num :=
  match a with
  | Num x => Num (x + b)
  | NaN => NaN
  end.

(** [a || b] where [a] may be [undefined]. *)
Definition orNumber (a : option num) (b : Z) : Z :=
  match a with
  | Some n => orDefault n b
  | None => b
  end.

(** The truth value of a number that may be [undefined]. *)
Definition truthy (a : option num) : bool :=
  match a with
  | Some (Num z) => negb (z =? 0)
  | _ => false
  end.

(** [`${n}`] for an integer below 10^21 in magnitude. *)
Definition numberToString (n : num) : string :=
  match n with
  | NaN => "NaN"
  | Num z => if z <? 0 then "-" ++ Luxon.decimal (- z) else Luxon.decimal z
  end.

(** [parseInt(string, 10)]: with a radix of 10 no prefix is looked for. *)
Definition parseInt10Body (sign : Z) (s : string) : num :=
  match readDigits 10 None s with
  | Some v => Num (sign * v)
  | None => NaN
  end.

Definition parseInt10 (input : string) : num :=
  match trimStart input with
  | String c r =>
      if Ascii.eqb c "-" then parseInt10Body (-1) r
      else if Ascii.eqb c "+" then parseInt10Body 1 r
      else parseInt10Body 1 (String c r)
  | EmptyString => parseInt10Body 1 EmptyString
  end.

(** The truth value of a string that may be [undefined]. *)
Definition truthyString (a : option string) : bool :=
  match a with
  | Some EmptyString => false
  | Some _ => true
  | None => false
  end.

(** Whether a field is there. *)
Definition isSome {A : Type} (a : option A) : bool :=
  match a with
  | Some _ => true
  | None => false
  end.

(** [array.push(x)]. *)
Definition push {A : Type} (array : list A) (x : A) : list A :=
  (array ++ [x])%list.

(** [parts.join(sep)]. *)
Fixpoint join (sep : string) (parts : list string) : string :=
  match parts with
  | [] => EmptyString
  | [p] => p
  | p :: rest => p ++ sep ++ join sep rest
  end.

(** [s.replace(/[-:]/g, "")]. *)
Fixpoint removeDashColon (s : string) : string :=
  match s with
  | EmptyString => EmptyString
  | String c s' =>
      if Ascii.eqb c "-" || Ascii.eqb c ":" then removeDashColon s'
      else String c (removeDashColon s')
  end.

(* ------------------------------------------------------------------ *)
(** ** The types of the library ([types.ts])

    The members of the enum [Frequency] are strings, and the parser of
    [RRule] stores any string as a frequency: [freq] is a string, or
    [undefined].  [byday] holds members of the enum [Weekday], as its type
    says.  A field that an object does not have is [None]. *)

Module Types.

Definition YEARLY : string := "YEARLY".
Definition MONTHLY : string := "MONTHLY".
Definition WEEKLY : string := "WEEKLY".
Definition DAILY : string := "DAILY".
Definition HOURLY : string := "HOURLY".
Definition MINUTELY : string := "MINUTELY".
Definition SECONDLY : string := "SECONDLY".

Record RRuleOptions : Type := {
  freq : option string;
  interval : option num;
  count : option num;
  until : option JSDate;
  bysecond : option (list num);
  byminute : option (list num);
  byhour : option (list num);
  byday : option (list Weekday);
  bymonthday : option (list num);
  byyearday : option (list num);
  byweekno : option (list num);
  bymonth : option (list num);
  bysetpos : option (list num);
  wkst : option Weekday
}.

Record Occurrence : Type := {
  date : JSDate;
  isAllDay : bool
}.

Record ParseResult : Type := {
  valid : bool;
  rrule : option RRuleOptions;
  error : option string
}.

(** The object [{}]. *)
Definition empty : RRuleOptions :=
  {| freq := None; interval := None; count := None; until := None;
     bysecond := None; byminute := None; byhour := None; byday := None;
     bymonthday := None; byyearday := None; byweekno := None;
     bymonth := None; bysetpos := None; wkst := None |}.

Definition withFreq (v : option string) (o : RRuleOptions) : RRuleOptions :=
  {| freq := v; interval := interval o; count := count o; until := until o;
     bysecond := bysecond o; byminute := byminute o; byhour := byhour o;
     byday := byday o; bymonthday := bymonthday o; byyearday := byyearday o;
     byweekno := byweekno o; bymonth := bymonth o; bysetpos := bysetpos o;
     wkst := wkst o |}.

Definition withInterval (v : num) (o : RRuleOptions) : RRuleOptions :=
  {| freq := freq o; interval := Some v; count := count o; until := until o;
     bysecond := bysecond o; byminute := byminute o; byhour := byhour o;
     byday := byday o; bymonthday := bymonthday o; byyearday := byyearday o;
     byweekno := byweekno o; bymonth := bymonth o; bysetpos := bysetpos o;
     wkst := wkst o |}.

Definition withCount (v : num) (o : RRuleOptions) : RRuleOptions :=
  {| freq := freq o; interval := interval o; count := Some v; until := until o;
     bysecond := bysecond o; byminute := byminute o; byhour := byhour o;
     byday := byday o; bymonthday := bymonthday o; byyearday := byyearday o;
     byweekno := byweekno o; bymonth := bymonth o; bysetpos := bysetpos o;
     wkst := wkst o |}.

Definition withUntil (v : JSDate) (o : RRuleOptions) : RRuleOptions :=
  {| freq := freq o; interval := interval o; count := count o; until := Some v;
     bysecond := bysecond o; byminute := byminute o; byhour := byhour o;
     byday := byday o; bymonthday := bymonthday o; byyearday := byyearday o;
     byweekno := byweekno o; bymonth := bymonth o; bysetpos := bysetpos o;
     wkst := wkst o |}.

Definition withByday (v : list Weekday) (o : RRuleOptions) : RRuleOptions :=
  {| freq := freq o; interval := interval o; count := count o; until := until o;
     bysecond := bysecond o; byminute := byminute o; byhour := byhour o;
     byday := Some v; bymonthday := bymonthday o; byyearday := byyearday o;
     byweekno := byweekno o; bymonth := bymonth o; bysetpos := bysetpos o;
     wkst := wkst o |}.

Definition withBymonthday (v : list num) (o : RRuleOptions) : RRuleOptions :=
  {| freq := freq o; interval := interval o; count := count o; until := until o;
     bysecond := bysecond o; byminute := byminute o; byhour := byhour o;
     byday := byday o; bymonthday := Some v; byyearday := byyearday o;
     byweekno := byweekno o; bymonth := bymonth o; bysetpos := bysetpos o;
     wkst := wkst o |}.

Definition withBymonth (v : list num) (o : RRuleOptions) : RRuleOptions :=
  {| freq := freq o; interval := interval o; count := count o; until := until o;
     bysecond := bysecond o; byminute := byminute o; byhour := byhour o;
     byday := byday o; bymonthday := bymonthday o; byyearday := byyearday o;
     byweekno := byweekno o; bymonth := Some v; bysetpos := bysetpos o;
     wkst := wkst o |}.

End Types.

(* ------------------------------------------------------------------ *)
(** ** The helpers of the library ([utils.ts])

    An argument that the caller leaves out is [None]; a parameter with a
    default takes it then. *)

Module Utils.
Import Types.

Definition createDailyRule (interval count : option num) : RRuleOptions :=
  let interval := match interval with Some i => i | None => Num 1 end in
  let options := withInterval interval (withFreq (Some DAILY) empty) in
  match count with
  | Some c => withCount c options
  | None => options
  end.

Definition createWeeklyRule (interval : option num)
  (byday : option (list Weekday)) (count : option num) : RRuleOptions :=
  let interval := match interval with Some i => i | None => Num 1 end in
  let byday := match byday with Some l => l | None => [MO] end in
  let options :=
    withByday byday (withInterval interval (withFreq (Some WEEKLY) empty)) in
  match count with
  | Some c => withCount c options
  | None => options
  end.

Definition createMonthlyRule (interval : option num)
  (bymonthday : option (list num)) (count : option num) : RRuleOptions :=
  let interval := match interval with Some i => i | None => Num 1 end in
  let options := withInterval interval (withFreq (Some MONTHLY) empty) in
  let options := match bymonthday with
                 | Some l => withBymonthday l options
                 | None => options
                 end in
  match count with
  | Some c => withCount c options
  | None => options
  end.

Definition createYearlyRule (interval : option num)
  (bymonth : option (list num)) (count : option num) : RRuleOptions :=
  let interval := match interval with Some i => i | None => Num 1 end in
  let options := withInterval interval (withFreq (Some YEARLY) empty) in
  let options := match bymonth with
                 | Some l => withBymonth l options
                 | None => options
                 end in
  match count with
  | Some c => withCount c options
  | None => options
  end.

(** [x && x < 1] on a number that may be [undefined]: NaN and 0 are falsy. *)
Definition truthyBelowOne (a : option num) : bool :=
  match a with
  | Some (Num z) => negb (z =? 0) && (z <? 1)
  | _ => false
  end.

Record Validation : Type := {
  valid : bool;
  errors : list string
}.

Definition validateRRule (options : RRuleOptions) : Validation :=
  let errors : list string := [] in
  let errors :=
    if negb (truthyString (freq options))
    then push errors "FREQ is required" else errors in
  let errors :=
    if truthyBelowOne (interval options)
    then push errors "INTERVAL must be greater than 0" else errors in
  let errors :=
    if truthyBelowOne (count options)
    then push errors "COUNT must be greater than 0" else errors in
  let errors :=
    if isSome (until options) && truthy (count options)
    then push errors "Cannot specify both UNTIL and COUNT" else errors in
  {| valid := (List.length errors =? 0)%nat; errors := errors |}.

End Utils.

(* ------------------------------------------------------------------ *)
(** ** The class [RRule] ([rrule.ts])

    An instance holds its options and its start date.  The host gives its
    zone (through [Host]) and [Date.parse], whose reading of a text that is
    not in the ISO format is up to the implementation. *)

Module RRule.
Import Types.

Record RRule : Type := {
  options : RRuleOptions;
  startDate : JSDate
}.

(** [new RRule(options, startDate)]; without a start date, [new Date()] is
    the instant [now] of the call. *)
Definition new (now : Z) (options : RRuleOptions) (startDate : option JSDate)
  : RRule :=
  {| options := options;
     startDate := match startDate with
                  | Some d => d
                  | None => dateOf (Time.TimeClip now)
                  end |}.

(** [dayMap[weekday] || 0]. *)
Definition getDayNumber (weekday : Weekday) : Z :=
  let dayMap (w : Weekday) : Z :=
    match w with
    | SU => 0 | MO => 1 | TU => 2 | WE => 3 | TH => 4 | FR => 5 | SA => 6
    end in
  orDefault (Num (dayMap weekday)) 0.

Definition isAllDayEvent (this : RRule) : bool :=
  match freq (options this) with
  | Some f =>
      (f =? DAILY)%string
      && negb (isSome (byhour (options this)))
      && negb (isSome (byminute (options this)))
      && negb (isSome (bysecond (options this)))
  | None => false
  end.

(** [targetDays.find((day) => day > currentDay)]. *)
Definition findAfter (currentDay : num) (targetDays : list Z) : option Z :=
  match currentDay with
  | Num c => find (fun day => c <? day) targetDays
  | NaN => None
  end.

(** [Math.min(...targetDays)] of a list that is not empty. *)
Definition minOf (targetDays : list Z) : Z :=
  match targetDays with
  | [] => 0
  | d :: rest => fold_left Z.min rest d
  end.

(** [a - b] and [a + b] where [b] may be NaN. *)
Definition subNum (a : Z) (b : num) : num :=
  match b with
  | Num y => Num (a - y)
  | NaN => NaN
  end.

Definition addNum (a b : num) : num :=
  match a, b with
  | Num x, Num y => Num (x + y)
  | _, _ => NaN
  end.

Section OnHost.

Variable host : Host.
Variable parse_date : string -> JSDate.

Let k : Z := hostOffset host.

Definition getNextOccurrence (this : RRule) (date : JSDate) : JSDate :=
  let nextDate := date in
  let interval := orNumber (interval (options this)) 1 in
  match freq (options this) with
  | None => nextDate
  | Some f =>
      if (f =? SECONDLY)%string then
        JsDate.setSeconds k (numAdd (JsDate.getSeconds k nextDate) interval)
          nextDate
      else if (f =? MINUTELY)%string then
        JsDate.setMinutes k (numAdd (JsDate.getMinutes k nextDate) interval)
          nextDate
      else if (f =? HOURLY)%string then
        JsDate.setHours k (numAdd (JsDate.getHours k nextDate) interval)
          nextDate
      else if (f =? DAILY)%string then
        JsDate.setDate k (numAdd (JsDate.getDate k nextDate) interval) nextDate
      else if (f =? WEEKLY)%string then
        match byday (options this) with
        | Some (w :: l) =>
            let targetDays := map getDayNumber (w :: l) in
            let currentDay := JsDate.getDay k nextDate in
            match findAfter currentDay targetDays with
            | Some nextTargetDay =>
                if nextTargetDay =? 0 then
                  let nextTargetDay := minOf targetDays in
                  JsDate.setDate k
                    (addNum (JsDate.getDate k nextDate)
                       (numAdd (subNum 7 currentDay) nextTargetDay))
                    nextDate
                else
                  JsDate.setDate k
                    (addNum (JsDate.getDate k nextDate)
                       (subNum nextTargetDay currentDay))
                    nextDate
            | None =>
                let nextTargetDay := minOf targetDays in
                JsDate.setDate k
                  (addNum (JsDate.getDate k nextDate)
                     (numAdd (subNum 7 currentDay) nextTargetDay))
                  nextDate
            end
        | _ =>
            JsDate.setDate k
              (numAdd (JsDate.getDate k nextDate) (7 * interval)) nextDate
        end
      else if (f =? MONTHLY)%string then
        JsDate.setMonth k (numAdd (JsDate.getMonth k nextDate) interval)
          nextDate
      else if (f =? YEARLY)%string then
        JsDate.setFullYear k (numAdd (JsDate.getFullYear k nextDate) interval)
          nextDate
      else nextDate
  end.

(** The loop of [getOccurrences]:
    [while (occurrenceCount < maxCount && currentDate <= endDate)].
    [occurrenceCount] goes up by one each time round: [fuel] is
    [maxCount]. *)
Fixpoint occurrencesFrom (this : RRule) (endDate : JSDate) (fuel : nat)
  (currentDate : JSDate) : list Occurrence :=
  match fuel with
  | O => []
  | S fuel' =>
      if JsDate.dateLe currentDate endDate then
        {| date := currentDate; isAllDay := isAllDayEvent this |}
        :: occurrencesFrom this endDate fuel'
             (getNextOccurrence this currentDate)
      else []
  end.

(** [getOccurrences(count, until)], called at the instant [now]. *)
Definition getOccurrences (now : Z) (this : RRule) (count : option num)
  (until : option JSDate) : list Occurrence :=
  let maxCount := orNumber count (orNumber (Types.count (options this)) 100) in
  let endDate :=
    match until with
    | Some d => d
    | None =>
        match Types.until (options this) with
        | Some d => d
        | None => dateOf (Time.TimeClip (now + 365 * 24 * 60 * 60 * 1000))
        end
    end in
  occurrencesFrom this endDate (Z.to_nat maxCount) (startDate this).

(** [toString()]; [None] is the [RangeError] that [toISOString] throws on
    an invalid [until]. *)
Definition toString (this : RRule) : option string :=
  let parts := ["FREQ=" ++ toStr (freq (options this))] in
  let parts :=
    match interval (options this) with
    | Some n =>
        if truthy (Some n)
        then push parts ("INTERVAL=" ++ numberToString n) else parts
    | None => parts
    end in
  let parts :=
    match count (options this) with
    | Some n =>
        if truthy (Some n)
        then push parts ("COUNT=" ++ numberToString n) else parts
    | None => parts
    end in
  match until (options this) with
  | Some d =>
      match JsDate.toISOString d with
      | Some iso =>
          let parts :=
            push parts
              ("UNTIL=" ++ hd EmptyString (split "." (removeDashColon iso))
               ++ "Z") in
          Some ("RRULE:" ++ join ";" parts)
      | None => None
      end
  | None => Some ("RRULE:" ++ join ";" parts)
  end.

(** The body of the loop over the pairs of [parse]:
    [const [key, value] = pair.split("=")] and the switch on [key]. *)
Definition parsePair (options : RRuleOptions) (pair : string) : RRuleOptions :=
  let kv := split "=" pair in
  let key := hd EmptyString kv in
  let value := nth_error kv 1 in
  if (key =? "FREQ")%string then withFreq value options
  else if (key =? "INTERVAL")%string
  then withInterval (parseInt10 (toStr value)) options
  else if (key =? "COUNT")%string
  then withCount (parseInt10 (toStr value)) options
  else if (key =? "UNTIL")%string
  then withUntil (match value with
                  | Some v => parse_date v
                  | None => InvalidDate
                  end) options
  else options.

(** [RRule.parse(rruleString)].  Nothing in the [try] block throws on a
    string, so the [catch] clause is not reached. *)
Definition parse (rruleString : string) : ParseResult :=
  match stripPrefix "RRULE:" rruleString with
  | None =>
      {| valid := false; rrule := None;
         error := Some "Invalid RRULE format" |}
  | Some rrulePart =>
      let pairs := split ";" rrulePart in
      let options := fold_left parsePair pairs empty in
      if negb (truthyString (freq options))
      then {| valid := false; rrule := None;
              error := Some "FREQ is required" |}
      else {| valid := true; rrule := Some options; error := None |}
  end.

End OnHost.

End RRule.

(* ------------------------------------------------------------------ *)
(** ** A sample host

    A machine on UTC, with three zone names and a reader for the
    [YYYY-MM-DDTHH:MM:SS] texts of the tests.  The two zones with daylight
    saving carry their transitions of the year 2024 only. *)

Module Sample.

Definition between (lo hi o1 o2 : Z) : Z -> Z :=
  fun t => if (lo <=? t) && (t <? hi) then o1 else o2.

(** 2024-03-31T01:00Z .. 2024-10-27T01:00Z *)
Definition london : Luxon.Zone :=
  {| Luxon.zoneName := "Europe/London"; Luxon.isUniversal := false;
     Luxon.offset := between 1711846800000 1729990800000 60 0 |}.

(** 2024-03-10T07:00Z .. 2024-11-03T06:00Z *)
Definition newYork : Luxon.Zone :=
  {| Luxon.zoneName := "America/New_York"; Luxon.isUniversal := false;
     Luxon.offset := between 1710054000000 1730613600000 (-240) (-300) |}.

Definition zones (name : string) : option Luxon.Zone :=
  if (name =? "UTC")%string then Some Luxon.utcZone
  else if (name =? "Europe/London")%string then Some london
  else if (name =? "America/New_York")%string then Some newYork
  else None.

Definition twoDigits (s : string) : option Z :=
  match digits 2 s with
  | Some (d, _) =>
      match parseInt d with
      | Num z => Some z
      | NaN => None
      end
  | None => None
  end.

Definition isoTime (s : string) : option (Z * Z * Z) :=
  match twoDigits (drop 11 s), twoDigits (drop 14 s), twoDigits (drop 17 s) with
  | Some h, Some m, Some sec =>
      if (h <? 24) && (m <? 60) && (sec <? 60) then Some (h, m, sec) else None
  | _, _, _ => None
  end.

Definition utcHost : Host :=
  {| hostOffset := 0; normalizeZone := zones; fromISO := isoTime |}.

Definition hostAt (minutes : Z) : Host :=
  {| hostOffset := minutes; normalizeZone := zones; fromISO := isoTime |}.

(** A line feed between the two lines of a rule text. *)
Definition lines (a b : string) : string :=
  a ++ String (ascii_of_nat 10) b.

End Sample.

(* ------------------------------------------------------------------ *)
(** ** Sample rules *)

Definition intervalRule : string :=
  Sample.lines "DTSTART;TZID=Europe/London:20240929T044500"
    "RRULE:FREQ=DAILY;INTERVAL=abc;COUNT=3".

Definition intervalOptions : Options :=
  {| freq := DAILY; interval := NaN; dtstart := DateAt 1727585100000;
     until := None; wkst := Some MO; byweekday := None; bysetpos := None;
     count := Some (Num 3) |}.

Definition zoneRuleTail : string :=
  String (ascii_of_nat 10) "RRULE:FREQ=DAILY;INTERVAL=1;COUNT=3".

Definition zoneRuleOptions : Options :=
  {| freq := DAILY; interval := Num 1; dtstart := DateAt 1727585100000;
     until := None; wkst := Some MO; byweekday := None; bysetpos := None;
     count := Some (Num 3) |}.

Definition dailyRule : string :=
  Sample.lines "DTSTART;TZID=America/New_York:20240929T044500"
    "RRULE:FREQ=DAILY;INTERVAL=1;COUNT=3".

Definition boundaryRule : string :=
  Sample.lines "DTSTART;TZID=UTC:20240101T235959"
    "RRULE:FREQ=DAILY;UNTIL=20240103T235959".

Definition weeklyRule : string :=
  Sample.lines "DTSTART;TZID=America/New_York:20240929T044500"
    "RRULE:FREQ=WEEKLY;BYDAY=MO,WE,FR;COUNT=3".

Definition weeklyOptions : Options :=
  {| freq := WEEKLY; interval := Num 1; dtstart := DateAt 1727585100000;
     until := None; wkst := Some MO; byweekday := Some [MO; WE; FR];
     bysetpos := None; count := Some (Num 3) |}.

Definition dailyOptions : Options :=
  {| freq := DAILY; interval := Num 1; dtstart := DateAt 1727585100000;
     until := None; wkst := Some MO; byweekday := None; bysetpos := None;
     count := Some (Num 3) |}.

Definition gapRule : string :=
  Sample.lines "DTSTART;TZID=America/New_York:20240309T120000"
    "RRULE:FREQ=DAILY;COUNT=3".

Definition gapOptions : Options :=
  {| freq := DAILY; interval := Num 1; dtstart := DateAt 1709985600000;
     until := None; wkst := Some MO; byweekday := None; bysetpos := None;
     count := Some (Num 3) |}.

Definition untilRule : string :=
  Sample.lines "DTSTART;TZID=America/New_York:20240101T000000"
    "RRULE:FREQ=DAILY;UNTIL=20240103T000000".

Definition lastFridayOptions : Options :=
  {| freq := MONTHLY; interval := Num 1; dtstart := DateAt 1704084300000;
     until := None; wkst := Some MO; byweekday := Some [FR];
     bysetpos := Some [Num (-1)]; count := Some (Num 4) |}.

(* ------------------------------------------------------------------ *)
(** ** The vocabulary of the statements *)

Module Vocabulary.
Import Time Luxon.

Fixpoint allb (p : ascii -> bool) (s : string) : bool :=
  match s with
  | EmptyString => true
  | String c s' => p c && allb p s'
  end.

Definition notColon (c : ascii) : bool := negb (isColon c).

(** A civil literal: eight digits, [T], six digits. *)
Definition DateTimeLiteral (d : string) : Prop :=
  exists a b, d = a ++ String "T" b
              /\ String.length a = 8%nat /\ String.length b = 6%nat
              /\ allb isDigit a = true /\ allb isDigit b = true.

(** The text holds a start declaration with zone [tz] and literal [d]. *)
Definition StartDeclaration (s tz d : string) : Prop :=
  exists pre post,
    s = pre ++ "DTSTART;TZID=" ++ tz ++ String ":" (d ++ post)
    /\ tz <> EmptyString /\ allb notColon tz = true /\ DateTimeLiteral d.

(** The text holds [RRULE:] followed by a character of the same line. *)
Definition RecurrenceDeclaration (s : string) : Prop :=
  exists pre c post,
    s = pre ++ "RRULE:" ++ String c post /\ isLineTerminator c = false.

Definition keyOf (part : string) : string := hd EmptyString (split "=" part).

Definition valueOf (part : string) : option string :=
  nth_error (split "=" part) 1.

(** The value of the last part whose key is [k]. *)
Fixpoint lastValue (k : string) (parts : list string)
  : option (option string) :=
  match parts with
  | [] => None
  | part :: rest =>
      match lastValue k rest with
      | Some v => Some v
      | None => if (keyOf part =? k)%string then Some (valueOf part) else None
      end
  end.

Definition hasKey (k : string) (parts : list string) : bool :=
  existsb (fun part => (keyOf part =? k)%string) parts.

Fixpoint lastChar (s : string) : option ascii :=
  match s with
  | EmptyString => None
  | String c EmptyString => Some c
  | String _ s' => lastChar s'
  end.

(** The literal that follows the first colon of [r], and whether anything
    stands before that colon. *)
Definition literalAfterColon (r : string) : option string :=
  match snd (span isColon r) with
  | String _ r' => dateTimeLit r'
  | EmptyString => None
  end.

Definition zonePresent (r : string) : bool :=
  match r with
  | String c _ => negb (isColon c)
  | EmptyString => false
  end.

(** The value of a string of decimal digits. *)
Fixpoint decimalFrom (acc : Z) (s : string) : Z :=
  match s with
  | EmptyString => acc
  | String c s' => decimalFrom (acc * 10 + (codeOf c - 48)) s'
  end.

Definition decimalValue (s : string) : Z := decimalFrom 0 s.

(** The time value of civil fields read as UTC. *)
Definition utcMillis (c : Civil) : Z :=
  MakeDate (MakeDay (year c) (month c - 1) (day c))
    (MakeTime (hour c) (minute c) (second c) (millisecond c)).

Definition properTime (c : Civil) : bool :=
  integerBetween (hour c) 0 23 && integerBetween (minute c) 0 59
  && integerBetween (second c) 0 59 && integerBetween (millisecond c) 0 999.

Definition properDate (c : Civil) : bool :=
  integerBetween (month c) 1 12
  && integerBetween (day c) 1 (daysInMonth (year c) (month c)).

(** The fields of a civil literal, read as decimal numerals. *)
Definition civilOfLiteral (d : string) : Civil :=
  {| year := decimalValue (substring 0 4 d);
     month := decimalValue (substring 4 6 d);
     day := decimalValue (substring 6 8 d);
     hour := decimalValue (substring 9 11 d);
     minute := decimalValue (substring 11 13 d);
     second := decimalValue (substring 13 15 d);
     millisecond := 0 |}.

(** The modes in which a turn of the loop may push nothing: WEEKLY with
    weekdays, and MONTHLY with weekdays and positions. *)
Definition selective (o : Options) : bool :=
  match freq o with
  | WEEKLY => match byweekday o with Some (_ :: _) => true | _ => false end
  | MONTHLY =>
      match byweekday o, bysetpos o with
      | Some _, Some _ => true
      | _, _ => false
      end
  | _ => false
  end.

(** Hour, minute and second of a [DateTime], in its zone. *)
Definition hmsOf (dt : DateTime) : option (Z * Z * Z) :=
  match dt with
  | Invalid => None
  | At t z =>
      let c := civilOf t z in
      Some (hour c, minute c, second c)
  end.

(** The fields of an UNTIL literal: hour, minute and second fall back to
    23, 59 and 59, each on its own, when they are zero. *)
Definition untilCivil (v : string) : Civil :=
  {| year := decimalValue (substring 0 4 v);
     month := decimalValue (substring 4 6 v);
     day := decimalValue (substring 6 8 v);
     hour := orDefault (Num (decimalValue (substring 9 11 v))) 23;
     minute := orDefault (Num (decimalValue (substring 11 13 v))) 59;
     second := orDefault (Num (decimalValue (substring 13 15 v))) 59;
     millisecond := 0 |}.

Definition untilOf (r : result (option Options)) : option JSDate :=
  match r with
  | Ok (Some o) => until o
  | _ => None
  end.

(** The length of month [mn] (0-based) in a year with [l] leap days. *)
Definition monthLength (mn l : Z) : Z :=
  if mn =? 1 then 28 + l
  else if (mn =? 3) || (mn =? 5) || (mn =? 8) || (mn =? 10) then 30
  else 31.

(** The local time value of the instant [t] in a zone [k] minutes east of
    UTC. *)
Definition localOf (k t : Z) : Z := t + k * 60000.

(** The local time value of the first instant of the month of [t], and
    of the month after it. *)
Definition monthStartOf (k t : Z) : Z :=
  let c := tsToObj (localOf k t) in
  MakeDate (MakeDay (year c) (month c - 1) 1) 0.

Definition nextMonthStartOf (k t : Z) : Z :=
  let c := tsToObj (localOf k t) in
  MakeDate (MakeDay (year c) (month c) 1) 0.

(** The instant falls on weekday [w] (0 is Sunday) in a zone [k] minutes
    east of UTC. *)
Definition onWeekday (k : Z) (w : option Weekday) (dt : DateTime) : bool :=
  match dt, w with
  | At t _, Some w' => WeekDay (localOf k t) =? weekdayNum w'
  | _, _ => false
  end.

(** [n] consecutive days from the instant [s], seen in the zone [z]. *)
Fixpoint daysFrom (z : Zone) (n : nat) (s : Z) : list DateTime :=
  match n with
  | O => []
  | S n' => At s z :: daysFrom z n' (s + msPerDay)
  end.

(** The dates of month [mo] of year [y], each at the start of its day in
    the zone of the host, in order. *)
Definition dateAt (host : Host) (y mo d : Z) : DateTime :=
  At (MakeDate (MakeDay y (mo - 1) d) 0 - hostOffset host * 60000)
    (systemZone host).

Definition monthDates (host : Host) (y mo : Z) : list DateTime :=
  map (fun i => dateAt host y mo (1 + Z.of_nat i))
    (seq 0 (Z.to_nat (daysInMonth y mo))).

(** The element at the 1-based index [p], the last element when [p] is
    -1, nothing for any other [p]. *)
Definition selectOccurrence (p : option num) (l : list DateTime)
  : option DateTime :=
  match p with
  | Some (Num n) =>
      if n =? -1 then last (map Some l) None
      else if (1 <=? n) && (n <=? Z.of_nat (List.length l))
           then nth_error l (Z.to_nat (n - 1))
           else None
  | _ => None
  end.

End Vocabulary.

Import Vocabulary.

(* ------------------------------------------------------------------ *)
(** ** More vocabulary *)

(** The options without their [until]. *)
Definition withoutUntil (o : Options) : Options :=
  {| freq := freq o; interval := interval o; dtstart := dtstart o;
     until := None; wkst := wkst o; byweekday := byweekday o;
     bysetpos := bysetpos o; count := count o |}.

(** The text of an invalid [DateTime]. *)
Definition invalidText : string := "Invalid DateTime".

(** The first [until] test of a loop, on the instants [t] of the cursor and
    [u] of [until]: [>] in the class, [>=] in the hook. *)
Definition startsPast (copy : Copy) (t u : Z) : bool :=
  match copy with
  | ClassCopy => u <? t
  | HookCopy => u <=? t
  end.

(** The value of the last part with key [k] that [read] accepts. *)
Fixpoint lastRecognised {A : Type} (read : option string -> option A)
  (k : string) (parts : list string) : option A :=
  match parts with
  | [] => None
  | part :: rest =>
      match lastRecognised read k rest with
      | Some a => Some a
      | None => if (keyOf part =? k)%string then read (valueOf part) else None
      end
  end.

Definition weekdayOfValue (v : option string) : option Weekday :=
  match v with
  | Some s => weekdayOfString s
  | None => None
  end.

(** A weekday name, and Monday for any other text. *)
Definition weekdayOrMonday (day : string) : Weekday :=
  match weekdayOfString day with
  | Some w => w
  | None => MO
  end.

(** A part that is one of the keys UNTIL, BYDAY and BYSETPOS with no
    [=] after it. *)
Definition bareKey (part : string) : bool :=
  (part =? "UNTIL")%string || (part =? "BYDAY")%string
  || (part =? "BYSETPOS")%string.

(** What a part of the RRULE line does to five of the fields. *)
Definition fieldsAfter (o : Options) (part : string) (o' : Options) : Prop :=
  freq o' = match (if (keyOf part =? "FREQ")%string
                   then freqOfString (valueOf part) else None) with
            | Some f => f
            | None => freq o
            end
  /\ wkst o' = match (if (keyOf part =? "WKST")%string
                      then weekdayOfValue (valueOf part) else None) with
               | Some w => Some w
               | None => wkst o
               end
  /\ byweekday o' = (if (keyOf part =? "BYDAY")%string
                     then option_map
                            (fun v => map weekdayOrMonday (split "," v))
                            (valueOf part)
                     else byweekday o)
  /\ bysetpos o' = (if (keyOf part =? "BYSETPOS")%string
                    then option_map (fun v => map parseInt (split "," v))
                           (valueOf part)
                    else bysetpos o)
  /\ count o' = (if (keyOf part =? "COUNT")%string
                 then Some (parseInt (toStr (valueOf part)))
                 else count o).

(** The instants [s], [s + d], [s + 2 d], ..., [n] of them, seen in the
    zone [z]. *)
Fixpoint every (z : Luxon.Zone) (d : Z) (n : nat) (s : Z)
  : list Luxon.DateTime :=
  match n with
  | O => []
  | S n' => Luxon.At s z :: every z d n' (s + d)
  end.

(** The longest prefix whose elements all pass the test. *)
Fixpoint takeWhile {A : Type} (p : A -> bool) (l : list A) : list A :=
  match l with
  | [] => []
  | a :: l' => if p a then a :: takeWhile p l' else []
  end.

(** [f] on each element in turn; the first fault is the outcome. *)
Fixpoint mapM {A B : Type} (f : A -> result B) (l : list A)
  : result (list B) :=
  match l with
  | [] => Ok []
  | a :: l' => b <- f a ;; bs <- mapM f l' ;; Ok (b :: bs)
  end.

(** The instant falls on one of the weekdays [l] in a zone [k] minutes
    east of UTC. *)
Definition onAnyWeekday (k : Z) (l : list Weekday) (dt : Luxon.DateTime)
  : bool :=
  existsb (fun w => onWeekday k (Some w) dt) l.

(** The instants [s], [f s], [f (f s)], ..., [n] of them, seen in the zone
    [z]. *)
Fixpoint iterate (z : Luxon.Zone) (f : Z -> Z) (n : nat) (s : Z)
  : list Luxon.DateTime :=
  match n with
  | O => []
  | S n' => Luxon.At s z :: iterate z f n' (f s)
  end.

(** The instant that lies [years] years and [months] months after [t] on
    the calendar of a zone [k] minutes east of UTC: the same time of day,
    in the month arrived at, on the same day of the month, or on the last
    day of that month when it is shorter. *)
Definition calendarStep (k years months t : Z) : Z :=
  let c := Luxon.tsToObj (localOf k t) in
  let m := Luxon.month c - 1 + months in
  let y' := Luxon.year c + years + m / 12 in
  let m' := m mod 12 in
  Time.MakeDate
    (Time.MakeDay y' m' (Z.min (Luxon.day c) (monthLength m' (Time.leapDay y'))))
    (Time.TimeWithinDay (localOf k t))
  - k * 60000.

Definition monthsLater (k n t : Z) : Z := calendarStep k 0 n t.

Definition yearsLater (k n t : Z) : Z := calendarStep k n 0 t.

(** The span, in milliseconds for each unit of interval, of the
    frequencies of [RRule] that move by a fixed span: SECONDLY, MINUTELY,
    HOURLY, DAILY, and WEEKLY without weekdays. *)
Definition fixedStep (o : Types.RRuleOptions) : option Z :=
  match Types.freq o with
  | Some f =>
      if (f =? Types.SECONDLY)%string then Some 1000
      else if (f =? Types.MINUTELY)%string then Some 60000
      else if (f =? Types.HOURLY)%string then Some 3600000
      else if (f =? Types.DAILY)%string then Some 86400000
      else if (f =? Types.WEEKLY)%string then
        match Types.byday o with
        | Some (_ :: _) => None
        | _ => Some 604800000
        end
      else None
  | None => None
  end.

(** The date [x] milliseconds after [d]. *)
Definition shift (x : Z) (d : JSDate) : JSDate :=
  match d with
  | DateAt t => dateOf (Time.TimeClip (t + x))
  | InvalidDate => InvalidDate
  end.

(** The count and the end date that [getOccurrences] works with. *)
Definition maxCountOf (this : RRule.RRule) (count : option num) : Z :=
  orNumber count (orNumber (Types.count (RRule.options this)) 100).

Definition endDateOf (now : Z) (this : RRule.RRule) (until : option JSDate)
  : JSDate :=
  match until with
  | Some d => d
  | None =>
      match Types.until (RRule.options this) with
      | Some d => d
      | None => dateOf (Time.TimeClip (now + 31536000000))
      end
  end.

(** The civil fields [years] years and [months] months after [c] as the
    setters of [Date] count them: the same day of the month in the month
    arrived at, and, when that month is too short, the day that many days
    into the month after it. *)
Definition overflowCivil (c : Luxon.Civil) (years months : Z) : Luxon.Civil :=
  let m := Luxon.month c - 1 + months in
  let y' := Luxon.year c + years + m / 12 in
  let m' := m mod 12 in
  let len := monthLength m' (Time.leapDay y') in
  if Luxon.day c <=? len
  then {| Luxon.year := y'; Luxon.month := m' + 1; Luxon.day := Luxon.day c;
          Luxon.hour := Luxon.hour c; Luxon.minute := Luxon.minute c;
          Luxon.second := Luxon.second c;
          Luxon.millisecond := Luxon.millisecond c |}
  else {| Luxon.year := y' + (m' + 1) / 12;
          Luxon.month := (m' + 1) mod 12 + 1;
          Luxon.day := Luxon.day c - len;
          Luxon.hour := Luxon.hour c; Luxon.minute := Luxon.minute c;
          Luxon.second := Luxon.second c;
          Luxon.millisecond := Luxon.millisecond c |}.

(** A number that is there and below zero. *)
Definition negative (a : option num) : bool :=
  match a with
  | Some (Num z) => z <? 0
  | _ => false
  end.

(** The verdict of [validateRRule] on a rule that has a frequency and no
    [until]. *)
Definition verdictOf (interval count : option num) : Utils.Validation :=
  {| Utils.valid := negb (negative interval) && negb (negative count);
     Utils.errors :=
       ((if negative interval then ["INTERVAL must be greater than 0"] else [])
        ++ (if negative count then ["COUNT must be greater than 0"] else []))%list
  |}.

(** The interval that a constructor stores: 1 when the caller gives
    none. *)
Definition intervalOr1 (interval : option num) : option num :=
  match interval with
  | Some i => Some i
  | None => Some (Num 1)
  end.

(** What [RRule.parse] reads from the pairs of an RRULE text, given its
    frequency: the values of the last INTERVAL, COUNT and UNTIL pairs. *)
Definition optionsOfPairs (parse_date : string -> JSDate) (f : string)
  (pairs : list string) : Types.RRuleOptions :=
  {| Types.freq := Some f;
     Types.interval :=
       option_map (fun v => parseInt10 (toStr v)) (lastValue "INTERVAL" pairs);
     Types.count :=
       option_map (fun v => parseInt10 (toStr v)) (lastValue "COUNT" pairs);
     Types.until :=
       option_map (fun v => match v with
                            | Some x => parse_date x
                            | None => InvalidDate
                            end) (lastValue "UNTIL" pairs);
     Types.bysecond := None; Types.byminute := None; Types.byhour := None;
     Types.byday := None; Types.bymonthday := None; Types.byyearday := None;
     Types.byweekno := None; Types.bymonth := None; Types.bysetpos := None;
     Types.wkst := None |}.

Definition refusal (message : string) : Types.ParseResult :=
  {| Types.valid := false; Types.rrule := None;
     Types.error := Some message |}.

(** The seven members of the enum [Frequency]. *)
Definition frequencyNames : list string :=
  [Types.YEARLY; Types.MONTHLY; Types.WEEKLY; Types.DAILY; Types.HOURLY;
   Types.MINUTELY; Types.SECONDLY].

(** A number that a template literal writes out in full: absent, NaN, or
    an integer that a JavaScript number holds exactly. *)
Definition writtenInFull (a : option num) : Prop :=
  match a with
  | Some (Num z) => Z.abs z <= 9007199254740991
  | _ => True
  end.

(** What is left of options after [toString] and [parse]: the frequency,
    and the interval and the count when they are numbers other than
    zero. *)
Definition keptOptions (f : string) (o : Types.RRuleOptions)
  : Types.RRuleOptions :=
  {| Types.freq := Some f;
     Types.interval :=
       if truthy (Types.interval o) then Types.interval o else None;
     Types.count := if truthy (Types.count o) then Types.count o else None;
     Types.until := None;
     Types.bysecond := None; Types.byminute := None; Types.byhour := None;
     Types.byday := None; Types.bymonthday := None; Types.byyearday := None;
     Types.byweekno := None; Types.bymonth := None; Types.bysetpos := None;
     Types.wkst := None |}.

(** A character that is neither [;] nor [=]. *)
Definition plainChar (c : ascii) : bool :=
  negb (Ascii.eqb c ";") && negb (Ascii.eqb c "=").

(** Each element of a list stands in the relation [R] to the one after
    it. *)
Fixpoint consecutive {A : Type} (R : A -> A -> Prop) (l : list A) : Prop :=
  match l with
  | a :: rest =>
      match rest with
      | b :: _ => R a b /\ consecutive R rest
      | [] => True
      end
  | [] => True
  end.

(** Two valid dates, the second a whole number of days of 24 hours after
    the first, between [lo] and [hi]. *)
Definition daysApart (lo hi : Z) (a b : JSDate) : Prop :=
  exists t delta,
    a = DateAt t /\ b = DateAt (t + delta * Time.msPerDay)
    /\ lo <= delta <= hi.

(** A valid date that falls on one of the weekdays [days] in a zone [k]
    minutes east of UTC. *)
Definition onListedDay (k : Z) (days : list Weekday) (d : JSDate) : Prop :=
  exists t,
    d = DateAt t
    /\ In (Time.WeekDay (JsDate.LocalTime k t)) (map RRule.getDayNumber days).

(* ------------------------------------------------------------------ *)
(** ** More sample rules *)

(** Two weekdays and two positions; the start is 2024-01-01T04:45Z. *)
Definition firstEntriesOptions : Options :=
  {| freq := MONTHLY; interval := Num 1; dtstart := DateAt 1704084300000;
     until := None; wkst := Some MO; byweekday := Some [FR; MO];
     bysetpos := Some [Num (-1); Num 1]; count := Some (Num 4) |}.

(** A start on 2024-01-31T04:45Z. *)
Definition monthEndOptions : Options :=
  {| freq := MONTHLY; interval := Num 1; dtstart := DateAt 1706676300000;
     until := None; wkst := Some MO; byweekday := None; bysetpos := None;
     count := Some (Num 3) |}.

(** A start on 2024-02-29T04:45Z. *)
Definition leapDayOptions : Options :=
  {| freq := YEARLY; interval := Num 1; dtstart := DateAt 1709181900000;
     until := None; wkst := Some MO; byweekday := None; bysetpos := None;
     count := Some (Num 3) |}.

Definition fortnightOptions : Options :=
  {| freq := WEEKLY; interval := Num 2; dtstart := DateAt 1727585100000;
     until := None; wkst := Some MO; byweekday := None; bysetpos := None;
     count := Some (Num 3) |}.

(** A start on the 30th of February. *)
Definition impossibleRule : string :=
  Sample.lines "DTSTART;TZID=UTC:20240230T044500"
    "RRULE:FREQ=DAILY;COUNT=3".

Definition impossibleOptions : Options :=
  {| freq := DAILY; interval := Num 1; dtstart := InvalidDate;
     until := None; wkst := Some MO; byweekday := None; bysetpos := None;
     count := Some (Num 3) |}.

Definition invalidUntilOptions : Options :=
  {| freq := DAILY; interval := Num 1; dtstart := DateAt 1727585100000;
     until := Some InvalidDate; wkst := Some MO; byweekday := None;
     bysetpos := None; count := Some (Num 3) |}.

Definition negativeCountRule : string :=
  Sample.lines "DTSTART;TZID=UTC:20240929T044500"
    "RRULE:FREQ=DAILY;COUNT=-2".

Definition negativeCountOptions : Options :=
  {| freq := DAILY; interval := Num 1; dtstart := DateAt 1727585100000;
     until := None; wkst := Some MO; byweekday := None; bysetpos := None;
     count := Some (Num (-2)) |}.

Definition zeroCountRule : string :=
  Sample.lines "DTSTART;TZID=UTC:20240929T044500"
    "RRULE:FREQ=DAILY;COUNT=0".

Definition zeroCountOptions : Options :=
  {| freq := DAILY; interval := Num 1; dtstart := DateAt 1727585100000;
     until := None; wkst := Some MO; byweekday := None; bysetpos := None;
     count := Some (Num 0) |}.

(** A BYDAY with no [=] after it. *)
Definition bareKeyRule : string :=
  Sample.lines "DTSTART;TZID=UTC:20240929T044500"
    "RRULE:FREQ=DAILY;BYDAY".

(** Rules of the class [RRule], starting on 2024-09-29T04:45Z and on
    2024-01-31T04:45Z. *)
Definition everyOtherDay : RRule.RRule :=
  RRule.new 0 (Utils.createDailyRule (Some (Num 2)) (Some (Num 5)))
    (Some (DateAt 1727585100000)).

Definition mondayWednesdayFriday : RRule.RRule :=
  RRule.new 0 (Utils.createWeeklyRule None (Some [MO; WE; FR]) None)
    (Some (DateAt 1727585100000)).

Definition monthEnd : RRule.RRule :=
  RRule.new 0 (Utils.createMonthlyRule None None None)
    (Some (DateAt 1706676300000)).

(** A [Date.parse] that reads nothing. *)
Definition readsNothing (s : string) : JSDate := InvalidDate.

(* ------------------------------------------------------------------ *)
(** * Properties *)

(** ** The embedding on examples *)

Example parseInt_ex1 : parseInt "0044" = Num 44. Proof. reflexivity. Qed.
Example parseInt_ex2 : parseInt " -12ab" = Num (-12). Proof. reflexivity. Qed.
Example parseInt_ex3 : parseInt "0x1F" = Num 31. Proof. reflexivity. Qed.
Example parseInt_ex4 : parseInt "abc" = NaN. Proof. reflexivity. Qed.
Example parseInt_ex5 : parseInt "" = NaN. Proof. reflexivity. Qed.
Example split_ex1 : split ";" "a;b;;c" = ["a"; "b"; ""; "c"].
Proof. reflexivity. Qed.
Example matchDtstart_ex1 :
  matchDtstart "DTSTART;TZID=America/New_York:20240929T044500 RRULE:FREQ=DAILY"
  = Some ("America/New_York", "20240929T044500").
Proof. reflexivity. Qed.
Example matchRrule_ex1 :
  matchRrule "xRRULE:RRULE:FREQ=DAILY;COUNT=3" = Some "RRULE:FREQ=DAILY;COUNT=3".
Proof. reflexivity. Qed.

(** ** Strings and the two patterns *)

Lemma append_assoc (a b c : string) : (a ++ b) ++ c = a ++ b ++ c.
Proof. induction a as [|x a IH]; simpl; [reflexivity | now rewrite IH]. Qed.

Lemma append_nil_r (a : string) : a ++ "" = a.
Proof. induction a as [|x a IH]; simpl; [reflexivity | now rewrite IH]. Qed.

Lemma length_append (a b : string) :
  String.length (a ++ b) = (String.length a + String.length b)%nat.
Proof. induction a as [|x a IH]; simpl; [reflexivity | now rewrite IH]. Qed.

Lemma stripPrefix_sound p : forall s r, stripPrefix p s = Some r -> s = p ++ r.
Proof.
  induction p as [|a p IH]; simpl; intros s r H.
  - now inversion H.
  - destruct s as [|b s]; [discriminate|].
    destruct (Ascii.eqb_spec a b) as [->|]; [|discriminate].
    now rewrite (IH _ _ H).
Qed.

Lemma stripPrefix_append p r : stripPrefix p (p ++ r) = Some r.
Proof.
  induction p as [|a p IH]; simpl; [reflexivity|].
  now rewrite Ascii.eqb_refl.
Qed.

Lemma span_sound stop : forall s h t,
  span stop s = (h, t) ->
  s = h ++ t /\ allb (fun c => negb (stop c)) h = true
  /\ match t with String c _ => stop c = true | EmptyString => True end.
Proof.
  induction s as [|c s IH]; simpl; intros h t H.
  - inversion H; subst; simpl; auto.
  - destruct (stop c) eqn:E.
    + inversion H; subst; simpl; auto.
    + destruct (span stop s) as [h' t'] eqn:E'. inversion H; subst.
      destruct (IH _ _ eq_refl) as (-> & Hh & Ht).
      simpl. rewrite E. simpl. auto.
Qed.

Lemma span_append stop h c t :
  allb (fun x => negb (stop x)) h = true -> stop c = true ->
  span stop (h ++ String c t) = (h, String c t).
Proof.
  induction h as [|x h IH]; simpl; intros Hh Hc.
  - now rewrite Hc.
  - apply andb_prop in Hh as [Hx Hh].
    apply negb_true_iff in Hx. rewrite Hx, (IH Hh Hc). reflexivity.
Qed.

Lemma digits_sound n : forall s d r,
  digits n s = Some (d, r) ->
  s = d ++ r /\ String.length d = n /\ allb isDigit d = true.
Proof.
  induction n as [|n IH]; simpl; intros s d r H.
  - inversion H; subst; simpl; auto.
  - destruct s as [|c s]; [discriminate|].
    destruct (isDigit c) eqn:E; [|discriminate].
    destruct (digits n s) as [[d' r']|] eqn:E'; [|discriminate].
    inversion H; subst.
    destruct (IH _ _ _ E') as (-> & Hl & Hd).
    simpl. rewrite E, Hl, Hd. auto.
Qed.

Lemma digits_append d r :
  allb isDigit d = true -> digits (String.length d) (d ++ r) = Some (d, r).
Proof.
  induction d as [|c d IH]; simpl; intros H; [reflexivity|].
  apply andb_prop in H as [Hc Hd]. now rewrite Hc, (IH Hd).
Qed.

Lemma dateTimeLit_sound s d :
  dateTimeLit s = Some d -> DateTimeLiteral d /\ exists post, s = d ++ post.
Proof.
  unfold dateTimeLit. intros H.
  destruct (digits 8 s) as [[a r]|] eqn:Ea; [|discriminate].
  destruct r as [|c r]; [discriminate|].
  destruct (Ascii.eqb_spec c "T") as [->|]; [|discriminate].
  destruct (digits 6 r) as [[b post]|] eqn:Eb; [|discriminate].
  inversion H; subst.
  destruct (digits_sound _ _ _ _ Ea) as (-> & La & Da).
  destruct (digits_sound _ _ _ _ Eb) as (-> & Lb & Db).
  split.
  - exists a, b. auto.
  - exists post. rewrite append_assoc. reflexivity.
Qed.

Lemma dateTimeLit_complete d post :
  DateTimeLiteral d -> dateTimeLit (d ++ post) = Some d.
Proof.
  intros (a & b & -> & La & Lb & Da & Db).
  pose proof (digits_append a (String "T" (b ++ post)) Da) as H8.
  pose proof (digits_append b post Db) as H6.
  rewrite La in H8. rewrite Lb in H6.
  unfold dateTimeLit. rewrite append_assoc.
  change (String "T" b ++ post) with (String "T" (b ++ post)).
  rewrite H8. rewrite Ascii.eqb_refl. rewrite H6. reflexivity.
Qed.

Lemma allb_notColon tz :
  allb (fun c => negb (isColon c)) tz = allb notColon tz.
Proof. reflexivity. Qed.

Lemma dtstartAt_sound s tz d :
  dtstartAt s = Some (tz, d) ->
  exists post,
    s = "DTSTART;TZID=" ++ tz ++ String ":" (d ++ post)
    /\ tz <> EmptyString /\ allb notColon tz = true /\ DateTimeLiteral d.
Proof.
  unfold dtstartAt. intros H.
  destruct (stripPrefix "DTSTART;TZID=" s) as [r|] eqn:Ep; [|discriminate].
  destruct (span isColon r) as [h t] eqn:Es.
  destruct h as [|c h]; [discriminate|].
  destruct t as [|x t]; [discriminate|].
  destruct (dateTimeLit t) as [d'|] eqn:Ed; [|discriminate].
  inversion H; subst.
  apply stripPrefix_sound in Ep.
  destruct (span_sound _ _ _ _ Es) as (-> & Hh & Hx).
  destruct (dateTimeLit_sound _ _ Ed) as (Hd & post & ->).
  unfold isColon in Hx. apply Ascii.eqb_eq in Hx. subst x.
  exists post. repeat split; auto. discriminate.
Qed.

Lemma dtstartAt_complete tz d post :
  tz <> EmptyString -> allb notColon tz = true -> DateTimeLiteral d ->
  dtstartAt ("DTSTART;TZID=" ++ tz ++ String ":" (d ++ post)) = Some (tz, d).
Proof.
  intros Hne Hc Hd. unfold dtstartAt.
  rewrite stripPrefix_append.
  rewrite span_append by (auto using allb_notColon).
  destruct tz as [|c tz]; [congruence|].
  now rewrite (dateTimeLit_complete _ _ Hd).
Qed.

Lemma rruleAt_sound s g :
  rruleAt s = Some g ->
  exists c g' post,
    g = String c g' /\ s = "RRULE:" ++ g ++ post
    /\ allb (fun x => negb (isLineTerminator x)) g = true.
Proof.
  unfold rruleAt. intros H.
  destruct (stripPrefix "RRULE:" s) as [r|] eqn:Ep; [|discriminate].
  destruct (span isLineTerminator r) as [h t] eqn:Es.
  destruct h as [|c h]; [discriminate|]. inversion H; subst.
  apply stripPrefix_sound in Ep.
  destruct (span_sound _ _ _ _ Es) as (-> & Hh & _).
  exists c, h, t. auto.
Qed.

Lemma rruleAt_complete c post :
  isLineTerminator c = false -> rruleAt ("RRULE:" ++ String c post) <> None.
Proof.
  intros Hc. unfold rruleAt. rewrite stripPrefix_append. simpl.
  rewrite Hc. destruct (span isLineTerminator post). discriminate.
Qed.

Lemma findFirst_sound {A} (try : string -> option A) : forall s a,
  findFirst try s = Some a -> exists pre t, s = pre ++ t /\ try t = Some a.
Proof.
  induction s as [|c s IH]; simpl; intros a H.
  - destruct (try "") eqn:E; [|discriminate]. inversion H; subst.
    exists "", "". auto.
  - destruct (try (String c s)) eqn:E.
    + inversion H; subst. exists "", (String c s). auto.
    + destruct (IH _ H) as (pre & t & -> & Ht).
      exists (String c pre), t. auto.
Qed.

Lemma findFirst_complete {A} (try : string -> option A) t :
  try t <> None -> forall pre, findFirst try (pre ++ t) <> None.
Proof.
  intros Ht. induction pre as [|c pre IH]; simpl.
  - destruct t; simpl; destruct (try _); congruence.
  - destruct (try (String c (pre ++ t))); [discriminate | exact IH].
Qed.

(** [match] finds a start declaration exactly when the text holds one. *)
Lemma matchDtstart_None s :
  matchDtstart s = None <-> ~ exists tz d, StartDeclaration s tz d.
Proof.
  unfold matchDtstart. split.
  - intros H (tz & d & pre & post & -> & Hne & Hc & Hd).
    apply (findFirst_complete dtstartAt
             ("DTSTART;TZID=" ++ tz ++ String ":" (d ++ post))) with (pre := pre);
      [|exact H].
    rewrite dtstartAt_complete by assumption. discriminate.
  - intros H. destruct (findFirst dtstartAt s) as [[tz d]|] eqn:E; [|reflexivity].
    exfalso. apply H.
    destruct (findFirst_sound _ _ _ E) as (pre & t & -> & Ht).
    destruct (dtstartAt_sound _ _ _ Ht) as (post & -> & Hne & Hc & Hd).
    exists tz, d, pre, post. auto.
Qed.

Lemma matchRrule_None s :
  matchRrule s = None <-> ~ RecurrenceDeclaration s.
Proof.
  unfold matchRrule. split.
  - intros H (pre & c & post & -> & Hc).
    apply (findFirst_complete rruleAt ("RRULE:" ++ String c post)) with (pre := pre);
      [|exact H].
    now apply rruleAt_complete.
  - intros H. destruct (findFirst rruleAt s) as [g|] eqn:E; [|reflexivity].
    exfalso. apply H.
    destruct (findFirst_sound _ _ _ E) as (pre & t & -> & Ht).
    destruct (rruleAt_sound _ _ Ht) as (c & g' & post & -> & -> & Hg).
    simpl in Hg. apply andb_prop in Hg as [Hc _]. apply negb_true_iff in Hc.
    exists pre, c, (g' ++ post). auto.
Qed.

(** ** The parser *)

Lemma parsePart_interval copy host o part o' :
  parsePart copy host o part = Ok o' ->
  interval o' =
    if (keyOf part =? "INTERVAL")%string then parseInt (toStr (valueOf part))
    else interval o.
Proof.
  unfold parsePart, keyOf, valueOf.
  destruct (hd "" (split "=" part) =? "FREQ")%string eqn:E1.
  { apply String.eqb_eq in E1. rewrite E1. simpl.
    destruct (freqOfString _); intros H; inversion H; reflexivity. }
  destruct (hd "" (split "=" part) =? "INTERVAL")%string eqn:E2.
  { intros H; inversion H; reflexivity. }
  destruct (hd "" (split "=" part) =? "UNTIL")%string eqn:E3.
  { destruct (defined _); simpl; [|discriminate].
    destruct (untilDate _ _ _); simpl; [|discriminate].
    intros H; inversion H; reflexivity. }
  destruct (hd "" (split "=" part) =? "WKST")%string eqn:E4.
  { destruct (nth_error _ _); [destruct (weekdayOfString _)|];
      intros H; inversion H; reflexivity. }
  destruct (hd "" (split "=" part) =? "BYDAY")%string eqn:E5.
  { destruct (defined _); simpl; [|discriminate].
    intros H; inversion H; reflexivity. }
  destruct (hd "" (split "=" part) =? "BYSETPOS")%string eqn:E6.
  { destruct (defined _); simpl; [|discriminate].
    intros H; inversion H; reflexivity. }
  destruct (hd "" (split "=" part) =? "COUNT")%string eqn:E7.
  { intros H; inversion H; reflexivity. }
  intros H; inversion H; reflexivity.
Qed.

Lemma forEachPart_interval copy host : forall parts o o',
  forEachPart copy host parts o = Ok o' ->
  interval o' =
    match lastValue "INTERVAL" parts with
    | Some v => parseInt (toStr v)
    | None => interval o
    end.
Proof.
  induction parts as [|part rest IH]; simpl; intros o o' H.
  - now inversion H.
  - destruct (parsePart copy host o part) as [o1|] eqn:E; simpl in H;
      [|discriminate].
    rewrite (IH _ _ H).
    destruct (lastValue "INTERVAL" rest); [reflexivity|].
    rewrite (parsePart_interval _ _ _ _ _ E).
    destruct (keyOf part =? "INTERVAL")%string; reflexivity.
Qed.

(** What a successful parse went through. *)
Lemma parseRRuleString_Some copy host s st o :
  parseRRuleString copy host s st = Ok (Some o) ->
  exists tz d rrulePart start,
    matchDtstart s = Some (tz, d) /\ matchRrule s = Some rrulePart
    /\ dtstartDate d = Ok start
    /\ forEachPart copy host (split ";" rrulePart) (initialOptions start) = Ok o.
Proof.
  unfold parseRRuleString. destruct s as [|c s]; [discriminate|].
  destruct (matchDtstart (String c s)) as [[tz d]|]; [|discriminate].
  destruct (matchRrule (String c s)) as [rrulePart|]; [|discriminate].
  destruct (dtstartDate d) as [start|] eqn:Ed; simpl; [|discriminate].
  destruct (forEachPart _ _ _ _) as [o1|] eqn:Ef; simpl; [|discriminate].
  intros H; inversion H; subst.
  exists tz, d, rrulePart, start. auto.
Qed.

(** C9.  The result of [parseRRuleString] depends on the rule text only:
    two calls that differ in the start time give the same result, in the
    class and in the hook. *)
Theorem parseRRuleString_ignores_startTime
  (copy : Copy) (host : Host) (rRuleString startTime1 startTime2 : string) :
  parseRRuleString copy host rRuleString startTime1
  = parseRRuleString copy host rRuleString startTime2.
Proof. reflexivity. Qed.

(** C8.  A text that is empty, or holds no start declaration
    [DTSTART;TZID=<zone>:<8 digits>T<6 digits>], or holds no [RRULE:]
    followed by a character on its line, is parsed to null without a fault,
    and the generator returns the empty sequence without a fault. *)
Theorem malformed_text_yields_nothing
  (copy : Copy) (host : Host) (targetTimeZone startTime s : string) :
  s = EmptyString \/ (~ exists tz d, StartDeclaration s tz d)
  \/ ~ RecurrenceDeclaration s ->
  parseRRuleString copy host s startTime = Ok None
  /\ getDatesWithCustomTimezone copy host targetTimeZone startTime s = Ok [].
Proof.
  intros H.
  assert (Hp : parseRRuleString copy host s startTime = Ok None).
  { unfold parseRRuleString. destruct s as [|c s]; [reflexivity|].
    destruct H as [H|[H|H]]; [discriminate| |].
    - apply matchDtstart_None in H. now rewrite H.
    - apply matchRrule_None in H. rewrite H.
      now destruct (matchDtstart (String c s)) as [[? ?]|]. }
  split; [exact Hp|].
  unfold getDatesWithCustomTimezone. destruct s; [reflexivity|].
  now rewrite Hp.
Qed.

Lemma malformed_text_yields_nothing_witness :
  (~ exists tz d, StartDeclaration "invalid" tz d)
  /\ parseRRuleString ClassCopy Sample.utcHost "invalid" "2024-09-29T04:45:00"
     = Ok None
  /\ getDatesWithCustomTimezone ClassCopy Sample.utcHost "Europe/London"
       "2024-09-29T04:45:00" "invalid" = Ok [].
Proof.
  assert (H : ~ exists tz d, StartDeclaration "invalid" tz d)
    by (apply matchDtstart_None; reflexivity).
  split; [exact H|].
  apply (malformed_text_yields_nothing ClassCopy Sample.utcHost
           "Europe/London" "2024-09-29T04:45:00" "invalid").
  right; left; exact H.
Defined.

(** C5, as the code has it.  The [interval] of a parsed rule is [parseInt]
    of the value of the last INTERVAL key of the RRULE line, whatever that
    gives (NaN, zero and negative integers included), and 1 when the line
    has no INTERVAL key. *)
Theorem interval_of_parsed_rule
  (copy : Copy) (host : Host) (s startTime : string) (o : Options) :
  parseRRuleString copy host s startTime = Ok (Some o) ->
  exists rrulePart,
    matchRrule s = Some rrulePart
    /\ interval o =
         match lastValue "INTERVAL" (split ";" rrulePart) with
         | Some v => parseInt (toStr v)
         | None => Num 1
         end.
Proof.
  intros H.
  destruct (parseRRuleString_Some _ _ _ _ _ H)
    as (tz & d & rrulePart & start & _ & Hr & _ & Hf).
  exists rrulePart. split; [exact Hr|].
  now rewrite (forEachPart_interval _ _ _ _ _ Hf).
Qed.

Lemma interval_of_parsed_rule_witness :
  parseRRuleString ClassCopy Sample.utcHost intervalRule "" = Ok (Some intervalOptions)
  /\ exists rrulePart,
       matchRrule intervalRule = Some rrulePart
       /\ interval intervalOptions =
            match lastValue "INTERVAL" (split ";" rrulePart) with
            | Some v => parseInt (toStr v)
            | None => Num 1
            end.
Proof.
  split; [reflexivity|].
  apply (interval_of_parsed_rule ClassCopy Sample.utcHost intervalRule ""
           intervalOptions).
  reflexivity.
Defined.

(** C5 as it is written fails: an INTERVAL value that is no integer leaves
    NaN in the field, not 1. *)
Lemma interval_unparsable_counterexample :
  ~ (forall o,
       parseRRuleString ClassCopy Sample.utcHost intervalRule "" = Ok (Some o) ->
       exists n, interval o = Num n /\ 1 <= n).
Proof.
  intros H. destruct (H intervalOptions eq_refl) as (n & Hn & _).
  discriminate Hn.
Qed.

(** *** The start declaration does not depend on its zone *)

Lemma lastChar_append u v :
  v <> EmptyString -> lastChar (u ++ v) = lastChar v.
Proof.
  intros Hv. induction u as [|c u IH]; [reflexivity|].
  simpl. rewrite IH.
  destruct (u ++ v) eqn:E; [|reflexivity].
  destruct u; simpl in E; [congruence | discriminate].
Qed.

Lemma lastChar_Some s c :
  lastChar s = Some c -> exists s', s = s' ++ String c EmptyString.
Proof.
  induction s as [|x s IH]; simpl; [discriminate|].
  destruct s as [|y s].
  - intros H; inversion H; subst. now exists EmptyString.
  - intros H. destruct (IH H) as (s' & ->).
    exists (String x s'). reflexivity.
Qed.

Lemma stripPrefix_long p : forall u v,
  (String.length p <= String.length u)%nat ->
  stripPrefix p (u ++ v)
  = match stripPrefix p u with Some w => Some (w ++ v) | None => None end.
Proof.
  induction p as [|a p IH]; simpl; intros u v H; [reflexivity|].
  destruct u as [|b u]; simpl in *; [lia|].
  destruct (Ascii.eqb a b); [|reflexivity].
  apply IH. lia.
Qed.

(** What is left of [a ++ p] after the prefix [p] ends as [p] does. *)
Lemma stripPrefix_tail a p c w :
  a <> EmptyString -> lastChar p = Some c ->
  stripPrefix p (a ++ p) = Some w ->
  exists w', w = w' ++ String c EmptyString.
Proof.
  intros Ha Hc H. apply stripPrefix_sound in H.
  assert (Hp : p <> EmptyString) by (destruct p; [discriminate | congruence]).
  assert (Hw : w <> EmptyString).
  { intros ->. rewrite append_nil_r in H.
    apply (f_equal String.length) in H. rewrite length_append in H.
    destruct a; [congruence | simpl in H; lia]. }
  apply lastChar_Some.
  rewrite <- (lastChar_append p w Hw), <- H, (lastChar_append a p Hp).
  exact Hc.
Qed.

Lemma digits_separator n : forall x c y,
  isDigit c = false ->
  digits n (x ++ String c y)
  = match digits n x with
    | Some (d, r) => Some (d, r ++ String c y)
    | None => None
    end.
Proof.
  induction n as [|n IH]; intros x c y Hc; [reflexivity|].
  destruct x as [|a x]; simpl.
  - now rewrite Hc.
  - destruct (isDigit a); [|reflexivity].
    rewrite (IH _ _ _ Hc). now destruct (digits n x) as [[d r]|].
Qed.

(** A civil literal cannot run over a character that is neither a digit
    nor [T]: what comes after that character does not matter. *)
Lemma dateTimeLit_separator x c y1 y2 :
  isDigit c = false -> Ascii.eqb c "T" = false ->
  dateTimeLit (x ++ String c y1) = dateTimeLit (x ++ String c y2).
Proof.
  intros Hd Ht. unfold dateTimeLit.
  rewrite !(digits_separator 8 x c _ Hd).
  destruct (digits 8 x) as [[d r]|]; [|reflexivity].
  destruct r as [|e r]; cbn [append].
  - now rewrite Ht.
  - destruct (Ascii.eqb e "T"); [|reflexivity].
    rewrite !(digits_separator 6 r c _ Hd).
    now destruct (digits 6 r) as [[t r']|].
Qed.

Lemma dtstartAt_literal s :
  option_map snd (dtstartAt s)
  = match stripPrefix "DTSTART;TZID=" s with
    | Some r => if zonePresent r then literalAfterColon r else None
    | None => None
    end.
Proof.
  unfold dtstartAt, literalAfterColon, zonePresent.
  destruct (stripPrefix "DTSTART;TZID=" s) as [r|]; [|reflexivity].
  destruct r as [|c r]; [reflexivity|]. simpl.
  destruct (isColon c); simpl; [reflexivity|].
  destruct (span isColon r) as [h t]. simpl.
  destruct t as [|x t]; [reflexivity|].
  now destruct (dateTimeLit t).
Qed.

Section ZoneIrrelevant.

Variables (tz1 tz2 d post : string).
Hypothesis tz1_colon : allb notColon tz1 = true.
Hypothesis tz2_colon : allb notColon tz2 = true.
Hypothesis d_literal : DateTimeLiteral d.

Let rest : string := String ":" (d ++ post).

Lemma literalAfterColon_zone w :
  literalAfterColon ((w ++ "=") ++ tz1 ++ rest)
  = literalAfterColon ((w ++ "=") ++ tz2 ++ rest).
Proof.
  rewrite !append_assoc.
  change ("=" ++ tz1 ++ rest) with (String "=" (tz1 ++ rest)).
  change ("=" ++ tz2 ++ rest) with (String "=" (tz2 ++ rest)).
  unfold literalAfterColon.
  induction w as [|c w IH]; simpl.
  - change (String "=" (tz1 ++ rest)) with (String "=" tz1 ++ rest).
    change (String "=" (tz2 ++ rest)) with (String "=" tz2 ++ rest).
    unfold rest.
    rewrite !span_append by (simpl; auto).
    reflexivity.
  - destruct (isColon c) eqn:Ec; simpl.
    + apply dateTimeLit_separator; reflexivity.
    + destruct (span isColon (w ++ String "=" (tz1 ++ rest))) as [h1 t1].
      destruct (span isColon (w ++ String "=" (tz2 ++ rest))) as [h2 t2].
      exact IH.
Qed.

Lemma zonePresent_zone w :
  zonePresent ((w ++ "=") ++ tz1 ++ rest)
  = zonePresent ((w ++ "=") ++ tz2 ++ rest).
Proof. destruct w; reflexivity. Qed.

Hypothesis tz1_present : tz1 <> EmptyString.
Hypothesis tz2_present : tz2 <> EmptyString.

Lemma regroup a tz :
  a ++ "DTSTART;TZID=" ++ tz ++ rest = (a ++ "DTSTART;TZID=") ++ tz ++ rest.
Proof. now rewrite append_assoc. Qed.

Lemma dtstartAt_zone a :
  option_map snd (dtstartAt (a ++ "DTSTART;TZID=" ++ tz1 ++ rest))
  = option_map snd (dtstartAt (a ++ "DTSTART;TZID=" ++ tz2 ++ rest)).
Proof.
  destruct a as [|c a].
  - change ("" ++ "DTSTART;TZID=" ++ tz1 ++ rest)
      with ("DTSTART;TZID=" ++ tz1 ++ rest).
    change ("" ++ "DTSTART;TZID=" ++ tz2 ++ rest)
      with ("DTSTART;TZID=" ++ tz2 ++ rest).
    unfold rest. now rewrite !dtstartAt_complete.
  - rewrite !dtstartAt_literal, !regroup.
    rewrite (stripPrefix_long _ _ (tz1 ++ rest))
      by (rewrite length_append; simpl; lia).
    rewrite (stripPrefix_long _ _ (tz2 ++ rest))
      by (rewrite length_append; simpl; lia).
    destruct (stripPrefix "DTSTART;TZID=" (String c a ++ "DTSTART;TZID="))
      as [w|] eqn:E; [|reflexivity].
    destruct (stripPrefix_tail (String c a) "DTSTART;TZID=" "=" w) as (w' & ->);
      [discriminate | reflexivity | exact E |].
    rewrite zonePresent_zone, literalAfterColon_zone. reflexivity.
Qed.

Lemma findFirst_step {A} (try : string -> option A) c s :
  findFirst try (String c s)
  = match try (String c s) with Some a => Some a | None => findFirst try s end.
Proof. reflexivity. Qed.

Lemma matchDtstart_zone pre :
  option_map snd (matchDtstart (pre ++ "DTSTART;TZID=" ++ tz1 ++ rest))
  = option_map snd (matchDtstart (pre ++ "DTSTART;TZID=" ++ tz2 ++ rest)).
Proof.
  unfold matchDtstart. induction pre as [|c pre IH].
  - change ("" ++ "DTSTART;TZID=" ++ tz1 ++ rest)
      with ("DTSTART;TZID=" ++ tz1 ++ rest).
    change ("" ++ "DTSTART;TZID=" ++ tz2 ++ rest)
      with ("DTSTART;TZID=" ++ tz2 ++ rest).
    change ("DTSTART;TZID=" ++ tz1 ++ rest)
      with (String "D" ("TSTART;TZID=" ++ tz1 ++ rest)).
    change ("DTSTART;TZID=" ++ tz2 ++ rest)
      with (String "D" ("TSTART;TZID=" ++ tz2 ++ rest)).
    rewrite !findFirst_step.
    change (String "D" ("TSTART;TZID=" ++ tz1 ++ rest))
      with ("DTSTART;TZID=" ++ tz1 ++ rest).
    change (String "D" ("TSTART;TZID=" ++ tz2 ++ rest))
      with ("DTSTART;TZID=" ++ tz2 ++ rest).
    unfold rest. now rewrite !dtstartAt_complete.
  - pose proof (dtstartAt_zone (String c pre)) as H.
    change (String c pre ++ "DTSTART;TZID=" ++ tz1 ++ rest)
      with (String c (pre ++ "DTSTART;TZID=" ++ tz1 ++ rest)) in *.
    change (String c pre ++ "DTSTART;TZID=" ++ tz2 ++ rest)
      with (String c (pre ++ "DTSTART;TZID=" ++ tz2 ++ rest)) in *.
    rewrite !findFirst_step.
    destruct (dtstartAt (String c (pre ++ "DTSTART;TZID=" ++ tz1 ++ rest)))
      as [[z1 d1]|];
    destruct (dtstartAt (String c (pre ++ "DTSTART;TZID=" ++ tz2 ++ rest)))
      as [[z2 d2]|]; try discriminate H; [exact H | exact IH].
Qed.

End ZoneIrrelevant.

(** *** Numerals *)

Lemma digit_facts c :
  isDigit c = true ->
  isStrWhiteSpace c = false /\ Ascii.eqb c "-" = false /\ Ascii.eqb c "+" = false
  /\ Ascii.eqb c "x" = false /\ Ascii.eqb c "X" = false
  /\ digitValue 10 c = Some (codeOf c - 48) /\ 0 <= codeOf c - 48 <= 9.
Proof.
  destruct c as [[] [] [] [] [] [] [] []]; intros H; vm_compute in H;
    try discriminate H; vm_compute; repeat split; try reflexivity; discriminate.
Qed.

Lemma readDigits_decimal : forall s acc,
  allb isDigit s = true ->
  readDigits 10 (Some acc) s = Some (decimalFrom acc s).
Proof.
  induction s as [|c s IH]; simpl; intros acc H; [reflexivity|].
  apply andb_prop in H as [Hc Hs].
  destruct (digit_facts c Hc) as (_ & _ & _ & _ & _ & Hv & _).
  rewrite Hv. apply IH, Hs.
Qed.

(** [parseInt] reads a string of digits as its decimal value. *)
Lemma parseInt_decimal s :
  s <> EmptyString -> allb isDigit s = true -> parseInt s = Num (decimalValue s).
Proof.
  destruct s as [|c s]; [congruence|]. intros _ H.
  simpl in H. apply andb_prop in H as [Hc Hs].
  destruct (digit_facts c Hc) as (Hw & Hm & Hp & _ & _ & Hv & _).
  unfold parseInt. simpl trimStart. rewrite Hw, Hm, Hp.
  unfold parseIntBody.
  assert (Hr : readDigits 10 None (String c s) = Some (decimalValue (String c s))).
  { simpl. rewrite Hv. unfold decimalValue. simpl.
    now apply readDigits_decimal. }
  destruct s as [|c2 s].
  - rewrite Hr. f_equal. apply Z.mul_1_l.
  - simpl in Hs. apply andb_prop in Hs as [Hc2 _].
    destruct (digit_facts c2 Hc2) as (_ & _ & _ & Hx & HX & _).
    rewrite Hx, HX, andb_false_r, Hr. f_equal. apply Z.mul_1_l.
Qed.

(** ** Time values *)

Module TimeFacts.
Import Time.

Lemma DayFromYear_approx y :
  146097 * (y - 1970) - 800 <= 400 * DayFromYear y <= 146097 * (y - 1970) + 800.
Proof. unfold DayFromYear. Z.div_mod_to_equations; lia. Qed.

Lemma DayFromYear_succ y : DayFromYear (y + 1) = DayFromYear y + DaysInYear y.
Proof.
  unfold DayFromYear, DaysInYear, leapDay, isLeapYear.
  destruct (Z.eqb_spec (y mod 4) 0); destruct (Z.eqb_spec (y mod 100) 0);
  destruct (Z.eqb_spec (y mod 400) 0); cbn [negb andb orb];
    Z.div_mod_to_equations; lia.
Qed.

Lemma leapDay_cases y : leapDay y = 0 \/ leapDay y = 1.
Proof. unfold leapDay. destruct (isLeapYear y); auto. Qed.

Lemma DayFromYear_lt y y' : y < y' -> DayFromYear y < DayFromYear y'.
Proof.
  intros H.
  assert (Hs : forall n, 0 <= n -> DayFromYear y < DayFromYear (y + 1 + n)).
  { apply (natlike_ind (fun n => DayFromYear y < DayFromYear (y + 1 + n))).
    - rewrite Z.add_0_r, DayFromYear_succ. unfold DaysInYear.
      destruct (leapDay_cases y); lia.
    - intros n Hn IH. replace (y + 1 + Z.succ n) with (y + 1 + n + 1) by lia.
      rewrite DayFromYear_succ. unfold DaysInYear.
      destruct (leapDay_cases (y + 1 + n)); lia. }
  replace y' with (y + 1 + (y' - y - 1)) by lia. apply Hs. lia.
Qed.

(** [YearFromDay d] is the year that holds day [d]. *)
Lemma YearFromDay_spec d :
  DayFromYear (YearFromDay d) <= d < DayFromYear (YearFromDay d + 1).
Proof.
  unfold YearFromDay.
  set (y0 := 1970 + 400 * d / 146097).
  assert (H : DayFromYear (y0 - 1) <= d < DayFromYear (y0 + 2)).
  { unfold DayFromYear, y0. Z.div_mod_to_equations; lia. }
  destruct (Z.leb_spec (DayFromYear (y0 + 1)) d).
  - replace (y0 + 1 + 1) with (y0 + 2) by lia. lia.
  - destruct (Z.leb_spec (DayFromYear y0) d).
    + lia.
    + replace (y0 - 1 + 1) with y0 by lia. lia.
Qed.

Lemma YearFromDay_unique y d :
  DayFromYear y <= d < DayFromYear (y + 1) -> YearFromDay d = y.
Proof.
  intros H. pose proof (YearFromDay_spec d) as S.
  destruct (Z.lt_trichotomy (YearFromDay d) y) as [L|[E|G]]; [|exact E|].
  - assert (DayFromYear (YearFromDay d + 1) <= DayFromYear y).
    { destruct (Z.eq_dec (YearFromDay d + 1) y) as [->|]; [lia|].
      apply Z.lt_le_incl, DayFromYear_lt. lia. }
    lia.
  - assert (DayFromYear (y + 1) <= DayFromYear (YearFromDay d)).
    { destruct (Z.eq_dec (y + 1) (YearFromDay d)) as [->|]; [lia|].
      apply Z.lt_le_incl, DayFromYear_lt. lia. }
    lia.
Qed.

Lemma cumDays_bounds m l : 0 <= l <= 1 -> 0 <= cumDays m l <= 335.
Proof.
  intros H. unfold cumDays.
  repeat match goal with
         | |- context [if ?b then _ else _] => destruct b
         end; lia.
Qed.

Lemma MakeDay_inYear y m d :
  0 <= m <= 11 ->
  MakeDay y m d = DayFromYear y + cumDays m (leapDay y) + d - 1.
Proof.
  intros H. unfold MakeDay.
  rewrite (Z.div_small m 12), (Z.mod_small m 12), Z.add_0_r by lia.
  reflexivity.
Qed.

Lemma TimeClip_Some t : Z.abs t <= 8640000000000000 -> TimeClip t = Some t.
Proof.
  intros H. unfold TimeClip. now destruct (Z.leb_spec (Z.abs t) 8640000000000000); [|lia].
Qed.

Lemma TimeClip_inv t v : TimeClip t = Some v -> v = t /\ Z.abs t <= 8640000000000000.
Proof.
  unfold TimeClip. destruct (Z.leb_spec (Z.abs t) 8640000000000000); [|discriminate].
  intros E; inversion E; subst; split; [reflexivity | assumption].
Qed.

Lemma MakeTime_bounds h m s ms :
  0 <= h <= 23 -> 0 <= m <= 59 -> 0 <= s <= 59 -> 0 <= ms <= 999 ->
  0 <= MakeTime h m s ms < msPerDay.
Proof. unfold MakeTime, msPerDay. lia. Qed.

Lemma Day_MakeDate d t : 0 <= t < msPerDay -> Day (MakeDate d t) = d.
Proof.
  unfold Day, MakeDate, msPerDay. intros H. Z.div_mod_to_equations. lia.
Qed.

Lemma TimeWithinDay_MakeDate d t :
  0 <= t < msPerDay -> TimeWithinDay (MakeDate d t) = t.
Proof.
  unfold TimeWithinDay, MakeDate, msPerDay. intros H.
  Z.div_mod_to_equations. lia.
Qed.

Lemma MakeDate_Day t : MakeDate (Day t) (TimeWithinDay t) = t.
Proof.
  unfold MakeDate, Day, TimeWithinDay, msPerDay. Z.div_mod_to_equations. lia.
Qed.

Lemma TimeWithinDay_bounds t : 0 <= TimeWithinDay t < msPerDay.
Proof. unfold TimeWithinDay, msPerDay. Z.div_mod_to_equations. lia. Qed.

(** The clock fields of a time value built from a day and clock fields. *)
Lemma clock_MakeDate d h m s ms :
  0 <= h <= 23 -> 0 <= m <= 59 -> 0 <= s <= 59 -> 0 <= ms <= 999 ->
  HourFromTime (MakeDate d (MakeTime h m s ms)) = h
  /\ MinFromTime (MakeDate d (MakeTime h m s ms)) = m
  /\ SecFromTime (MakeDate d (MakeTime h m s ms)) = s
  /\ msFromTime (MakeDate d (MakeTime h m s ms)) = ms.
Proof.
  intros Hh Hm Hs Hms.
  unfold HourFromTime, MinFromTime, SecFromTime, msFromTime, MakeDate,
    MakeTime, msPerDay.
  repeat split; Z.div_mod_to_equations; lia.
Qed.

End TimeFacts.

(** ** The date-time library *)

Module LuxonFacts.
Import Time TimeFacts Luxon.

Lemma integerBetween_spec x lo hi :
  integerBetween x lo hi = true <-> lo <= x <= hi.
Proof. unfold integerBetween. lia. Qed.

Lemma properTime_spec c :
  properTime c = true ->
  0 <= hour c <= 23 /\ 0 <= minute c <= 59 /\ 0 <= second c <= 59
  /\ 0 <= millisecond c <= 999.
Proof. unfold properTime, integerBetween. lia. Qed.

Lemma daysInMonth_bounds y m : 28 <= daysInMonth y m <= 31.
Proof.
  unfold daysInMonth.
  repeat match goal with
         | |- context [if ?b then _ else _] => destruct b
         end; lia.
Qed.

(** Luxon undoes the two-digit-year rule of [Date.UTC]: with a proper
    time of day the result is the plain reading of the fields. *)
Lemma objToLocalTS_proper c :
  properTime c = true ->
  (0 <= year c < 100 ->
   Z.abs (month c) <= 1000000 /\ Z.abs (day c) <= 10000000) ->
  objToLocalTS c = TimeClip (utcMillis c).
Proof.
  intros Ht Hs. apply properTime_spec in Ht as (Hh & Hm & Hsec & Hms).
  pose proof (MakeTime_bounds _ _ _ _ Hh Hm Hsec Hms) as Hb.
  unfold objToLocalTS, utcMillis, DateUTC.
  destruct (Z.leb_spec 0 (year c)); destruct (Z.ltb_spec (year c) 100);
    destruct (Z.leb_spec (year c) 99); cbn [andb]; try reflexivity; try lia.
  destruct Hs as [Hmo Hd]; [lia|].
  rewrite TimeClip_Some.
  - unfold setUTCFullYear. now rewrite TimeWithinDay_MakeDate.
  - unfold MakeDate, MakeDay.
    set (ym := 1900 + year c + (month c - 1) / 12).
    pose proof (DayFromYear_approx ym) as Ha.
    pose proof (cumDays_bounds ((month c - 1) mod 12) (leapDay ym)
                  ltac:(destruct (leapDay_cases ym); lia)) as Hc.
    assert (Hy : 1900 - 100000 <= ym <= 2000 + 100000)
      by (unfold ym; Z.div_mod_to_equations; lia).
    unfold msPerDay in *. lia.
Qed.

Lemma fixOffset_fixed l k z :
  (forall t, offset z t = k) -> fixOffset l k z = (l - k * 60000, k).
Proof. intros H. unfold fixOffset. now rewrite H, Z.eqb_refl. Qed.

Lemma objToTS_fixed c k z :
  (forall t, offset z t = k) ->
  objToTS c k z
  = match objToLocalTS c with Some l => Some (l - k * 60000) | None => None end.
Proof.
  intros H. unfold objToTS. destruct (objToLocalTS c); [|reflexivity].
  now rewrite (fixOffset_fixed _ _ _ H).
Qed.

Lemma mkDateTime_fixed t k z :
  (forall x, offset z x = k) ->
  mkDateTime (Some t) z
  = match TimeClip (t + k * 60000) with Some _ => At t z | None => Invalid end.
Proof. intros H. unfold mkDateTime. now rewrite H. Qed.

(** The days before year [y], for the years of four digits. *)
Lemma DayFromYear_fourDigits y :
  0 <= y <= 9999 -> -720000 <= DayFromYear y <= 2940000.
Proof. intros H. pose proof (DayFromYear_approx y). lia. Qed.

(** [fromObject] in UTC on proper fields of a four-digit year: the plain
    reading of the fields. *)
Lemma fromObjectUTC_proper c :
  properDate c = true -> properTime c = true ->
  0 <= year c <= 9999 -> millisecond c = 0 ->
  fromObjectUTC (Num (year c)) (Num (month c)) (Num (day c))
    (Num (hour c)) (Num (minute c)) (Num (second c))
  = Ok (At (utcMillis c) utcZone)
  /\ Z.abs (utcMillis c) <= 8640000000000000.
Proof.
  intros Hd Ht Hy Hms.
  assert (Hb : Z.abs (utcMillis c) <= 8640000000000000).
  { apply properTime_spec in Ht as (Hh & Hm & Hsec & Hms').
    pose proof (MakeTime_bounds _ _ _ _ Hh Hm Hsec Hms') as Hb.
    unfold properDate in Hd. apply andb_prop in Hd as [Hmo Hday].
    apply integerBetween_spec in Hmo, Hday.
    pose proof (daysInMonth_bounds (year c) (month c)).
    unfold utcMillis. rewrite MakeDay_inYear by lia.
    pose proof (DayFromYear_fourDigits _ Hy).
    pose proof (cumDays_bounds (month c - 1) (leapDay (year c))
                  ltac:(destruct (leapDay_cases (year c)); lia)).
    unfold MakeDate, msPerDay in *. lia. }
  split; [|exact Hb].
  unfold fromObjectUTC. cbn [asNumber bind].
  replace {| year := year c; month := month c; day := day c; hour := hour c;
             minute := minute c; second := second c; millisecond := 0 |}
    with c by (destruct c; simpl in *; now subst).
  assert (Hg : hasInvalidGregorianData c = false)
    by (unfold hasInvalidGregorianData; fold (properDate c); now rewrite Hd).
  assert (Hi : hasInvalidTimeData c = false).
  { unfold hasInvalidTimeData. unfold properTime in Ht.
    apply andb_prop in Ht as [Ht Hmsb]. apply andb_prop in Ht as [Ht Hsb].
    apply andb_prop in Ht as [Hhb Hmb]. now rewrite Hhb, Hmb, Hsb, Hmsb. }
  rewrite Hg, Hi. cbn [orb]. f_equal.
  rewrite (objToTS_fixed c 0 utcZone) by reflexivity.
  rewrite objToLocalTS_proper; [|exact Ht|].
  - rewrite (TimeClip_Some _ Hb), Z.sub_0_r.
    rewrite (mkDateTime_fixed _ 0 utcZone) by reflexivity.
    now rewrite Z.add_0_r, (TimeClip_Some _ Hb).
  - intros _. unfold properDate in Hd. apply andb_prop in Hd as [Hmo Hday].
    apply integerBetween_spec in Hmo, Hday.
    pose proof (daysInMonth_bounds (year c) (month c)). lia.
Qed.

End LuxonFacts.

(** ** The start instant *)

Import LuxonFacts.

(** What a step of the parser does to the options. *)
Lemma parsePart_inv copy host o part o' :
  parsePart copy host o part = Ok o' ->
  o' = o \/ (exists f, o' = setFreq f o) \/ (exists n, o' = setInterval n o)
  \/ (exists d, keyOf part = "UNTIL" /\ o' = setUntil d o)
  \/ (exists w, o' = setWkst w o)
  \/ (exists l, o' = setByweekday l o) \/ (exists l, o' = setBysetpos l o)
  \/ (exists n, o' = setCount n o).
Proof.
  unfold parsePart. fold (keyOf part).
  destruct (keyOf part =? "FREQ")%string.
  { destruct (freqOfString _); intros H; inversion H; eauto. }
  destruct (keyOf part =? "INTERVAL")%string.
  { intros H; inversion H; eauto. }
  destruct (String.eqb_spec (keyOf part) "UNTIL").
  { destruct (defined _); simpl; [|discriminate].
    destruct (untilDate _ _ _); simpl; [|discriminate].
    intros H; inversion H. do 3 right. left. eauto. }
  destruct (keyOf part =? "WKST")%string.
  { destruct (nth_error _ _); [destruct (weekdayOfString _)|];
      intros H; inversion H; eauto 10. }
  destruct (keyOf part =? "BYDAY")%string.
  { destruct (defined _); simpl; [|discriminate].
    intros H; inversion H; eauto 10. }
  destruct (keyOf part =? "BYSETPOS")%string.
  { destruct (defined _); simpl; [|discriminate].
    intros H; inversion H; eauto 10. }
  destruct (keyOf part =? "COUNT")%string.
  { intros H; inversion H; eauto 10. }
  intros H; inversion H; eauto.
Qed.

Lemma forEachPart_dtstart copy host : forall parts o o',
  forEachPart copy host parts o = Ok o' -> dtstart o' = dtstart o.
Proof.
  induction parts as [|part rest IH]; simpl; intros o o' H.
  - now inversion H.
  - destruct (parsePart copy host o part) as [o1|] eqn:E; simpl in H;
      [|discriminate].
    rewrite (IH _ _ H).
    destruct (parsePart_inv _ _ _ _ _ E)
      as [->|[[? ->]|[[? ->]|[(? & _ & ->)|[[? ->]|[[? ->]|[[? ->]|[? ->]]]]]]]];
      reflexivity.
Qed.

Lemma dtstartDate_literal d :
  DateTimeLiteral d ->
  let c := civilOfLiteral d in
  dtstartDate d
  = (dt <- Luxon.fromObjectUTC (Num (Luxon.year c)) (Num (Luxon.month c))
             (Num (Luxon.day c)) (Num (Luxon.hour c)) (Num (Luxon.minute c))
             (Num (Luxon.second c)) ;;
     Ok (Luxon.toJSDate dt)).
Proof.
  intros (a & b & -> & La & Lb & Da & Db).
  destruct a as [|a1 [|a2 [|a3 [|a4 [|a5 [|a6 [|a7 [|a8 [|]]]]]]]]];
    try discriminate La.
  destruct b as [|b1 [|b2 [|b3 [|b4 [|b5 [|b6 [|]]]]]]]; try discriminate Lb.
  cbn [allb] in Da, Db.
  repeat match goal with
         | H : _ && _ = true |- _ => apply andb_prop in H as [? H]
         end.
  unfold dtstartDate, civilOfLiteral.
  cbn [substring take drop Nat.sub append Luxon.year Luxon.month Luxon.day
       Luxon.hour Luxon.minute Luxon.second].
  rewrite !parseInt_decimal
    by (try discriminate; cbn [allb];
        repeat match goal with H : isDigit _ = true |- _ => rewrite H end;
        reflexivity).
  reflexivity.
Qed.

(** The start instant of a literal with proper fields. *)
Lemma dtstartDate_proper d :
  DateTimeLiteral d ->
  properDate (civilOfLiteral d) && properTime (civilOfLiteral d) = true ->
  dtstartDate d = Ok (DateAt (utcMillis (civilOfLiteral d))).
Proof.
  intros Hd Hp. apply andb_prop in Hp as [Hpd Hpt].
  assert (Hy : 0 <= Luxon.year (civilOfLiteral d) <= 9999).
  { destruct Hd as (a & b & -> & La & Lb & Da & Db).
    destruct a as [|a1 [|a2 [|a3 [|a4 [|a5 [|a6 [|a7 [|a8 [|]]]]]]]]];
      try discriminate La.
    cbn [allb] in Da.
    repeat match goal with
           | H : _ && _ = true |- _ => apply andb_prop in H as [? H]
           end.
    cbn [civilOfLiteral substring take drop Nat.sub append Luxon.year].
    unfold decimalValue. cbn [decimalFrom].
    repeat match goal with
           | H : isDigit ?c = true |- _ =>
               let F := fresh in
               destruct (digit_facts c H) as (_ & _ & _ & _ & _ & _ & F);
               clear H
           end.
    lia. }
  rewrite (dtstartDate_literal d Hd). cbv zeta.
  destruct (fromObjectUTC_proper (civilOfLiteral d) Hpd Hpt Hy eq_refl)
    as [-> Hb].
  cbn [bind Luxon.toJSDate]. now rewrite (TimeFacts.TimeClip_Some _ Hb).
Qed.

(** C4.  Two rule texts that differ in the zone of the start declaration
    only are parsed to the same start instant.  That instant comes from the
    literal of the leftmost start declaration alone: when the fields of the
    literal are a proper date and time of day, it is their reading as
    UTC. *)
Theorem dtstart_ignores_zone
  (copy : Copy) (host : Host) (startTime pre tz1 tz2 d post : string)
  (o1 o2 : Options) :
  tz1 <> EmptyString -> allb notColon tz1 = true ->
  tz2 <> EmptyString -> allb notColon tz2 = true ->
  DateTimeLiteral d ->
  parseRRuleString copy host
    (pre ++ "DTSTART;TZID=" ++ tz1 ++ String ":" (d ++ post)) startTime
  = Ok (Some o1) ->
  parseRRuleString copy host
    (pre ++ "DTSTART;TZID=" ++ tz2 ++ String ":" (d ++ post)) startTime
  = Ok (Some o2) ->
  dtstart o1 = dtstart o2
  /\ exists tz lit,
       matchDtstart (pre ++ "DTSTART;TZID=" ++ tz1 ++ String ":" (d ++ post))
       = Some (tz, lit)
       /\ DateTimeLiteral lit
       /\ (properDate (civilOfLiteral lit) && properTime (civilOfLiteral lit)
           = true ->
           dtstart o1 = DateAt (utcMillis (civilOfLiteral lit))).
Proof.
  intros N1 C1 N2 C2 Hd P1 P2.
  destruct (parseRRuleString_Some _ _ _ _ _ P1)
    as (z1 & d1 & r1 & s1 & M1 & _ & D1 & F1).
  destruct (parseRRuleString_Some _ _ _ _ _ P2)
    as (z2 & d2 & r2 & s2 & M2 & _ & D2 & F2).
  pose proof (matchDtstart_zone tz1 tz2 d post C1 C2 Hd N1 N2 pre) as Hz.
  rewrite M1, M2 in Hz. simpl in Hz. inversion Hz; subst d2.
  rewrite (forEachPart_dtstart _ _ _ _ _ F1), (forEachPart_dtstart _ _ _ _ _ F2).
  cbn [dtstart initialOptions].
  assert (s1 = s2) by congruence. subst s2.
  split; [reflexivity|].
  exists z1, d1. split; [exact M1|].
  assert (Hl : DateTimeLiteral d1).
  { unfold matchDtstart in M1.
    destruct (findFirst_sound _ _ _ M1) as (p & t & _ & Ht).
    now destruct (dtstartAt_sound _ _ _ Ht) as (? & _ & _ & _ & ?). }
  split; [exact Hl|].
  intros Hp. rewrite (dtstartDate_proper d1 Hl Hp) in D1. congruence.
Qed.

Lemma literal_20240929T044500 : DateTimeLiteral "20240929T044500".
Proof. exists "20240929", "044500". repeat split. Qed.

Lemma dtstart_ignores_zone_witness :
  parseRRuleString ClassCopy Sample.utcHost
    ("" ++ "DTSTART;TZID=" ++ "America/New_York"
        ++ String ":" ("20240929T044500" ++ zoneRuleTail)) ""
  = Ok (Some zoneRuleOptions)
  /\ parseRRuleString ClassCopy Sample.utcHost
       ("" ++ "DTSTART;TZID=" ++ "Asia/Tokyo"
           ++ String ":" ("20240929T044500" ++ zoneRuleTail)) ""
     = Ok (Some zoneRuleOptions)
  /\ dtstart zoneRuleOptions = dtstart zoneRuleOptions
  /\ exists tz lit,
       matchDtstart ("" ++ "DTSTART;TZID=" ++ "America/New_York"
                        ++ String ":" ("20240929T044500" ++ zoneRuleTail))
       = Some (tz, lit)
       /\ DateTimeLiteral lit
       /\ (properDate (civilOfLiteral lit) && properTime (civilOfLiteral lit)
           = true ->
           dtstart zoneRuleOptions = DateAt (utcMillis (civilOfLiteral lit))).
Proof.
  split; [reflexivity|]. split; [reflexivity|].
  apply (dtstart_ignores_zone ClassCopy Sample.utcHost "" ""
           "America/New_York" "Asia/Tokyo" "20240929T044500" zoneRuleTail
           zoneRuleOptions zoneRuleOptions);
    try discriminate; try reflexivity.
  exact literal_20240929T044500.
Defined.

(** ** The two copies *)

Lemma parsePart_copy host o part :
  keyOf part <> "UNTIL" ->
  parsePart ClassCopy host o part = parsePart HookCopy host o part.
Proof.
  intros H. unfold parsePart. fold (keyOf part).
  destruct (String.eqb_spec (keyOf part) "UNTIL"); [contradiction|].
  reflexivity.
Qed.

Lemma parsePart_until copy host o part o' :
  keyOf part <> "UNTIL" ->
  parsePart copy host o part = Ok o' -> until o' = until o.
Proof.
  intros H E.
  destruct (parsePart_inv _ _ _ _ _ E)
    as [->|[[? ->]|[[? ->]|[(? & K & ->)|[[? ->]|[[? ->]|[[? ->]|[? ->]]]]]]]];
    try reflexivity.
  contradiction.
Qed.

Lemma forEachPart_copy host : forall parts o,
  hasKey "UNTIL" parts = false ->
  forEachPart ClassCopy host parts o = forEachPart HookCopy host parts o
  /\ forall copy o', forEachPart copy host parts o = Ok o' -> until o' = until o.
Proof.
  induction parts as [|part rest IH]; intros o H.
  - split; [reflexivity|]. intros copy o' E. now inversion E.
  - simpl in H. apply orb_false_elim in H as [Hk Hr].
    apply String.eqb_neq in Hk. simpl.
    rewrite (parsePart_copy host o part Hk). split.
    + destruct (parsePart HookCopy host o part) as [o1|]; [|reflexivity].
      simpl. apply (IH o1 Hr).
    + intros copy o' E.
      destruct (parsePart copy host o part) as [o1|] eqn:E1; [|discriminate].
      simpl in E. destruct (IH o1 Hr) as [_ Hu].
      rewrite (Hu _ _ E). exact (parsePart_until _ _ _ _ _ Hk E1).
Qed.

Lemma parseRRuleString_copy host s startTime :
  (forall rrulePart,
     matchRrule s = Some rrulePart -> hasKey "UNTIL" (split ";" rrulePart) = false) ->
  parseRRuleString ClassCopy host s startTime
  = parseRRuleString HookCopy host s startTime
  /\ forall copy o,
       parseRRuleString copy host s startTime = Ok (Some o) -> until o = None.
Proof.
  intros H. unfold parseRRuleString.
  destruct s as [|c s]; [split; [reflexivity | discriminate]|].
  destruct (matchDtstart (String c s)) as [[tz d]|];
    [|split; [reflexivity | discriminate]].
  destruct (matchRrule (String c s)) as [rrulePart|];
    [|split; [reflexivity | discriminate]].
  specialize (H rrulePart eq_refl).
  destruct (dtstartDate d) as [start|]; simpl;
    [|split; [reflexivity | discriminate]].
  destruct (forEachPart_copy host (split ";" rrulePart) (initialOptions start) H)
    as [E Hu].
  rewrite E. split; [reflexivity|].
  intros copy o Ho.
  destruct (forEachPart copy host (split ";" rrulePart) (initialOptions start))
    as [o1|] eqn:Ef; simpl in Ho; [|discriminate].
  inversion Ho; subst. exact (Hu _ _ Ef).
Qed.

(** Without an [until] the loops of the two copies are the same loop. *)
Lemma while_copy o body :
  until o = None ->
  forall fuel cur,
    while ClassCopy o body fuel cur = while HookCopy o body fuel cur.
Proof.
  intros Hu. induction fuel as [|fuel IH]; intros cur; [reflexivity|].
  simpl. unfold untilReached. rewrite Hu.
  destruct (body cur) as [step|]; [|reflexivity].
  simpl. now rewrite IH.
Qed.

Lemma dateTimesOf_copy host targetTimeZone startTime o :
  until o = None ->
  dateTimesOf ClassCopy host targetTimeZone startTime o
  = dateTimesOf HookCopy host targetTimeZone startTime o.
Proof.
  intros Hu. unfold dateTimesOf, dailyDateTimes, weeklyDateTimes,
    monthlyDateTimes, yearlyDateTimes.
  destruct (freq o); [| destruct (byweekday o) as [[|w l]|] | |];
    apply (while_copy _ _ Hu).
Qed.

(** The strings come from the [DateTime]s of [dateTimesOf]. *)
Lemma getDatesWithCustomTimezone_dateTimes copy host targetTimeZone startTime s :
  getDatesWithCustomTimezone copy host targetTimeZone startTime s
  = match s with
    | EmptyString => Ok []
    | _ =>
        parsed <- parseRRuleString copy host s startTime ;;
        match parsed with
        | None => Ok []
        | Some o =>
            strings (dateTimesOf copy host targetTimeZone startTime o)
        end
    end.
Proof.
  unfold getDatesWithCustomTimezone. destruct s; [reflexivity|].
  destruct (parseRRuleString copy host _ startTime) as [[o|]|];
    try reflexivity.
  simpl. unfold dateTimesOf. now destruct (freq o).
Qed.

(** C3.  On a rule text whose RRULE line has no UNTIL key, the generator
    of the class and the generator of the hook return the same outcome for
    the same arguments. *)
Theorem copies_agree_without_until
  (host : Host) (rRuleString targetTimeZone startTime : string) :
  (forall rrulePart,
     matchRrule rRuleString = Some rrulePart ->
     hasKey "UNTIL" (split ";" rrulePart) = false) ->
  TimezoneRRule.getDatesWithCustomTimezone host rRuleString targetTimeZone
    startTime
  = useRruleDatesGenerator.getDatesWithCustomTimezone host rRuleString
      targetTimeZone startTime.
Proof.
  intros H.
  unfold TimezoneRRule.getDatesWithCustomTimezone,
    useRruleDatesGenerator.getDatesWithCustomTimezone.
  rewrite !getDatesWithCustomTimezone_dateTimes.
  destruct rRuleString as [|c s]; [reflexivity|].
  destruct (parseRRuleString_copy host (String c s) startTime H) as [E Hu].
  rewrite E.
  destruct (parseRRuleString HookCopy host (String c s) startTime)
    as [[o|]|] eqn:Ep; try reflexivity.
  simpl. now rewrite (dateTimesOf_copy host targetTimeZone startTime o (Hu _ _ Ep)).
Qed.

Lemma copies_agree_without_until_witness :
  (forall rrulePart,
     matchRrule dailyRule = Some rrulePart ->
     hasKey "UNTIL" (split ";" rrulePart) = false)
  /\ TimezoneRRule.getDatesWithCustomTimezone Sample.utcHost dailyRule
       "Europe/London" "2024-09-29T04:45:00"
     = useRruleDatesGenerator.getDatesWithCustomTimezone Sample.utcHost
         dailyRule "Europe/London" "2024-09-29T04:45:00".
Proof.
  assert (H : forall rrulePart,
             matchRrule dailyRule = Some rrulePart ->
             hasKey "UNTIL" (split ";" rrulePart) = false).
  { intros rrulePart E. vm_compute in E. inversion E. reflexivity. }
  split; [exact H|].
  apply (copies_agree_without_until Sample.utcHost dailyRule "Europe/London"
           "2024-09-29T04:45:00" H).
Defined.

(** With an UNTIL key the copies part, on a host on UTC too: a cursor that
    is equal to [until] is pushed by the class ([>]) and not by the hook
    ([>=]). *)
Example copies_differ_at_until :
  TimezoneRRule.getDatesWithCustomTimezone Sample.utcHost boundaryRule "UTC"
    "2024-01-01T09:00:00"
  = Ok ["2024-01-01T09:00:00.000Z"; "2024-01-02T09:00:00.000Z";
        "2024-01-03T09:00:00.000Z"]
  /\ useRruleDatesGenerator.getDatesWithCustomTimezone Sample.utcHost
       boundaryRule "UTC" "2024-01-01T09:00:00"
     = Ok ["2024-01-01T09:00:00.000Z"; "2024-01-02T09:00:00.000Z"].
Proof. split; vm_compute; reflexivity. Qed.

(** ** How many dates *)

(** A loop whose body pushes at most one date each time round returns at
    most as many dates as it goes round. *)
Lemma while_length copy o body :
  (forall cur step, body cur = Ok step -> (List.length (fst step) <= 1)%nat) ->
  forall fuel cur l,
    while copy o body fuel cur = Ok l -> (List.length l <= fuel)%nat.
Proof.
  intros Hb. induction fuel as [|fuel IH]; intros cur l H; simpl in H.
  - inversion H. simpl. lia.
  - destruct (untilReached copy o cur); [inversion H; simpl; lia|].
    destruct (body cur) as [step|] eqn:E; simpl in H; [|discriminate].
    destruct (while copy o body fuel (snd step)) as [rest|] eqn:E';
      simpl in H; [|discriminate].
    inversion H; subst. rewrite length_app.
    specialize (Hb _ _ E). specialize (IH _ _ E'). lia.
Qed.

(** A loop without [until] whose body pushes one date and never faults
    returns as many dates as it goes round. *)
Lemma while_exact copy o body :
  until o = None ->
  (forall cur, exists d next, body cur = Ok ([d], next)) ->
  forall fuel cur,
    exists l, while copy o body fuel cur = Ok l /\ List.length l = fuel.
Proof.
  intros Hu Hb. induction fuel as [|fuel IH]; intros cur; simpl.
  - exists []. auto.
  - unfold untilReached. rewrite Hu.
    destruct (Hb cur) as (d & next & ->). simpl.
    destruct (IH next) as (l & -> & Hl). simpl.
    exists (d :: l). simpl. auto.
Qed.

Lemma pushAndStep_length host targetTimeZone startTime u o cur step :
  pushAndStep host targetTimeZone startTime u o cur = Ok step ->
  (List.length (fst step) <= 1)%nat.
Proof.
  unfold pushAndStep.
  destruct (finalDateTime _ _ _ _) as [d|]; simpl; [|discriminate].
  destruct (Luxon.plus _ _ _) as [next|]; simpl; [|discriminate].
  intros H; inversion H. simpl. lia.
Qed.

Lemma weeklyByDayBody_length host targetTimeZone startTime ws cur step :
  weeklyByDayBody host targetTimeZone startTime ws cur = Ok step ->
  (List.length (fst step) <= 1)%nat.
Proof.
  unfold weeklyByDayBody.
  destruct (includesWeekday ws (Luxon.weekday cur)).
  - destruct (finalDateTime _ _ _ _) as [d|]; simpl; [|discriminate].
    destruct (Luxon.plus _ _ _) as [next|]; simpl; [|discriminate].
    intros H; inversion H. simpl. lia.
  - simpl. destruct (Luxon.plus _ _ _) as [next|]; simpl; [|discriminate].
    intros H; inversion H. simpl. lia.
Qed.

Lemma monthlyBody_length host targetTimeZone startTime o cur step :
  monthlyBody host targetTimeZone startTime o cur = Ok step ->
  (List.length (fst step) <= 1)%nat.
Proof.
  unfold monthlyBody.
  set (pushed := match byweekday o with Some _ => _ | None => _ end).
  assert (Hp : forall l, pushed = Ok l -> (List.length l <= 1)%nat).
  { unfold pushed. intros l.
    destruct (byweekday o) as [ws|]; [destruct (bysetpos o) as [ps|]|].
    - destruct (targetOccurrence _ _) as [d|].
      + destruct (finalDateTime _ _ _ _); simpl; [|discriminate].
        intros H; inversion H. simpl. lia.
      + intros H; inversion H. simpl. lia.
    - destruct (finalDateTime _ _ _ _); simpl; [|discriminate].
      intros H; inversion H. simpl. lia.
    - destruct (finalDateTime _ _ _ _); simpl; [|discriminate].
      intros H; inversion H. simpl. lia. }
  destruct pushed as [l|]; simpl; [|discriminate].
  destruct (Luxon.plus _ _ _) as [next|]; simpl; [|discriminate].
  intros H; inversion H. simpl. now apply Hp.
Qed.

Lemma dateTimesOf_length copy host targetTimeZone startTime o l :
  dateTimesOf copy host targetTimeZone startTime o = Ok l ->
  (List.length l <= Z.to_nat (maxCount o))%nat.
Proof.
  unfold dateTimesOf, dailyDateTimes, weeklyDateTimes, monthlyDateTimes,
    yearlyDateTimes.
  destruct (freq o); [| destruct (byweekday o) as [[|w ws]|] | |];
    apply while_length;
    eauto using pushAndStep_length, weeklyByDayBody_length, monthlyBody_length.
Qed.

Lemma getDatesWithCustomTimezone_Ok copy host targetTimeZone startTime s l :
  getDatesWithCustomTimezone copy host targetTimeZone startTime s = Ok l ->
  l = []
  \/ exists o dts,
       parseRRuleString copy host s startTime = Ok (Some o)
       /\ dateTimesOf copy host targetTimeZone startTime o = Ok dts
       /\ l = map Luxon.toString dts.
Proof.
  rewrite getDatesWithCustomTimezone_dateTimes.
  destruct s as [|c s]; [intros H; inversion H; auto|].
  destruct (parseRRuleString copy host (String c s) startTime) as [[o|]|];
    simpl; [| intros H; inversion H; auto | discriminate].
  unfold strings.
  destruct (dateTimesOf copy host targetTimeZone startTime o) as [dts|] eqn:Ed;
    simpl; [|discriminate].
  intros H; inversion H; subst. right. exists o, dts. auto.
Qed.

(** C10.  Whatever the frequency, [until], [byweekday] and [bysetpos], the
    sequence returned for a rule that parses has at most [count] elements
    when [count] is a positive integer, and at most 1000 when the rule has
    no [count]. *)
Theorem length_bounded_by_count
  (copy : Copy) (host : Host) (targetTimeZone startTime s : string)
  (o : Options) (l : list string) :
  parseRRuleString copy host s startTime = Ok (Some o) ->
  getDatesWithCustomTimezone copy host targetTimeZone startTime s = Ok l ->
  (forall n, count o = Some (Num n) -> 0 < n -> Z.of_nat (List.length l) <= n)
  /\ (count o = None -> Z.of_nat (List.length l) <= 1000).
Proof.
  intros Hp Hg.
  assert (Hb : (List.length l <= Z.to_nat (maxCount o))%nat).
  { destruct (getDatesWithCustomTimezone_Ok _ _ _ _ _ _ Hg)
      as [->|(o' & dts & Hp' & Hd & ->)]; [simpl; lia|].
    assert (o' = o) by congruence. subst o'.
    rewrite length_map. exact (dateTimesOf_length _ _ _ _ _ _ Hd). }
  unfold maxCount in Hb. split.
  - intros n Hc Hn. rewrite Hc in Hb. simpl in Hb.
    destruct (Z.eqb_spec n 0); lia.
  - intros Hc. rewrite Hc in Hb. lia.
Qed.

Lemma length_bounded_by_count_witness :
  parseRRuleString ClassCopy Sample.utcHost weeklyRule "2024-09-29T04:45:00"
  = Ok (Some weeklyOptions)
  /\ getDatesWithCustomTimezone ClassCopy Sample.utcHost "Europe/London"
       "2024-09-29T04:45:00" weeklyRule
     = Ok ["2024-09-30T04:45:00.000+01:00"]
  /\ (forall n, count weeklyOptions = Some (Num n) -> 0 < n ->
      Z.of_nat (List.length ["2024-09-30T04:45:00.000+01:00"]) <= n)
  /\ (count weeklyOptions = None ->
      Z.of_nat (List.length ["2024-09-30T04:45:00.000+01:00"]) <= 1000).
Proof.
  split; [reflexivity|]. split; [reflexivity|].
  apply (length_bounded_by_count ClassCopy Sample.utcHost "Europe/London"
           "2024-09-29T04:45:00" weeklyRule weeklyOptions
           ["2024-09-30T04:45:00.000+01:00"]); reflexivity.
Defined.

(** *** Exactly [count] dates *)

Lemma finalDateTime_Ok host targetTimeZone startTime hms cur :
  fromISO host startTime = Some hms ->
  exists d, finalDateTime host targetTimeZone startTime cur = Ok d.
Proof.
  intros H. unfold finalDateTime, Luxon.setTime. rewrite H.
  destruct (Luxon.setZone _ cur); [eauto|]. destruct hms as [[h m] s]. eauto.
Qed.

Lemma plus_Ok u n cur : exists next, Luxon.plus u (Num n) cur = Ok next.
Proof. unfold Luxon.plus. destruct cur; simpl; eauto. Qed.

Lemma pushAndStep_Ok host targetTimeZone startTime hms u o n cur :
  fromISO host startTime = Some hms -> interval o = Num n ->
  exists d next,
    pushAndStep host targetTimeZone startTime u o cur = Ok ([d], next).
Proof.
  intros Hh Hi. unfold pushAndStep. rewrite Hi.
  destruct (finalDateTime_Ok host targetTimeZone startTime hms cur Hh) as [d ->].
  destruct (plus_Ok u n cur) as [next ->]. simpl. eauto.
Qed.

Lemma dateTimesOf_exact copy host targetTimeZone startTime hms o n :
  fromISO host startTime = Some hms -> interval o = Num n ->
  until o = None -> selective o = false ->
  exists dts,
    dateTimesOf copy host targetTimeZone startTime o = Ok dts
    /\ List.length dts = Z.to_nat (maxCount o).
Proof.
  intros Hh Hi Hu Hs.
  unfold dateTimesOf, dailyDateTimes, weeklyDateTimes, monthlyDateTimes,
    yearlyDateTimes.
  unfold selective in Hs.
  destruct (freq o).
  - apply (while_exact _ _ _ Hu). intros cur.
    exact (pushAndStep_Ok _ _ _ _ _ _ _ cur Hh Hi).
  - destruct (byweekday o) as [[|w ws]|]; try discriminate Hs;
      apply (while_exact _ _ _ Hu); intros cur;
      exact (pushAndStep_Ok _ _ _ _ _ _ _ cur Hh Hi).
  - apply (while_exact _ _ _ Hu). intros cur. unfold monthlyBody. rewrite Hi.
    destruct (finalDateTime_Ok host targetTimeZone startTime hms cur Hh) as [d Hd].
    destruct (plus_Ok Luxon.Months n cur) as [next ->].
    destruct (byweekday o) as [ws|]; [destruct (bysetpos o) as [ps|]|];
      try discriminate Hs; rewrite Hd; simpl; eauto.
  - apply (while_exact _ _ _ Hu). intros cur.
    exact (pushAndStep_Ok _ _ _ _ _ _ _ cur Hh Hi).
Qed.

(** With a numeric interval and a valid start time no turn of a loop
    faults, in any mode. *)
Lemma while_total copy o body :
  until o = None ->
  (forall cur, exists step, body cur = Ok step) ->
  forall fuel cur, exists l, while copy o body fuel cur = Ok l.
Proof.
  intros Hu Hb. induction fuel as [|fuel IH]; intros cur; simpl.
  - exists []. reflexivity.
  - unfold untilReached. rewrite Hu.
    destruct (Hb cur) as (step & ->). simpl.
    destruct (IH (snd step)) as (l & ->). simpl. eauto.
Qed.

Lemma dateTimesOf_total copy host targetTimeZone startTime hms o n :
  fromISO host startTime = Some hms -> interval o = Num n ->
  until o = None ->
  exists dts, dateTimesOf copy host targetTimeZone startTime o = Ok dts.
Proof.
  intros Hh Hi Hu.
  assert (Hpush : forall u cur,
             exists step,
               pushAndStep host targetTimeZone startTime u o cur = Ok step).
  { intros u cur.
    destruct (pushAndStep_Ok host targetTimeZone startTime hms u o n cur Hh Hi)
      as (d & next & ->). eauto. }
  unfold dateTimesOf, dailyDateTimes, weeklyDateTimes, monthlyDateTimes,
    yearlyDateTimes.
  destruct (freq o); [| destruct (byweekday o) as [[|w ws]|] eqn:Ew | |];
    apply (while_total _ _ _ Hu); auto.
  - intros cur. unfold weeklyByDayBody.
    destruct (finalDateTime_Ok host targetTimeZone startTime hms cur Hh) as [d ->].
    destruct (plus_Ok Luxon.Days 1 cur) as [next ->].
    destruct (includesWeekday _ _); simpl; eauto.
  - intros cur. unfold monthlyBody. rewrite Hi.
    destruct (plus_Ok Luxon.Months n cur) as [next ->].
    destruct (byweekday o) as [ws|]; [destruct (bysetpos o) as [ps|]|].
    + destruct (targetOccurrence _ _) as [d|]; [|simpl; eauto].
      destruct (finalDateTime_Ok host targetTimeZone startTime hms d Hh) as [d' ->].
      simpl. eauto.
    + destruct (finalDateTime_Ok host targetTimeZone startTime hms cur Hh) as [d ->].
      simpl. eauto.
    + destruct (finalDateTime_Ok host targetTimeZone startTime hms cur Hh) as [d ->].
      simpl. eauto.
Qed.




(** ** The pinned time of day *)

Import Time TimeFacts.

Lemma DayWithinYear_bounds t :
  0 <= DayWithinYear t < DaysInYear (YearFromTime t).
Proof.
  unfold DayWithinYear, YearFromTime.
  pose proof (YearFromDay_spec (Day t)) as H.
  rewrite DayFromYear_succ in H. lia.
Qed.

Lemma MonthFromDayWithinYear_bounds dw l :
  0 <= MonthFromDayWithinYear dw l <= 11.
Proof.
  unfold MonthFromDayWithinYear.
  repeat match goal with
         | |- context [if ?b then _ else _] => destruct b
         end; lia.
Qed.

Lemma msFromTime_bounds t : 0 <= msFromTime t <= 999.
Proof. unfold msFromTime. Z.div_mod_to_equations. lia. Qed.

(** The civil fields of any time value are within small bounds. *)
Lemma tsToObj_bounds t :
  let c := Luxon.tsToObj t in
  1 <= Luxon.month c <= 12 /\ -400 <= Luxon.day c <= 400
  /\ 0 <= Luxon.millisecond c <= 999.
Proof.
  cbn [Luxon.tsToObj Luxon.month Luxon.day Luxon.millisecond].
  pose proof (MonthFromDayWithinYear_bounds (DayWithinYear t)
                (leapDay (YearFromTime t))) as Hm.
  pose proof (DayWithinYear_bounds t) as Hd.
  pose proof (cumDays_bounds (MonthFromTime t) (leapDay (YearFromTime t))
                ltac:(destruct (leapDay_cases (YearFromTime t)); lia)) as Hc.
  pose proof (msFromTime_bounds t).
  unfold DateFromTime, DaysInYear in *. unfold MonthFromTime in *.
  destruct (leapDay_cases (YearFromTime t)); lia.
Qed.

(** In a zone with a fixed offset, [set] with a proper time of day gives
    that time of day. *)
Lemma set_withTime_fixed t z k h m s :
  (forall x, Luxon.offset z x = k) ->
  0 <= h <= 23 -> 0 <= m <= 59 -> 0 <= s <= 59 ->
  let d := Luxon.set (Luxon.withTime h m s) false (Luxon.At t z) in
  d = Luxon.Invalid \/ hmsOf d = Some (h, m, s).
Proof.
  intros Hz Hh Hm Hs. cbn [Luxon.set].
  set (c := Luxon.withTime h m s (Luxon.civilOf t z)).
  set (c' := {| Luxon.year := Luxon.year c; Luxon.month := Luxon.month c;
                Luxon.day := Z.min (Luxon.daysInMonth (Luxon.year c) (Luxon.month c))
                               (Luxon.day c);
                Luxon.hour := Luxon.hour c; Luxon.minute := Luxon.minute c;
                Luxon.second := Luxon.second c;
                Luxon.millisecond := Luxon.millisecond c |}).
  destruct (tsToObj_bounds (t + Luxon.offset z t * 60000)) as (Bm & Bd & Bms).
  fold (Luxon.civilOf t z) in Bm, Bd, Bms.
  pose proof (LuxonFacts.daysInMonth_bounds (Luxon.year c) (Luxon.month c)) as Bdim.
  assert (Hp : properTime c' = true).
  { unfold properTime, Luxon.integerBetween.
    cbn [c' c Luxon.withTime Luxon.hour Luxon.minute Luxon.second
         Luxon.millisecond].
    lia. }
  unfold Luxon.offsetOf. rewrite Hz.
  rewrite (LuxonFacts.objToTS_fixed c' k z Hz).
  rewrite (LuxonFacts.objToLocalTS_proper c' Hp).
  2:{ intros _. cbn [c' c Luxon.withTime Luxon.year Luxon.month Luxon.day].
      match goal with
      | |- context [Luxon.daysInMonth ?a ?b] =>
          pose proof (LuxonFacts.daysInMonth_bounds a b)
      end. lia. }
  destruct (TimeClip (utcMillis c')) as [l|] eqn:El;
    [|left; reflexivity].
  apply TimeClip_inv in El as [-> Hl].
  rewrite (LuxonFacts.mkDateTime_fixed _ k z Hz).
  replace (utcMillis c' - k * 60000 + k * 60000)
    with (utcMillis c') by lia.
  rewrite (TimeClip_Some _ Hl). right.
  cbn [hmsOf]. unfold Luxon.civilOf. rewrite Hz.
  replace (utcMillis c' - k * 60000 + k * 60000)
    with (utcMillis c') by lia.
  unfold utcMillis.
  cbn [c' c Luxon.withTime Luxon.hour Luxon.minute Luxon.second
       Luxon.millisecond Luxon.tsToObj].
  destruct (clock_MakeDate
              (MakeDay (Luxon.year c') (Luxon.month c' - 1) (Luxon.day c'))
              h m s (Luxon.millisecond (Luxon.civilOf t z)) Hh Hm Hs Bms)
    as (-> & -> & -> & _).
  reflexivity.
Qed.

Section Pinned.

Variables (copy : Copy) (host : Host) (targetTimeZone startTime : string).
Variables (z : Luxon.Zone) (k h m s : Z).
Hypothesis zone_resolves : normalizeZone host targetTimeZone = Some z.
Hypothesis zone_fixed : forall x, Luxon.offset z x = k.
Hypothesis time_valid : fromISO host startTime = Some (h, m, s).
Hypothesis hour_range : 0 <= h <= 23.
Hypothesis minute_range : 0 <= m <= 59.
Hypothesis second_range : 0 <= s <= 59.

Let pinned (d : Luxon.DateTime) : Prop :=
  d = Luxon.Invalid \/ hmsOf d = Some (h, m, s).

Lemma finalDateTime_pinned cur d :
  finalDateTime host targetTimeZone startTime cur = Ok d -> pinned d.
Proof.
  unfold finalDateTime. rewrite zone_resolves, time_valid.
  destruct cur as [|t z0]; simpl.
  - intros H; inversion H. now left.
  - unfold Luxon.mkDateTime.
    destruct (TimeClip _); simpl; intros H; inversion H; [|now left].
    exact (set_withTime_fixed t z k h m s zone_fixed hour_range minute_range
             second_range).
Qed.

Lemma while_Forall o body :
  (forall cur step, body cur = Ok step -> Forall pinned (fst step)) ->
  forall fuel cur l, while copy o body fuel cur = Ok l -> Forall pinned l.
Proof.
  intros Hb. induction fuel as [|fuel IH]; intros cur l H; simpl in H.
  - inversion H. constructor.
  - destruct (untilReached copy o cur); [inversion H; constructor|].
    destruct (body cur) as [step|] eqn:E; simpl in H; [|discriminate].
    destruct (while copy o body fuel (snd step)) as [rest|] eqn:E';
      simpl in H; [|discriminate].
    inversion H; subst. apply Forall_app. split; eauto.
Qed.

Lemma pushAndStep_pinned u o cur step :
  pushAndStep host targetTimeZone startTime u o cur = Ok step ->
  Forall pinned (fst step).
Proof.
  unfold pushAndStep.
  destruct (finalDateTime _ _ _ _) as [d|] eqn:E; simpl; [|discriminate].
  destruct (Luxon.plus _ _ _) as [next|]; simpl; [|discriminate].
  intros H; inversion H. simpl. constructor; [|constructor].
  exact (finalDateTime_pinned _ _ E).
Qed.

Lemma weeklyByDayBody_pinned ws cur step :
  weeklyByDayBody host targetTimeZone startTime ws cur = Ok step ->
  Forall pinned (fst step).
Proof.
  unfold weeklyByDayBody.
  destruct (includesWeekday ws (Luxon.weekday cur)).
  - destruct (finalDateTime _ _ _ _) as [d|] eqn:E; simpl; [|discriminate].
    destruct (Luxon.plus _ _ _) as [next|]; simpl; [|discriminate].
    intros H; inversion H. simpl. constructor; [|constructor].
    exact (finalDateTime_pinned _ _ E).
  - simpl. destruct (Luxon.plus _ _ _) as [next|]; simpl; [|discriminate].
    intros H; inversion H. constructor.
Qed.

Lemma monthlyBody_pinned o cur step :
  monthlyBody host targetTimeZone startTime o cur = Ok step ->
  Forall pinned (fst step).
Proof.
  unfold monthlyBody.
  set (pushed := match byweekday o with Some _ => _ | None => _ end).
  assert (Hp : forall l, pushed = Ok l -> Forall pinned l).
  { unfold pushed. intros l.
    destruct (byweekday o) as [ws|]; [destruct (bysetpos o) as [ps|]|].
    - destruct (targetOccurrence _ _) as [d|].
      + destruct (finalDateTime _ _ _ _) eqn:E; simpl; [|discriminate].
        intros H; inversion H. constructor; [|constructor].
        exact (finalDateTime_pinned _ _ E).
      + intros H; inversion H. constructor.
    - destruct (finalDateTime _ _ _ _) eqn:E; simpl; [|discriminate].
      intros H; inversion H. constructor; [|constructor].
      exact (finalDateTime_pinned _ _ E).
    - destruct (finalDateTime _ _ _ _) eqn:E; simpl; [|discriminate].
      intros H; inversion H. constructor; [|constructor].
      exact (finalDateTime_pinned _ _ E). }
  destruct pushed as [l|]; simpl; [|discriminate].
  destruct (Luxon.plus _ _ _) as [next|]; simpl; [|discriminate].
  intros H; inversion H. simpl. now apply Hp.
Qed.

Lemma dateTimesOf_pinned o dts :
  dateTimesOf copy host targetTimeZone startTime o = Ok dts ->
  Forall pinned dts.
Proof.
  unfold dateTimesOf, dailyDateTimes, weeklyDateTimes, monthlyDateTimes,
    yearlyDateTimes.
  destruct (freq o); [| destruct (byweekday o) as [[|w ws]|] | |];
    apply while_Forall;
    eauto using pushAndStep_pinned, weeklyByDayBody_pinned, monthlyBody_pinned.
Qed.

End Pinned.




(** ** The until instant *)

Import LuxonFacts.

(** What the two copies compute from an UNTIL literal. *)
Lemma untilDate_literal copy host v :
  DateTimeLiteral v ->
  let c := untilCivil v in
  untilDate copy host v
  = match copy with
    | ClassCopy =>
        Ok (newDate host (Num (Luxon.year c)) (Num (Luxon.month c - 1))
              (Num (Luxon.day c)) (Luxon.hour c) (Luxon.minute c)
              (Luxon.second c))
    | HookCopy =>
        dt <- Luxon.fromObjectUTC (Num (Luxon.year c)) (Num (Luxon.month c))
                (Num (Luxon.day c)) (Num (Luxon.hour c))
                (Num (Luxon.minute c)) (Num (Luxon.second c)) ;;
        Ok (Luxon.toJSDate dt)
    end.
Proof.
  intros (a & b & -> & La & Lb & Da & Db).
  destruct a as [|a1 [|a2 [|a3 [|a4 [|a5 [|a6 [|a7 [|a8 [|]]]]]]]]];
    try discriminate La.
  destruct b as [|b1 [|b2 [|b3 [|b4 [|b5 [|b6 [|]]]]]]]; try discriminate Lb.
  cbn [allb] in Da, Db.
  repeat match goal with
         | H : _ && _ = true |- _ => apply andb_prop in H as [? H]
         end.
  unfold untilDate, untilCivil.
  cbn [substring take drop Nat.sub append Luxon.year Luxon.month Luxon.day
       Luxon.hour Luxon.minute Luxon.second].
  rewrite !parseInt_decimal
    by (try discriminate; cbn [allb];
        repeat match goal with H : isDigit _ = true |- _ => rewrite H end;
        reflexivity).
  reflexivity.
Qed.

(** The hook reads the fields as UTC. *)
Lemma untilDate_hook host v :
  DateTimeLiteral v ->
  properDate (untilCivil v) && properTime (untilCivil v) = true ->
  0 <= Luxon.year (untilCivil v) <= 9999 ->
  untilDate HookCopy host v = Ok (DateAt (utcMillis (untilCivil v))).
Proof.
  intros Hv Hp Hy. apply andb_prop in Hp as [Hpd Hpt].
  rewrite (untilDate_literal HookCopy host v Hv). cbv zeta.
  destruct (fromObjectUTC_proper (untilCivil v) Hpd Hpt Hy eq_refl) as [-> Hb].
  cbn [bind Luxon.toJSDate]. now rewrite (TimeFacts.TimeClip_Some _ Hb).
Qed.

(** The class reads them in the zone of the host: the instant is the UTC
    reading moved by the offset of the host. *)
Lemma untilDate_class host v :
  DateTimeLiteral v -> 100 <= Luxon.year (untilCivil v) ->
  untilDate ClassCopy host v
  = Ok (dateOf (Time.TimeClip
                  (utcMillis (untilCivil v) - hostOffset host * 60000))).
Proof.
  intros Hv Hy. rewrite (untilDate_literal ClassCopy host v Hv). cbv zeta.
  unfold newDate, utcMillis.
  destruct (Z.leb_spec (Luxon.year (untilCivil v)) 99); [lia|].
  now rewrite andb_false_r.
Qed.

(** C2 on a host that is not on UTC.  The UTC reading of the UNTIL literal
    [20240103T000000], with the defaults, is 2024-01-03T23:59:59Z.  The
    hook builds that instant on every host.  The class, on a host one hour
    east of UTC, builds the instant one hour before it; and on a host five
    hours west of UTC its boundary lies after 2024-01-04T00:00:00Z, so that
    it returns a fourth date. *)
Theorem until_read_in_host_zone_by_class :
  utcMillis (untilCivil "20240103T000000") = 1704326399000
  /\ untilOf (useRruleDatesGenerator.parseRRuleString (Sample.hostAt 60)
                untilRule "") = Some (DateAt 1704326399000)
  /\ untilOf (TimezoneRRule.parseRRuleString (Sample.hostAt 60)
                untilRule "") = Some (DateAt 1704322799000)
  /\ useRruleDatesGenerator.getDatesWithCustomTimezone (Sample.hostAt (-300))
       untilRule "UTC" "2024-01-01T09:00:00"
     = Ok ["2024-01-01T09:00:00.000Z"; "2024-01-02T09:00:00.000Z";
           "2024-01-03T09:00:00.000Z"]
  /\ TimezoneRRule.getDatesWithCustomTimezone (Sample.hostAt (-300))
       untilRule "UTC" "2024-01-01T09:00:00"
     = Ok ["2024-01-01T09:00:00.000Z"; "2024-01-02T09:00:00.000Z";
           "2024-01-03T09:00:00.000Z"; "2024-01-04T09:00:00.000Z"].
Proof. repeat split; vm_compute; reflexivity. Qed.

(** ** The calendar *)

Module CalendarFacts.
Import Time TimeFacts Luxon LuxonFacts.

Lemma monthLength_bounds mn l : 0 <= l <= 1 -> 28 <= monthLength mn l <= 31.
Proof.
  intros H. unfold monthLength.
  repeat match goal with
         | |- context [if ?b then _ else _] => destruct b
         end; lia.
Qed.

Ltac split_ifs :=
  repeat (match goal with
          | |- context [if ?a <? ?b then _ else _] => destruct (Z.ltb_spec a b)
          | |- context [if ?a <=? ?b then _ else _] => destruct (Z.leb_spec a b)
          | |- context [if ?a =? ?b then _ else _] => destruct (Z.eqb_spec a b)
          | |- context [?a =? ?b] => destruct (Z.eqb_spec a b)
          end; cbn [orb andb negb]; try lia).

Ltac eval_tables :=
  cbv [cumDays monthLength Z.leb Z.eqb Z.compare Pos.compare
       Pos.compare_cont Pos.eqb orb] in *.

Lemma cumDays_succ mn l :
  0 <= mn <= 10 -> cumDays (mn + 1) l = cumDays mn l + monthLength mn l.
Proof.
  intros H.
  assert (C : mn = 0 \/ mn = 1 \/ mn = 2 \/ mn = 3 \/ mn = 4 \/ mn = 5
              \/ mn = 6 \/ mn = 7 \/ mn = 8 \/ mn = 9 \/ mn = 10) by lia.
  destruct C as [->|[->|[->|[->|[->|[->|[->|[->|[->|[->| ->]]]]]]]]]];
    clear H;
    match goal with
    | |- cumDays (?a + 1) _ = _ =>
        let v := eval vm_compute in (a + 1) in change (a + 1) with v
    end; eval_tables; lia.
Qed.

Lemma cumDays_last l : cumDays 11 l + monthLength 11 l = 365 + l.
Proof. eval_tables. lia. Qed.

Lemma daysInMonth_table y m :
  daysInMonth y m = monthLength ((m - 1) mod 12) (leapDay (y + (m - 1) / 12)).
Proof.
  unfold daysInMonth, monthLength, leapDay.
  replace ((m - ((m - 1) mod 12 + 1)) / 12) with ((m - 1) / 12)
    by (Z.div_mod_to_equations; lia).
  destruct (isLeapYear (y + (m - 1) / 12)); split_ifs.
Qed.

(** Month and date of a day within its year, and back. *)
Lemma MonthFromDayWithinYear_cum mn l d :
  0 <= mn <= 11 -> 0 <= l <= 1 -> 1 <= d <= monthLength mn l ->
  MonthFromDayWithinYear (cumDays mn l + d - 1) l = mn.
Proof.
  intros Hm Hl Hd.
  assert (C : mn = 0 \/ mn = 1 \/ mn = 2 \/ mn = 3 \/ mn = 4 \/ mn = 5
              \/ mn = 6 \/ mn = 7 \/ mn = 8 \/ mn = 9 \/ mn = 10 \/ mn = 11)
    by lia.
  assert (L : l = 0 \/ l = 1) by lia.
  unfold MonthFromDayWithinYear.
  destruct C as [->|[->|[->|[->|[->|[->|[->|[->|[->|[->|[->| ->]]]]]]]]]]];
    destruct L as [-> | ->]; clear Hm Hl; eval_tables; split_ifs.
Qed.

Lemma DateFromDayWithinYear_range dw l :
  0 <= l <= 1 -> 0 <= dw < 365 + l ->
  1 <= dw - cumDays (MonthFromDayWithinYear dw l) l + 1
    <= monthLength (MonthFromDayWithinYear dw l) l.
Proof.
  intros Hl Hd. assert (L : l = 0 \/ l = 1) by lia.
  unfold MonthFromDayWithinYear.
  destruct L as [-> | ->]; clear Hl;
    repeat match goal with
           | |- context [if ?a <? ?b then _ else _] =>
               destruct (Z.ltb_spec a b)
           end; eval_tables; lia.
Qed.

(** Civil date to day number and back. *)
Lemma MakeDay_normal y m d :
  MakeDay y m d
  = DayFromYear (y + m / 12) + cumDays (m mod 12) (leapDay (y + m / 12)) + d - 1.
Proof. reflexivity. Qed.

Lemma YearFromDay_MakeDay y m d :
  1 <= d <= monthLength (m mod 12) (leapDay (y + m / 12)) ->
  YearFromDay (MakeDay y m d) = y + m / 12.
Proof.
  intros Hd. apply YearFromDay_unique. rewrite MakeDay_normal, DayFromYear_succ.
  unfold DaysInYear.
  set (ym := y + m / 12) in *. set (mn := m mod 12) in *.
  assert (Hm : 0 <= mn <= 11) by (unfold mn; Z.div_mod_to_equations; lia).
  assert (Hl : 0 <= leapDay ym <= 1) by (destruct (leapDay_cases ym); lia).
  pose proof (cumDays_bounds mn _ Hl).
  assert (cumDays mn (leapDay ym) + monthLength mn (leapDay ym) <= 365 + leapDay ym).
  { destruct (Z.eq_dec mn 11) as [->|].
    - rewrite cumDays_last. lia.
    - rewrite <- cumDays_succ by lia.
      pose proof (cumDays_bounds (mn + 1) _ Hl). lia. }
  lia.
Qed.

Lemma tsToObj_MakeDate y m d h mi s ms :
  1 <= d <= monthLength (m mod 12) (leapDay (y + m / 12)) ->
  0 <= h <= 23 -> 0 <= mi <= 59 -> 0 <= s <= 59 -> 0 <= ms <= 999 ->
  tsToObj (MakeDate (MakeDay y m d) (MakeTime h mi s ms))
  = {| year := y + m / 12; month := m mod 12 + 1; day := d;
       hour := h; minute := mi; second := s; millisecond := ms |}.
Proof.
  intros Hd Hh Hmi Hs Hms.
  pose proof (MakeTime_bounds _ _ _ _ Hh Hmi Hs Hms) as Hb.
  destruct (clock_MakeDate (MakeDay y m d) h mi s ms Hh Hmi Hs Hms)
    as (E1 & E2 & E3 & E4).
  unfold tsToObj. rewrite E1, E2, E3, E4.
  assert (Hy : YearFromTime (MakeDate (MakeDay y m d) (MakeTime h mi s ms))
               = y + m / 12).
  { unfold YearFromTime. rewrite Day_MakeDate by exact Hb.
    now apply YearFromDay_MakeDay. }
  assert (Hw : DayWithinYear (MakeDate (MakeDay y m d) (MakeTime h mi s ms))
               = cumDays (m mod 12) (leapDay (y + m / 12)) + d - 1).
  { unfold DayWithinYear. rewrite Hy, Day_MakeDate by exact Hb.
    rewrite MakeDay_normal. lia. }
  assert (Hmn : MonthFromTime (MakeDate (MakeDay y m d) (MakeTime h mi s ms))
                = m mod 12).
  { unfold MonthFromTime. rewrite Hy, Hw.
    apply MonthFromDayWithinYear_cum;
      [Z.div_mod_to_equations; lia
      | destruct (leapDay_cases (y + m / 12)); lia | exact Hd]. }
  unfold DateFromTime. rewrite Hy, Hmn, Hw. f_equal. lia.
Qed.

(** Time value to civil fields and back: the fields are a proper date and
    time of day, and their reading is the time value. *)
Lemma tsToObj_proper t :
  properDate (tsToObj t) = true /\ properTime (tsToObj t) = true
  /\ utcMillis (tsToObj t) = t.
Proof.
  set (y := YearFromTime t).
  assert (Hl : 0 <= leapDay y <= 1) by (destruct (leapDay_cases y); lia).
  pose proof (DayWithinYear_bounds t) as Hw. fold y in Hw.
  unfold DaysInYear in Hw.
  pose proof (DateFromDayWithinYear_range _ _ Hl Hw) as Hd.
  pose proof (MonthFromDayWithinYear_bounds (DayWithinYear t) (leapDay y)) as Hm.
  assert (Hdim : daysInMonth y (MonthFromTime t + 1)
                 = monthLength (MonthFromTime t) (leapDay y)).
  { rewrite daysInMonth_table. unfold MonthFromTime. fold y.
    replace (MonthFromDayWithinYear (DayWithinYear t) (leapDay y) + 1 - 1)
      with (MonthFromDayWithinYear (DayWithinYear t) (leapDay y)) by lia.
    rewrite Z.mod_small, Z.div_small, Z.add_0_r by lia. reflexivity. }
  split; [|split].
  - unfold properDate, integerBetween.
    cbn [tsToObj year month day]. fold y. rewrite Hdim.
    unfold DateFromTime, MonthFromTime in *. fold y. lia.
  - unfold properTime, integerBetween.
    cbn [tsToObj hour minute second millisecond].
    unfold HourFromTime, MinFromTime, SecFromTime, msFromTime.
    repeat (apply andb_true_intro; split); apply Z.leb_le;
      Z.div_mod_to_equations; lia.
  - unfold utcMillis. cbn [tsToObj year month day hour minute second millisecond].
    fold y.
    replace (MonthFromTime t + 1 - 1) with (MonthFromTime t) by lia.
    assert (Hday : MakeDay y (MonthFromTime t) (DateFromTime t) = Day t).
    { rewrite MakeDay_normal. unfold MonthFromTime, DateFromTime. fold y.
      rewrite Z.mod_small, Z.div_small, Z.add_0_r by lia.
      unfold MonthFromTime. fold y. unfold DayWithinYear. fold y. lia. }
    rewrite Hday.
    unfold MakeDate, MakeTime, HourFromTime, MinFromTime, SecFromTime,
      msFromTime, Day, msPerDay.
    Z.div_mod_to_equations. lia.
Qed.

(** The first day of the next month. *)
Lemma MakeDay_next_month y m :
  MakeDay y (m + 1) 1
  = MakeDay y m 1 + monthLength (m mod 12) (leapDay (y + m / 12)).
Proof.
  rewrite !MakeDay_normal.
  destruct (Z.eq_dec (m mod 12) 11) as [E|E].
  - replace ((m + 1) / 12) with (m / 12 + 1) by (Z.div_mod_to_equations; lia).
    replace ((m + 1) mod 12) with 0 by (Z.div_mod_to_equations; lia).
    rewrite Z.add_assoc, DayFromYear_succ, E. unfold DaysInYear.
    pose proof (cumDays_last (leapDay (y + m / 12))).
    change (cumDays 0 (leapDay (y + m / 12 + 1))) with 0. lia.
  - replace ((m + 1) / 12) with (m / 12) by (Z.div_mod_to_equations; lia).
    replace ((m + 1) mod 12) with (m mod 12 + 1)
      by (Z.div_mod_to_equations; lia).
    rewrite cumDays_succ by (Z.div_mod_to_equations; lia). lia.
Qed.

End CalendarFacts.

(** ** Calendar arithmetic in a zone with a fixed offset *)

Section FixedZone.
Import Time TimeFacts Luxon LuxonFacts CalendarFacts.

Variables (z : Zone) (k : Z).
Hypothesis zone_fixed : forall x, offset z x = k.

Lemma civilOf_fixed t : civilOf t z = tsToObj (localOf k t).
Proof. unfold civilOf, localOf. now rewrite zone_fixed. Qed.

Lemma mkDateTime_At t :
  Z.abs (localOf k t) <= 8640000000000000 -> mkDateTime (Some t) z = At t z.
Proof.
  intros H. rewrite (mkDateTime_fixed _ k z zone_fixed).
  fold (localOf k t). now rewrite (TimeClip_Some _ H).
Qed.

(** The reading of civil fields that [set] and [plus] go through. *)
Lemma objToTS_proper c t :
  properTime c = true ->
  Z.abs (month c) <= 1000000 -> Z.abs (day c) <= 10000000 ->
  Z.abs (utcMillis c) <= 8640000000000000 ->
  objToTS c (offsetOf t z) z = Some (utcMillis c - k * 60000).
Proof.
  intros Hp Hm Hd Hr. unfold offsetOf. rewrite zone_fixed.
  rewrite (objToTS_fixed c k z zone_fixed).
  rewrite (objToLocalTS_proper c Hp) by auto.
  now rewrite (TimeClip_Some _ Hr).
Qed.

Lemma utcMillis_day y m d d' h mi s ms :
  utcMillis {| year := y; month := m; day := d + d'; hour := h; minute := mi;
               second := s; millisecond := ms |}
  = utcMillis {| year := y; month := m; day := d; hour := h; minute := mi;
                 second := s; millisecond := ms |} + d' * msPerDay.
Proof.
  unfold utcMillis, MakeDate, MakeDay. cbn [year month day hour minute second
    millisecond]. lia.
Qed.

Lemma civil_eta c :
  {| year := year c; month := month c; day := day c; hour := hour c;
     minute := minute c; second := second c; millisecond := millisecond c |}
  = c.
Proof. now destruct c. Qed.

Lemma properDate_spec c :
  properDate c = true ->
  1 <= month c <= 12 /\ 1 <= day c <= daysInMonth (year c) (month c).
Proof. unfold properDate, integerBetween. lia. Qed.

(** Adding days and milliseconds moves the instant by that much. *)
Lemma adjustTime_days n ms t :
  Z.abs n <= 1000 ->
  Z.abs (localOf k t + n * msPerDay) <= 8640000000000000 ->
  adjustTime 0 0 n ms (At t z) = mkDateTime (Some (t + n * msPerDay + ms)) z.
Proof.
  intros Hn Hr. cbn [adjustTime]. rewrite civilOf_fixed.
  destruct (tsToObj_proper (localOf k t)) as (Hd & Ht & Hu).
  set (c := tsToObj (localOf k t)) in *.
  destruct (properDate_spec c Hd) as [Hmo Hday].
  rewrite !Z.add_0_r, (Z.min_l _ _ (proj2 Hday)).
  set (c' := {| year := year c; month := month c; day := day c + n;
                hour := hour c; minute := minute c; second := second c;
                millisecond := millisecond c |}).
  assert (Hu' : utcMillis c' = localOf k t + n * msPerDay).
  { unfold c'. rewrite utcMillis_day, civil_eta. lia. }
  pose proof (daysInMonth_bounds (year c) (month c)).
  rewrite (objToTS_proper c' t).
  - rewrite Hu'. unfold localOf. f_equal. f_equal. lia.
  - exact Ht.
  - cbn [c' month]. lia.
  - cbn [c' day]. lia.
  - now rewrite Hu'.
Qed.

Lemma plusDays1_fixed t :
  Z.abs (localOf k t + msPerDay) <= 8640000000000000 ->
  plusDays1 (At t z) = mkDateTime (Some (t + msPerDay)) z.
Proof.
  intros H. unfold plusDays1. rewrite (adjustTime_days 1 0 t); [|lia|].
  - f_equal. f_equal. lia.
  - now rewrite Z.mul_1_l.
Qed.

Lemma month_span t :
  nextMonthStartOf k t
  = monthStartOf k t
    + daysInMonth (year (tsToObj (localOf k t))) (month (tsToObj (localOf k t)))
      * msPerDay
  /\ monthStartOf k t <= localOf k t < nextMonthStartOf k t.
Proof.
  unfold nextMonthStartOf, monthStartOf. cbv zeta.
  destruct (tsToObj_proper (localOf k t)) as (Hd & Ht & Hu).
  remember (tsToObj (localOf k t)) as c eqn:Ec.
  destruct (properDate_spec c Hd) as [Hmo Hday].
  apply properTime_spec in Ht as (Hh & Hm & Hs & Hms).
  pose proof (MakeTime_bounds _ _ _ _ Hh Hm Hs Hms) as Hb.
  assert (E : MakeDay (year c) (month c) 1
              = MakeDay (year c) (month c - 1) 1
                + daysInMonth (year c) (month c)).
  { rewrite daysInMonth_table.
    replace (month c) with (month c - 1 + 1) at 1 by lia.
    apply MakeDay_next_month. }
  rewrite E. split; [unfold MakeDate; lia|].
  rewrite <- Hu. unfold utcMillis, MakeDate, MakeDay, msPerDay in *.
  clear - Hday Hb. lia.
Qed.

Lemma utcMillis_monthStart c t :
  c = tsToObj (localOf k t) -> utcMillis (withMonthStart c) = monthStartOf k t.
Proof.
  intros ->. unfold utcMillis, monthStartOf, withMonthStart.
  cbn [year month day hour minute second millisecond]. reflexivity.
Qed.

Lemma startOfMonth_fixed t :
  Z.abs (localOf k t) <= 8639000000000000 ->
  startOfMonth (At t z) = At (monthStartOf k t - k * 60000) z.
Proof.
  intros Hr. unfold startOfMonth. cbn [set]. rewrite civilOf_fixed.
  destruct (month_span t) as [Hspan Hin].
  destruct (tsToObj_proper (localOf k t)) as (Hd & Ht & Hu).
  remember (tsToObj (localOf k t)) as c eqn:Ec.
  destruct (properDate_spec c Hd) as [Hmo Hday].
  pose proof (daysInMonth_bounds (year c) (month c)) as Hdim.
  assert (Hs : Z.abs (monthStartOf k t) <= 8640000000000000)
    by (unfold msPerDay in *; clear - Hr Hspan Hin Hdim; lia).
  rewrite (objToTS_proper (withMonthStart c) t).
  - rewrite (utcMillis_monthStart c t Ec).
    apply mkDateTime_At. unfold localOf.
    replace (monthStartOf k t - k * 60000 + k * 60000) with (monthStartOf k t) by lia.
    exact Hs.
  - reflexivity.
  - cbn [withMonthStart month]. lia.
  - cbn [withMonthStart day]. lia.
  - now rewrite (utcMillis_monthStart c t Ec).
Qed.

Lemma endOfMonth_fixed t :
  Z.abs (localOf k t) <= 8630000000000000 ->
  endOfMonth (At t z) = At (nextMonthStartOf k t - k * 60000 - 1) z.
Proof.
  intros Hr. unfold endOfMonth.
  destruct (month_span t) as [Hspan Hin].
  assert (Hnext : nextMonthStartOf k t
                  = MakeDate (MakeDay (year (tsToObj (localOf k t)))
                                (month (tsToObj (localOf k t))) 1) 0)
    by reflexivity.
  destruct (tsToObj_proper (localOf k t)) as (Hd & Ht & Hu).
  pose proof Ht as Ht'.
  apply properTime_spec in Ht' as (Hh & Hm & Hs & Hms).
  pose proof (MakeTime_bounds _ _ _ _ Hh Hm Hs Hms) as Hb.
  remember (tsToObj (localOf k t)) as c eqn:Ec.
  destruct (properDate_spec c Hd) as [Hmo Hday].
  pose proof (daysInMonth_bounds (year c) (month c)) as Hdim.
  pose proof (daysInMonth_bounds (year c) (month c + 1)) as Hdim'.
  (* one month later *)
  remember (Z.min (day c) (daysInMonth (year c) (month c + 1))) as d' eqn:Ed'.
  remember {| year := year c; month := month c + 1; day := d';
              hour := hour c; minute := minute c; second := second c;
              millisecond := millisecond c |} as c1 eqn:Ec1.
  assert (Hd' : 1 <= d' <= monthLength (month c mod 12)
                             (leapDay (year c + month c / 12))).
  { rewrite daysInMonth_table in Hdim', Ed'.
    replace (month c + 1 - 1) with (month c) in * by lia. lia. }
  pose proof (monthLength_bounds (month c mod 12)
                (leapDay (year c + month c / 12))
                ltac:(destruct (leapDay_cases (year c + month c / 12)); lia))
    as Hlen.
  assert (Hu1 : utcMillis c1
                = nextMonthStartOf k t + (d' - 1) * msPerDay
                  + MakeTime (hour c) (minute c) (second c) (millisecond c)).
  { rewrite Hnext, Ec1. unfold utcMillis.
    cbn [year month day hour minute second millisecond].
    replace (month c + 1 - 1) with (month c) by lia.
    unfold MakeDate, MakeDay. lia. }
  assert (Hr1 : Z.abs (utcMillis c1) <= 8638000000000000).
  { rewrite Hu1. unfold msPerDay in *. clear - Hr Hspan Hin Hdim Hd' Hlen Hb. lia. }
  assert (Hp1 : properTime c1 = true) by (rewrite Ec1; exact Ht).
  assert (E1 : adjustTime 0 1 0 0 (At t z) = At (utcMillis c1 - k * 60000) z).
  { cbn [adjustTime]. rewrite civilOf_fixed, <- Ec, !Z.add_0_r, <- Ed', <- Ec1.
    rewrite (objToTS_proper c1 t Hp1);
      [| rewrite Ec1; cbn [month]; lia | rewrite Ec1; cbn [day]; lia | lia].
    rewrite Z.add_0_r. apply mkDateTime_At. unfold localOf.
    replace (utcMillis c1 - k * 60000 + k * 60000) with (utcMillis c1) by lia.
    lia. }
  rewrite E1.
  (* the start of that month *)
  assert (Hc1 : tsToObj (utcMillis c1)
                = {| year := year c + month c / 12;
                     month := month c mod 12 + 1; day := d';
                     hour := hour c; minute := minute c; second := second c;
                     millisecond := millisecond c |}).
  { rewrite Ec1. unfold utcMillis.
    cbn [year month day hour minute second millisecond].
    replace (month c + 1 - 1) with (month c) by lia.
    now apply tsToObj_MakeDate. }
  assert (Hl1 : localOf k (utcMillis c1 - k * 60000) = utcMillis c1)
    by (unfold localOf; lia).
  assert (Hn : monthStartOf k (utcMillis c1 - k * 60000) = nextMonthStartOf k t).
  { unfold monthStartOf. rewrite Hl1, Hc1, Hnext.
    cbn [year month]. f_equal. rewrite !MakeDay_normal.
    replace (month c mod 12 + 1 - 1) with (month c mod 12) by lia.
    rewrite Z.mod_mod by lia.
    rewrite (Z.div_small (month c mod 12) 12)
      by (Z.div_mod_to_equations; lia).
    now rewrite Z.add_0_r. }
  rewrite startOfMonth_fixed by (rewrite Hl1; lia).
  rewrite Hn.
  (* one millisecond earlier *)
  assert (Hnr : Z.abs (nextMonthStartOf k t) <= 8638000000000000).
  { unfold msPerDay in *. clear - Hr Hspan Hin Hdim. lia. }
  rewrite (adjustTime_days 0 (-1)); [| lia |].
  - rewrite Z.mul_0_l, Z.add_0_r.
    replace (nextMonthStartOf k t - k * 60000 + -1)
      with (nextMonthStartOf k t - k * 60000 - 1) by lia.
    apply mkDateTime_At. unfold localOf. lia.
  - unfold localOf. lia.
Qed.

(** The weekday, 0 for Sunday, of an instant seen in the zone. *)
Lemma weekday_fixed t :
  weekday (At t z)
  = Num (if WeekDay (localOf k t) =? 0 then 7 else WeekDay (localOf k t)).
Proof.
  unfold weekday. rewrite civilOf_fixed.
  destruct (tsToObj_proper (localOf k t)) as (Hd & Ht & Hu).
  remember (tsToObj (localOf k t)) as c eqn:Ec.
  apply properTime_spec in Ht as (Hh & Hm & Hs & Hms).
  pose proof (MakeTime_bounds _ _ _ _ Hh Hm Hs Hms) as Hb.
  assert (E : WeekDay (MakeDate (MakeDay (year c) (month c - 1) (day c)) 0)
              = WeekDay (localOf k t)).
  { unfold WeekDay. rewrite <- Hu. unfold utcMillis.
    rewrite !Day_MakeDate; [reflexivity | exact Hb | unfold msPerDay; lia]. }
  now rewrite E.
Qed.

Lemma hit_onWeekday tw t :
  match weekday (At t z), tw with
  | Num n, Some w => n mod 7 =? weekdayNum w
  | _, _ => false
  end = onWeekday k tw (At t z).
Proof.
  rewrite weekday_fixed. unfold onWeekday. destruct tw as [w|]; [|reflexivity].
  assert (H : 0 <= WeekDay (localOf k t) < 7)
    by (unfold WeekDay; Z.div_mod_to_equations; lia).
  destruct (Z.eqb_spec (WeekDay (localOf k t)) 0) as [E|E].
  - rewrite E. reflexivity.
  - now rewrite Z.mod_small.
Qed.

(** The inner loop of the monthly generator walks day by day from
    [checkDate] to [monthEnd], and stops past [monthEnd] before its fuel
    runs out. *)
Lemma weekdayOccurrences_stride tw e : forall n fuel s,
  (n <= fuel)%nat ->
  e < s + Z.of_nat n * msPerDay ->
  (n <> O -> s + Z.of_nat n * msPerDay - msPerDay <= e) ->
  Z.abs (localOf k s) + Z.of_nat n * msPerDay <= 8640000000000000 ->
  exists final,
    weekdayOccurrences fuel tw (At e z) (At s z)
    = (filter (onWeekday k tw) (daysFrom z n s), final)
    /\ leDateTime final (At e z) = false.
Proof.
  induction n as [|n IH]; intros fuel s Hf He Hs Hr.
  - exists (At s z).
    assert (Hle : leDateTime (At s z) (At e z) = false)
      by (cbn; apply Z.leb_gt; lia).
    split; [|exact Hle].
    destruct fuel; cbn [weekdayOccurrences]; [reflexivity|].
    now rewrite Hle.
  - destruct fuel as [|fuel]; [lia|].
    assert (Hle : leDateTime (At s z) (At e z) = true).
    { cbn. apply Z.leb_le. specialize (Hs ltac:(discriminate)).
      unfold msPerDay in *. lia. }
    assert (Hn : plusDays1 (At s z) = At (s + msPerDay) z).
    { rewrite plusDays1_fixed by (unfold localOf, msPerDay in *; lia).
      apply mkDateTime_At. unfold localOf, msPerDay in *. lia. }
    destruct (IH fuel (s + msPerDay)) as (final & E & Hfin);
      [lia | unfold msPerDay in *; lia | intros _; unfold msPerDay in *; lia
      | unfold localOf, msPerDay in *; lia |].
    exists final. split; [|exact Hfin].
    cbn [weekdayOccurrences]. rewrite Hle, Hn, E, hit_onWeekday.
    cbn [daysFrom filter]. now destruct (onWeekday k tw (At s z)).
Qed.

End FixedZone.

(** ** The Nth weekday of the month *)

Section NthWeekday.
Import Time TimeFacts Luxon LuxonFacts CalendarFacts.

Variable host : Host.

Lemma targetOccurrence_select p l :
  targetOccurrence p l = selectOccurrence p l.
Proof.
  unfold targetOccurrence, selectOccurrence.
  destruct p as [[|n]|]; try reflexivity.
  destruct (Z.eqb_spec n (-1)) as [->|Hn].
  - reflexivity.
  - destruct (Z.ltb_spec 0 n); destruct (Z.leb_spec 1 n); try lia;
      reflexivity.
Qed.

Lemma daysFrom_dates y mo : forall n d,
  daysFrom (systemZone host) n
    (MakeDate (MakeDay y (mo - 1) d) 0 - hostOffset host * 60000)
  = map (fun i => dateAt host y mo (d + Z.of_nat i)) (seq 0 n).
Proof.
  induction n as [|n IH]; intros d; [reflexivity|].
  cbn [daysFrom seq map]. f_equal.
  - unfold dateAt. f_equal. f_equal. f_equal. f_equal. lia.
  - replace (MakeDate (MakeDay y (mo - 1) d) 0 - hostOffset host * 60000
             + msPerDay)
      with (MakeDate (MakeDay y (mo - 1) (d + 1)) 0 - hostOffset host * 60000)
      by (unfold MakeDate, MakeDay; lia).
    rewrite IH, <- seq_shift, map_map. apply map_ext. intros i.
    f_equal. lia.
Qed.

Lemma systemZone_fixed : forall x, offset (systemZone host) x = hostOffset host.
Proof. reflexivity. Qed.

(** The occurrences that the inner loop collects: the dates of the month
    of the cursor that fall on the target weekday. *)
Lemma weekdayOccurrences_month tw t :
  Z.abs (t + hostOffset host * 60000) <= 8630000000000000 ->
  let c := civilOf t (systemZone host) in
  exists final,
    weekdayOccurrences 31 tw (endOfMonth (At t (systemZone host)))
      (startOfMonth (At t (systemZone host)))
    = (filter (onWeekday (hostOffset host) tw) (monthDates host (year c) (month c)),
       final)
    /\ leDateTime final (endOfMonth (At t (systemZone host))) = false.
Proof.
  intros Hr c.
  rewrite (startOfMonth_fixed _ _ systemZone_fixed) by (unfold localOf; lia).
  rewrite (endOfMonth_fixed _ _ systemZone_fixed) by exact Hr.
  destruct (month_span (hostOffset host) t) as [Hspan Hin].
  unfold c. rewrite (civilOf_fixed _ _ systemZone_fixed).
  unfold localOf in *.
  remember (tsToObj (t + hostOffset host * 60000)) as cv eqn:Ec.
  pose proof (daysInMonth_bounds (year cv) (month cv)) as Hdim.
  destruct (weekdayOccurrences_stride _ _ systemZone_fixed tw
              (nextMonthStartOf (hostOffset host) t
               - hostOffset host * 60000 - 1)
              (Z.to_nat (daysInMonth (year cv) (month cv))) 31%nat
              (monthStartOf (hostOffset host) t - hostOffset host * 60000))
    as (final & E & Hfin).
  - lia.
  - rewrite Z2Nat.id by lia. lia.
  - intros _. rewrite Z2Nat.id by lia. unfold msPerDay in *. lia.
  - rewrite Z2Nat.id by lia. unfold localOf, msPerDay in *. lia.
  - exists final. split; [|exact Hfin]. rewrite E. f_equal. f_equal.
    unfold monthDates, monthStartOf, localOf. rewrite <- Ec.
    rewrite daysFrom_dates. reflexivity.
Qed.


(** At an invalid cursor nothing is pushed and the cursor stays as it
    is: the inner loop does not run at all. *)
Lemma monthlyBody_invalid targetTimeZone startTime o ws ps :
  byweekday o = Some ws -> bysetpos o = Some ps ->
  monthlyBody host targetTimeZone startTime o Invalid = Ok ([], Invalid).
Proof.
  intros Hw Hp. unfold monthlyBody. rewrite Hw, Hp.
  cbn [startOfMonth endOfMonth set adjustTime weekdayOccurrences leDateTime
       valueOf fst].
  unfold targetOccurrence.
  destruct (nth_error ps 0) as [[|n]|]; try reflexivity.
  cbn [List.length Z.of_nat].
  destruct (Z.ltb_spec 0 n); destruct (Z.leb_spec n 0); try lia;
    cbn [andb]; destruct (n =? -1); reflexivity.
Qed.

End NthWeekday.


(** The last Friday of January 2024 is the 26th. *)
Example last_friday_of_january_2024 :
  match monthlyBody Sample.utcHost "UTC" "2024-01-01T04:45:00"
          lastFridayOptions
          (Luxon.At 1704084300000 (systemZone Sample.utcHost)) with
  | Ok (pushed, _) => map Luxon.toString pushed
  | Throw _ => []
  end = ["2024-01-26T04:45:00.000Z"].
Proof. vm_compute. reflexivity. Qed.

(* ------------------------------------------------------------------ *)
(** ** What the generators do not read *)

(** Two loops that agree on the test for [until] and on their bodies give
    the same outcome. *)
Lemma while_ext copy o1 o2 body1 body2 :
  (forall cur, untilReached copy o1 cur = untilReached copy o2 cur) ->
  (forall cur, body1 cur = body2 cur) ->
  forall fuel cur,
    while copy o1 body1 fuel cur = while copy o2 body2 fuel cur.
Proof.
  intros Hu Hb. induction fuel as [|fuel IH]; intros cur; [reflexivity|].
  simpl. rewrite Hu, Hb.
  destruct (untilReached copy o2 cur); [reflexivity|].
  destruct (body2 cur) as [step|]; [|reflexivity].
  simpl. now rewrite IH.
Qed.

(** X1.  The week start of a rule is parsed and stored, and read by no
    generator: a rule gives the same strings, or the same fault, whatever
    its week start. *)
Theorem wkst_never_read
  (copy : Copy) (host : Host) (targetTimeZone startTime : string)
  (o : Options) (w : Weekday) :
  generateDailyDates copy host targetTimeZone startTime (setWkst w o)
  = generateDailyDates copy host targetTimeZone startTime o
  /\ generateWeeklyDates copy host targetTimeZone startTime (setWkst w o)
     = generateWeeklyDates copy host targetTimeZone startTime o
  /\ generateMonthlyDates copy host targetTimeZone startTime (setWkst w o)
     = generateMonthlyDates copy host targetTimeZone startTime o
  /\ generateYearlyDates copy host targetTimeZone startTime (setWkst w o)
     = generateYearlyDates copy host targetTimeZone startTime o.
Proof.
  unfold generateDailyDates, generateWeeklyDates, generateMonthlyDates,
    generateYearlyDates, dailyDateTimes, weeklyDateTimes, monthlyDateTimes,
    yearlyDateTimes.
  repeat split; f_equal.
  - apply while_ext; reflexivity.
  - cbn [byweekday setWkst].
    destruct (byweekday o) as [[|d l]|]; apply while_ext; reflexivity.
  - apply while_ext; reflexivity.
  - apply while_ext; reflexivity.
Qed.

(** X2.  WEEKLY with weekdays steps one day at a time and does not read the
    interval: the rule gives the same strings, or the same fault, whatever
    its interval, an interval that is no number included. *)
Theorem weekly_byday_ignores_interval
  (copy : Copy) (host : Host) (targetTimeZone startTime : string)
  (o : Options) (d : Weekday) (l : list Weekday) (n : num) :
  byweekday o = Some (d :: l) ->
  generateWeeklyDates copy host targetTimeZone startTime (setInterval n o)
  = generateWeeklyDates copy host targetTimeZone startTime o.
Proof.
  intros H. unfold generateWeeklyDates, weeklyDateTimes.
  cbn [byweekday setInterval]. rewrite H. f_equal.
  apply while_ext; reflexivity.
Qed.

Lemma weekly_byday_ignores_interval_witness :
  byweekday weeklyOptions = Some (MO :: [WE; FR])
  /\ generateWeeklyDates ClassCopy Sample.utcHost "Europe/London"
       "2024-09-29T04:45:00" (setInterval NaN weeklyOptions)
     = generateWeeklyDates ClassCopy Sample.utcHost "Europe/London"
         "2024-09-29T04:45:00" weeklyOptions.
Proof.
  split; [reflexivity|].
  apply (weekly_byday_ignores_interval ClassCopy Sample.utcHost "Europe/London"
           "2024-09-29T04:45:00" weeklyOptions MO [WE; FR] NaN).
  reflexivity.
Defined.

(** X3.  MONTHLY with weekdays and positions reads the first weekday and
    the first position only: the rule gives the same strings, or the same
    fault, as the rule with that one weekday and that one position. *)
Theorem monthly_reads_first_entries
  (copy : Copy) (host : Host) (targetTimeZone startTime : string)
  (o : Options) (w : Weekday) (ws : list Weekday) (p : num) (ps : list num) :
  byweekday o = Some (w :: ws) -> bysetpos o = Some (p :: ps) ->
  generateMonthlyDates copy host targetTimeZone startTime o
  = generateMonthlyDates copy host targetTimeZone startTime
      (setByweekday [w] (setBysetpos [p] o)).
Proof.
  intros Hw Hp.
  unfold generateMonthlyDates, monthlyDateTimes. f_equal.
  apply while_ext; [reflexivity|]. intros cur.
  unfold monthlyBody. cbn [byweekday bysetpos setByweekday setBysetpos interval].
  now rewrite Hw, Hp.
Qed.

Lemma monthly_reads_first_entries_witness :
  byweekday firstEntriesOptions = Some (FR :: [MO])
  /\ bysetpos firstEntriesOptions = Some (Num (-1) :: [Num 1])
  /\ generateMonthlyDates ClassCopy Sample.utcHost "Europe/London"
       "2024-01-01T04:45:00" firstEntriesOptions
     = generateMonthlyDates ClassCopy Sample.utcHost "Europe/London"
         "2024-01-01T04:45:00"
         (setByweekday [FR] (setBysetpos [Num (-1)] firstEntriesOptions)).
Proof.
  split; [reflexivity|]. split; [reflexivity|].
  apply (monthly_reads_first_entries ClassCopy Sample.utcHost "Europe/London"
           "2024-01-01T04:45:00" firstEntriesOptions FR [MO] (Num (-1))
           [Num 1]);
    reflexivity.
Defined.

(** X4.  MONTHLY without positions does not read the weekdays: the rule
    gives the same strings, or the same fault, whatever its weekdays, and
    so the strings of the plain MONTHLY rule. *)
Theorem monthly_without_positions_ignores_weekdays
  (copy : Copy) (host : Host) (targetTimeZone startTime : string)
  (o : Options) (ws : list Weekday) :
  bysetpos o = None ->
  generateMonthlyDates copy host targetTimeZone startTime (setByweekday ws o)
  = generateMonthlyDates copy host targetTimeZone startTime o.
Proof.
  intros Hp.
  unfold generateMonthlyDates, monthlyDateTimes. f_equal.
  apply while_ext; [reflexivity|]. intros cur.
  unfold monthlyBody. cbn [byweekday bysetpos setByweekday interval].
  rewrite Hp. now destruct (byweekday o).
Qed.

Lemma monthly_without_positions_ignores_weekdays_witness :
  bysetpos monthEndOptions = None
  /\ generateMonthlyDates ClassCopy Sample.utcHost "Europe/London"
       "2024-01-31T04:45:00" (setByweekday [MO; FR] monthEndOptions)
     = generateMonthlyDates ClassCopy Sample.utcHost "Europe/London"
         "2024-01-31T04:45:00" monthEndOptions.
Proof.
  split; [reflexivity|].
  apply (monthly_without_positions_ignores_weekdays ClassCopy Sample.utcHost
           "Europe/London" "2024-01-31T04:45:00" monthEndOptions [MO; FR]).
  reflexivity.
Defined.

(* ------------------------------------------------------------------ *)
(** ** Invalid dates, zones and times *)

Lemma while_Forall_all (P : Luxon.DateTime -> Prop) copy o body :
  (forall cur step, body cur = Ok step -> Forall P (fst step)) ->
  forall fuel cur l, while copy o body fuel cur = Ok l -> Forall P l.
Proof.
  intros Hb. induction fuel as [|fuel IH]; intros cur l H; simpl in H.
  - inversion H. constructor.
  - destruct (untilReached copy o cur); [inversion H; constructor|].
    destruct (body cur) as [step|] eqn:E; simpl in H; [|discriminate].
    destruct (while copy o body fuel (snd step)) as [rest|] eqn:E';
      simpl in H; [|discriminate].
    inversion H; subst. apply Forall_app. split; eauto.
Qed.

(** A loop whose body never faults returns. *)
Lemma while_Ok copy o body :
  (forall cur, exists step, body cur = Ok step) ->
  forall fuel cur, exists l, while copy o body fuel cur = Ok l.
Proof.
  intros Hb. induction fuel as [|fuel IH]; intros cur; simpl.
  - exists []. reflexivity.
  - destruct (untilReached copy o cur); [eauto|].
    destruct (Hb cur) as (step & ->). simpl.
    destruct (IH (snd step)) as (l & ->). simpl. eauto.
Qed.

Section UnknownZone.

Variables (copy : Copy) (host : Host) (targetTimeZone startTime : string).
Hypothesis zone_unknown : normalizeZone host targetTimeZone = None.

Lemma finalDateTime_unknown cur :
  finalDateTime host targetTimeZone startTime cur = Ok Luxon.Invalid.
Proof.
  unfold finalDateTime. rewrite zone_unknown. now destruct cur.
Qed.

Lemma bodies_unknown o n :
  interval o = Num n ->
  forall body,
    body = pushAndStep host targetTimeZone startTime Luxon.Days o
    \/ body = pushAndStep host targetTimeZone startTime Luxon.Weeks o
    \/ body = pushAndStep host targetTimeZone startTime Luxon.Years o
    \/ body = monthlyBody host targetTimeZone startTime o
    \/ (exists ws, body = weeklyByDayBody host targetTimeZone startTime ws) ->
  forall cur,
    exists step, body cur = Ok step
                 /\ Forall (fun d => d = Luxon.Invalid) (fst step).
Proof.
  intros Hi body Hb cur.
  assert (Hpush : forall u,
             exists step,
               pushAndStep host targetTimeZone startTime u o cur = Ok step
               /\ Forall (fun d => d = Luxon.Invalid) (fst step)).
  { intros u. unfold pushAndStep. rewrite finalDateTime_unknown, Hi.
    destruct (plus_Ok u n cur) as [next ->]. cbn [bind].
    eexists. split; [reflexivity|]. repeat constructor. }
  destruct Hb as [->|[->|[->|[->|(ws & ->)]]]]; auto.
  - unfold monthlyBody. rewrite Hi.
    destruct (plus_Ok Luxon.Months n cur) as [next ->].
    destruct (byweekday o) as [ws|]; [destruct (bysetpos o) as [ps|]|].
    + destruct (targetOccurrence _ _) as [d|].
      * rewrite finalDateTime_unknown. cbn [bind].
        eexists. split; [reflexivity|]. repeat constructor.
      * cbn [bind]. eexists. split; [reflexivity|]. constructor.
    + rewrite finalDateTime_unknown. cbn [bind].
      eexists. split; [reflexivity|]. repeat constructor.
    + rewrite finalDateTime_unknown. cbn [bind].
      eexists. split; [reflexivity|]. repeat constructor.
  - unfold weeklyByDayBody.
    destruct (plus_Ok Luxon.Days 1 cur) as [next ->].
    destruct (includesWeekday ws (Luxon.weekday cur)).
    + rewrite finalDateTime_unknown. cbn [bind].
      eexists. split; [reflexivity|]. repeat constructor.
    + cbn [bind]. eexists. split; [reflexivity|]. constructor.
Qed.

Lemma dateTimesOf_unknown o n :
  interval o = Num n ->
  exists dts,
    dateTimesOf copy host targetTimeZone startTime o = Ok dts
    /\ Forall (fun d => d = Luxon.Invalid) dts.
Proof.
  intros Hi.
  assert (H : forall body fuel cur,
             body = pushAndStep host targetTimeZone startTime Luxon.Days o
             \/ body = pushAndStep host targetTimeZone startTime Luxon.Weeks o
             \/ body = pushAndStep host targetTimeZone startTime Luxon.Years o
             \/ body = monthlyBody host targetTimeZone startTime o
             \/ (exists ws,
                   body = weeklyByDayBody host targetTimeZone startTime ws) ->
             exists dts,
               while copy o body fuel cur = Ok dts
               /\ Forall (fun d => d = Luxon.Invalid) dts).
  { intros body fuel cur Hb.
    destruct (while_Ok copy o body) with (fuel := fuel) (cur := cur)
      as (dts & E).
    - intros c. destruct (bodies_unknown o n Hi body Hb c) as (step & -> & _).
      eauto.
    - exists dts. split; [exact E|].
      apply (while_Forall_all _ copy o body) with (fuel := fuel) (cur := cur);
        [|exact E].
      intros c step Es.
      destruct (bodies_unknown o n Hi body Hb c) as (step' & Es' & F).
      congruence. }
  unfold dateTimesOf, dailyDateTimes, weeklyDateTimes, monthlyDateTimes,
    yearlyDateTimes.
  destruct (freq o); [| destruct (byweekday o) as [[|w ws]|] | |]; apply H.
  - left. reflexivity.
  - right. left. reflexivity.
  - do 4 right. now exists (w :: ws).
  - right. left. reflexivity.
  - do 3 right. left. reflexivity.
  - do 2 right. left. reflexivity.
Qed.

End UnknownZone.

(** X5.  With a target zone whose name does not resolve, a rule that
    parses and has a numeric interval gives no fault, whatever the start
    time: the generator returns, and every string it returns is the text of
    an invalid [DateTime]. *)
Theorem unknown_zone_gives_invalid_texts
  (copy : Copy) (host : Host) (targetTimeZone startTime s : string)
  (o : Options) (n : Z) :
  normalizeZone host targetTimeZone = None ->
  parseRRuleString copy host s startTime = Ok (Some o) ->
  interval o = Num n ->
  exists l,
    getDatesWithCustomTimezone copy host targetTimeZone startTime s = Ok l
    /\ Forall (fun x => x = invalidText) l.
Proof.
  intros Hz Hp Hi.
  rewrite getDatesWithCustomTimezone_dateTimes.
  destruct s as [|c s]; [discriminate Hp|]. rewrite Hp. cbn [bind].
  destruct (dateTimesOf_unknown copy host targetTimeZone startTime Hz o n Hi)
    as (dts & -> & F).
  cbn [strings bind]. eexists. split; [reflexivity|].
  induction F as [|d dts Hd F IH]; [constructor|].
  subst d. constructor; [reflexivity | exact IH].
Qed.

Lemma unknown_zone_gives_invalid_texts_witness :
  normalizeZone Sample.utcHost "Mars/Olympus" = None
  /\ parseRRuleString ClassCopy Sample.utcHost dailyRule "not a time"
     = Ok (Some dailyOptions)
  /\ interval dailyOptions = Num 1
  /\ exists l,
       getDatesWithCustomTimezone ClassCopy Sample.utcHost "Mars/Olympus"
         "not a time" dailyRule = Ok l
       /\ Forall (fun x => x = invalidText) l.
Proof.
  split; [reflexivity|]. split; [reflexivity|]. split; [reflexivity|].
  apply (unknown_zone_gives_invalid_texts ClassCopy Sample.utcHost
           "Mars/Olympus" "not a time" dailyRule dailyOptions 1);
    reflexivity.
Defined.

(** *** A start date that is not on the calendar *)

Lemma while_invalid_push copy o body :
  (body Luxon.Invalid = Ok ([Luxon.Invalid], Luxon.Invalid)) ->
  forall fuel,
    while copy o body fuel Luxon.Invalid = Ok (repeat Luxon.Invalid fuel).
Proof.
  intros Hb. induction fuel as [|fuel IH]; [reflexivity|].
  cbn [while]. 
  assert (Hu : untilReached copy o Luxon.Invalid = false).
  { unfold untilReached. destruct (until o) as [u|]; [|reflexivity].
    now destruct copy. }
  rewrite Hu, Hb. cbn [bind snd fst]. rewrite IH. reflexivity.
Qed.

Lemma while_invalid_skip copy o body :
  (body Luxon.Invalid = Ok ([], Luxon.Invalid)) ->
  forall fuel, while copy o body fuel Luxon.Invalid = Ok [].
Proof.
  intros Hb. induction fuel as [|fuel IH]; [reflexivity|].
  cbn [while].
  assert (Hu : untilReached copy o Luxon.Invalid = false).
  { unfold untilReached. destruct (until o) as [u|]; [|reflexivity].
    now destruct copy. }
  rewrite Hu, Hb. cbn [bind snd fst]. rewrite IH. reflexivity.
Qed.

Lemma dateTimesOf_invalid_start copy host targetTimeZone startTime o :
  dtstart o = InvalidDate ->
  dateTimesOf copy host targetTimeZone startTime o
  = Ok (if selective o then []
        else repeat Luxon.Invalid (Z.to_nat (maxCount o))).
Proof.
  intros Hd.
  assert (Hs : startDate host o = Luxon.Invalid)
    by (unfold startDate; now rewrite Hd).
  assert (Hpush : forall u,
             pushAndStep host targetTimeZone startTime u o Luxon.Invalid
             = Ok ([Luxon.Invalid], Luxon.Invalid)) by reflexivity.
  unfold dateTimesOf, dailyDateTimes, weeklyDateTimes, monthlyDateTimes,
    yearlyDateTimes, selective. rewrite Hs.
  destruct (freq o).
  - now apply while_invalid_push.
  - destruct (byweekday o) as [[|w ws]|];
      [now apply while_invalid_push | | now apply while_invalid_push].
    now apply while_invalid_skip.
  - destruct (byweekday o) as [ws|] eqn:Ew;
      [destruct (bysetpos o) as [ps|] eqn:Ep|].
    + apply while_invalid_skip.
      exact (monthlyBody_invalid host targetTimeZone startTime o ws ps Ew Ep).
    + apply while_invalid_push. unfold monthlyBody. now rewrite Ew, Ep.
    + apply while_invalid_push. unfold monthlyBody. now rewrite Ew.
  - now apply while_invalid_push.
Qed.

(** The start instant of a literal whose date is not on the calendar. *)
Lemma dtstartDate_improper d :
  DateTimeLiteral d -> properDate (civilOfLiteral d) = false ->
  dtstartDate d = Ok InvalidDate.
Proof.
  intros Hd Hp. rewrite (dtstartDate_literal d Hd). cbv zeta.
  unfold Luxon.fromObjectUTC. cbn [Luxon.asNumber bind].
  unfold Luxon.hasInvalidGregorianData.
  cbn [Luxon.year Luxon.month Luxon.day].
  unfold properDate in Hp. rewrite Hp. reflexivity.
Qed.

(** X6.  A start declaration whose date is not on the calendar (a month
    13, a day 30 in February) is no fault and does not make the parser
    return null: the start date is an invalid [Date], and the generator
    returns the text of an invalid [DateTime] once for each turn of its
    loop, and nothing at all in the modes that select by weekday. *)
Theorem impossible_start_date
  (copy : Copy) (host : Host) (targetTimeZone startTime s tz d : string)
  (o : Options) :
  parseRRuleString copy host s startTime = Ok (Some o) ->
  matchDtstart s = Some (tz, d) ->
  properDate (civilOfLiteral d) = false ->
  dtstart o = InvalidDate
  /\ getDatesWithCustomTimezone copy host targetTimeZone startTime s
     = Ok (if selective o then []
           else repeat invalidText (Z.to_nat (maxCount o))).
Proof.
  intros Hp Hm Hd.
  destruct (parseRRuleString_Some _ _ _ _ _ Hp)
    as (tz' & d' & rrulePart & start & Hm' & _ & Hs & Hf).
  rewrite Hm in Hm'. inversion Hm'; subst tz' d'.
  assert (Hl : DateTimeLiteral d).
  { unfold matchDtstart in Hm.
    destruct (findFirst_sound _ _ _ Hm) as (p & t & _ & Ht).
    now destruct (dtstartAt_sound _ _ _ Ht) as (? & _ & _ & _ & ?). }
  rewrite (dtstartDate_improper d Hl Hd) in Hs. inversion Hs; subst start.
  assert (Ho : dtstart o = InvalidDate)
    by (rewrite (forEachPart_dtstart _ _ _ _ _ Hf); reflexivity).
  split; [exact Ho|].
  rewrite getDatesWithCustomTimezone_dateTimes.
  destruct s as [|c s]; [discriminate Hp|]. rewrite Hp. cbn [bind].
  rewrite (dateTimesOf_invalid_start _ _ _ _ _ Ho). cbn [strings bind].
  f_equal. destruct (selective o); [reflexivity|].
  induction (Z.to_nat (maxCount o)) as [|n IH]; [reflexivity|].
  cbn [repeat map]. now rewrite IH.
Qed.

Lemma impossible_start_date_witness :
  parseRRuleString ClassCopy Sample.utcHost impossibleRule
    "2024-09-29T04:45:00" = Ok (Some impossibleOptions)
  /\ properDate (civilOfLiteral "20240230T044500") = false
  /\ getDatesWithCustomTimezone ClassCopy Sample.utcHost "Europe/London"
       "2024-09-29T04:45:00" impossibleRule
     = Ok [invalidText; invalidText; invalidText].
Proof.
  split; [reflexivity|]. split; [reflexivity|].
  apply (impossible_start_date ClassCopy Sample.utcHost "Europe/London"
           "2024-09-29T04:45:00" impossibleRule "UTC" "20240230T044500"
           impossibleOptions);
    reflexivity.
Defined.

(** *** An [until] that is no date *)

Lemma untilReached_invalid copy o cur :
  until o = Some InvalidDate -> untilReached copy o cur = false.
Proof.
  intros H. unfold untilReached. rewrite H.
  destruct copy; destruct (Luxon.toJSDate cur); reflexivity.
Qed.

(** X7.  An [until] that is an invalid [Date] ends no loop: every
    comparison with it is false, and the rule gives the strings, or the
    fault, of the same rule without UNTIL. *)
Theorem invalid_until_is_ignored
  (copy : Copy) (host : Host) (targetTimeZone startTime : string)
  (o : Options) :
  until o = Some InvalidDate ->
  generateDailyDates copy host targetTimeZone startTime o
  = generateDailyDates copy host targetTimeZone startTime (withoutUntil o)
  /\ generateWeeklyDates copy host targetTimeZone startTime o
     = generateWeeklyDates copy host targetTimeZone startTime (withoutUntil o)
  /\ generateMonthlyDates copy host targetTimeZone startTime o
     = generateMonthlyDates copy host targetTimeZone startTime (withoutUntil o)
  /\ generateYearlyDates copy host targetTimeZone startTime o
     = generateYearlyDates copy host targetTimeZone startTime (withoutUntil o).
Proof.
  intros H.
  assert (Hu : forall cur,
             untilReached copy o cur = untilReached copy (withoutUntil o) cur)
    by (intros cur; now rewrite (untilReached_invalid copy o cur H)).
  unfold generateDailyDates, generateWeeklyDates, generateMonthlyDates,
    generateYearlyDates, dailyDateTimes, weeklyDateTimes, monthlyDateTimes,
    yearlyDateTimes.
  repeat split; f_equal.
  - apply while_ext; [exact Hu | reflexivity].
  - cbn [byweekday withoutUntil].
    destruct (byweekday o) as [[|d l]|]; apply while_ext;
      solve [exact Hu | reflexivity].
  - apply while_ext; [exact Hu | reflexivity].
  - apply while_ext; [exact Hu | reflexivity].
Qed.

Lemma invalid_until_is_ignored_witness :
  until invalidUntilOptions = Some InvalidDate
  /\ generateDailyDates ClassCopy Sample.utcHost "Europe/London"
       "2024-09-29T04:45:00" invalidUntilOptions
     = generateDailyDates ClassCopy Sample.utcHost "Europe/London"
         "2024-09-29T04:45:00" (withoutUntil invalidUntilOptions).
Proof.
  split; [reflexivity|].
  apply (invalid_until_is_ignored ClassCopy Sample.utcHost "Europe/London"
           "2024-09-29T04:45:00" invalidUntilOptions).
  reflexivity.
Defined.

(** *** The count *)

(** X8.  A negative COUNT gives the empty sequence in every mode, without
    a fault, whatever the zone and the start time. *)
Theorem negative_count_yields_nothing
  (copy : Copy) (host : Host) (targetTimeZone startTime s : string)
  (o : Options) (n : Z) :
  parseRRuleString copy host s startTime = Ok (Some o) ->
  count o = Some (Num n) -> n < 0 ->
  getDatesWithCustomTimezone copy host targetTimeZone startTime s = Ok [].
Proof.
  intros Hp Hc Hn.
  rewrite getDatesWithCustomTimezone_dateTimes.
  destruct s as [|c s]; [discriminate Hp|]. rewrite Hp. cbn [bind].
  assert (Hm : Z.to_nat (maxCount o) = O).
  { unfold maxCount. rewrite Hc. cbn [orDefault].
    destruct (Z.eqb_spec n 0); lia. }
  unfold dateTimesOf, dailyDateTimes, weeklyDateTimes, monthlyDateTimes,
    yearlyDateTimes. rewrite Hm.
  destruct (freq o); [| destruct (byweekday o) as [[|w ws]|] | |]; reflexivity.
Qed.

Lemma negative_count_yields_nothing_witness :
  parseRRuleString ClassCopy Sample.utcHost negativeCountRule
    "2024-09-29T04:45:00" = Ok (Some negativeCountOptions)
  /\ getDatesWithCustomTimezone ClassCopy Sample.utcHost "Europe/London"
       "2024-09-29T04:45:00" negativeCountRule = Ok [].
Proof.
  split; [reflexivity|].
  apply (negative_count_yields_nothing ClassCopy Sample.utcHost
           "Europe/London" "2024-09-29T04:45:00" negativeCountRule
           negativeCountOptions (-2));
    [reflexivity | reflexivity | lia].
Defined.

(** X9.  A COUNT of zero, and a COUNT that is no number, count as no COUNT
    at all: the loops run 1000 times, and in the modes that push once each
    time round a rule without UNTIL gives exactly 1000 strings. *)
Theorem zero_count_means_a_thousand
  (copy : Copy) (host : Host) (targetTimeZone startTime s : string)
  (o : Options) (i : Z) (hms : Z * Z * Z) :
  parseRRuleString copy host s startTime = Ok (Some o) ->
  count o = Some (Num 0) \/ count o = Some NaN \/ count o = None ->
  until o = None -> selective o = false ->
  interval o = Num i -> fromISO host startTime = Some hms ->
  maxCount o = 1000
  /\ exists l,
       getDatesWithCustomTimezone copy host targetTimeZone startTime s = Ok l
       /\ List.length l = 1000%nat.
Proof.
  intros Hp Hc Hu Hs Hi Hh.
  assert (Hm : maxCount o = 1000).
  { unfold maxCount. destruct Hc as [-> |[-> | ->]]; reflexivity. }
  split; [exact Hm|].
  rewrite getDatesWithCustomTimezone_dateTimes.
  destruct s as [|c s]; [discriminate Hp|]. rewrite Hp. cbn [bind].
  destruct (dateTimesOf_exact copy host targetTimeZone startTime hms o i
              Hh Hi Hu Hs) as (dts & -> & Hl).
  cbn [strings bind]. eexists. split; [reflexivity|].
  rewrite length_map, Hl, Hm. reflexivity.
Qed.

Lemma zero_count_means_a_thousand_witness :
  parseRRuleString ClassCopy Sample.utcHost zeroCountRule
    "2024-09-29T04:45:00" = Ok (Some zeroCountOptions)
  /\ maxCount zeroCountOptions = 1000
  /\ exists l,
       getDatesWithCustomTimezone ClassCopy Sample.utcHost "Europe/London"
         "2024-09-29T04:45:00" zeroCountRule = Ok l
       /\ List.length l = 1000%nat.
Proof.
  split; [reflexivity|].
  apply (zero_count_means_a_thousand ClassCopy Sample.utcHost "Europe/London"
           "2024-09-29T04:45:00" zeroCountRule zeroCountOptions 1 (4, 45, 0));
    [reflexivity | left; reflexivity | reflexivity | reflexivity
     | reflexivity | reflexivity].
Defined.

(** *** A start time that is no time *)

(** X10.  A start time that [DateTime.fromISO] does not accept is a fault,
    not an empty result: in the modes that push once each time round, a
    rule with a valid start date, a target zone that resolves, and a loop
    that runs at least once throws an [InvalidArgumentError] on its first
    date. *)
Theorem unreadable_start_time_faults
  (copy : Copy) (host : Host) (targetTimeZone startTime s : string)
  (o : Options) (z : Luxon.Zone) (t : Z) :
  parseRRuleString copy host s startTime = Ok (Some o) ->
  fromISO host startTime = None ->
  normalizeZone host targetTimeZone = Some z ->
  dtstart o = DateAt t ->
  Z.abs (t + hostOffset host * 60000) <= 8640000000000000 ->
  Z.abs (t + Luxon.offset z t * 60000) <= 8640000000000000 ->
  until o = None -> selective o = false -> 0 < maxCount o ->
  getDatesWithCustomTimezone copy host targetTimeZone startTime s
  = Throw InvalidArgumentError.
Proof.
  intros Hp Hf Hz Hd Hr Hrz Hu Hs Hm.
  rewrite getDatesWithCustomTimezone_dateTimes.
  destruct s as [|c s]; [discriminate Hp|]. rewrite Hp. cbn [bind].
  assert (Hstart : startDate host o = Luxon.At t (systemZone host)).
  { unfold startDate. rewrite Hd. cbn [Luxon.fromJSDate Luxon.mkDateTime].
    cbn [systemZone Luxon.offset].
    now rewrite (TimeFacts.TimeClip_Some _ Hr). }
  assert (Hfin : finalDateTime host targetTimeZone startTime
                   (Luxon.At t (systemZone host))
                 = Throw InvalidArgumentError).
  { unfold finalDateTime. rewrite Hz, Hf.
    cbn [Luxon.setZone Luxon.mkDateTime].
    now rewrite (TimeFacts.TimeClip_Some _ Hrz). }
  assert (Hfuel : exists fuel, Z.to_nat (maxCount o) = S fuel).
  { exists (Nat.pred (Z.to_nat (maxCount o))). lia. }
  destruct Hfuel as (fuel & Hfuel).
  assert (Hpush : forall u,
             while copy o (pushAndStep host targetTimeZone startTime u o)
               (S fuel) (Luxon.At t (systemZone host))
             = Throw InvalidArgumentError).
  { intros u. cbn [while]. unfold untilReached. rewrite Hu.
    unfold pushAndStep. now rewrite Hfin. }
  unfold dateTimesOf, dailyDateTimes, weeklyDateTimes, monthlyDateTimes,
    yearlyDateTimes. rewrite Hstart, Hfuel.
  unfold selective in Hs.
  destruct (freq o).
  - now rewrite Hpush.
  - destruct (byweekday o) as [[|w ws]|]; try discriminate Hs;
      now rewrite Hpush.
  - cbn [while]. unfold untilReached. rewrite Hu. unfold monthlyBody.
    destruct (byweekday o) as [ws|]; [destruct (bysetpos o) as [ps|]|];
      try discriminate Hs; now rewrite Hfin.
  - now rewrite Hpush.
Qed.

Lemma unreadable_start_time_faults_witness :
  parseRRuleString ClassCopy Sample.utcHost dailyRule "not a time"
  = Ok (Some dailyOptions)
  /\ fromISO Sample.utcHost "not a time" = None
  /\ getDatesWithCustomTimezone ClassCopy Sample.utcHost "Europe/London"
       "not a time" dailyRule = Throw InvalidArgumentError.
Proof.
  split; [reflexivity|]. split; [reflexivity|].
  apply (unreadable_start_time_faults ClassCopy Sample.utcHost "Europe/London"
           "not a time" dailyRule dailyOptions Sample.london 1727585100000);
    try reflexivity; vm_compute; intros H; discriminate H.
Defined.

(* ------------------------------------------------------------------ *)
(** ** The parser, field by field *)

Lemma split_nonempty sep s : split sep s <> [].
Proof.
  destruct s as [|c s]; simpl; [discriminate|].
  destruct (Ascii.eqb c sep); [discriminate|].
  destruct (split sep s); discriminate.
Qed.

(** A text without a second piece is its own first piece. *)
Lemma split_single sep : forall s,
  nth_error (split sep s) 1 = None -> split sep s = [s].
Proof.
  induction s as [|c s IH]; simpl; intros H; [reflexivity|].
  destruct (Ascii.eqb c sep).
  - exfalso. simpl in H. pose proof (split_nonempty sep s).
    destruct (split sep s); [congruence | discriminate].
  - destruct (split sep s) as [|h t] eqn:E.
    + exfalso. now apply (split_nonempty sep s).
    + simpl in H. destruct t; [|discriminate].
      specialize (IH eq_refl). now inversion IH.
Qed.

Lemma bareKey_spec part :
  bareKey part = true
  <-> ((keyOf part = "UNTIL" \/ keyOf part = "BYDAY" \/ keyOf part = "BYSETPOS")
       /\ valueOf part = None).
Proof.
  unfold bareKey, keyOf, valueOf. split.
  - intros H. apply orb_prop in H as [H|H]; [apply orb_prop in H as [H|H]|];
      apply String.eqb_eq in H; subst part; simpl; auto.
  - intros [Hk Hv]. rewrite (split_single _ _ Hv) in Hk. simpl in Hk.
    destruct Hk as [->|[->| ->]]; reflexivity.
Qed.

(** What a step of the class's parser gives. *)
Lemma parsePart_class host o part :
  if bareKey part
  then parsePart ClassCopy host o part = Throw TypeError
  else exists o', parsePart ClassCopy host o part = Ok o'.
Proof.
  destruct (bareKey part) eqn:B.
  - apply bareKey_spec in B as [Hk Hv].
    unfold parsePart. fold (keyOf part) (valueOf part). rewrite Hv.
    destruct Hk as [->|[->| ->]]; reflexivity.
  - assert (Hn : ~ ((keyOf part = "UNTIL" \/ keyOf part = "BYDAY"
                     \/ keyOf part = "BYSETPOS") /\ valueOf part = None)).
    { intros H. apply bareKey_spec in H. congruence. }
    unfold parsePart. fold (keyOf part) (valueOf part).
    destruct (keyOf part =? "FREQ")%string; [eauto|].
    destruct (keyOf part =? "INTERVAL")%string; [eauto|].
    destruct (String.eqb_spec (keyOf part) "UNTIL").
    { destruct (valueOf part) as [v|]; [|exfalso; apply Hn; auto].
      cbn [defined bind untilDate]. eauto. }
    destruct (keyOf part =? "WKST")%string; [eauto|].
    destruct (String.eqb_spec (keyOf part) "BYDAY").
    { destruct (valueOf part) as [v|]; [|exfalso; apply Hn; auto].
      cbn [defined bind]. eauto. }
    destruct (String.eqb_spec (keyOf part) "BYSETPOS").
    { destruct (valueOf part) as [v|]; [|exfalso; apply Hn; auto].
      cbn [defined bind]. eauto. }
    destruct (keyOf part =? "COUNT")%string; eauto.
Qed.

Lemma forEachPart_class host : forall parts o,
  if existsb bareKey parts
  then forEachPart ClassCopy host parts o = Throw TypeError
  else exists o', forEachPart ClassCopy host parts o = Ok o'.
Proof.
  induction parts as [|part rest IH]; intros o; cbn [existsb forEachPart].
  - eauto.
  - pose proof (parsePart_class host o part) as Hp.
    destruct (bareKey part); cbn [orb].
    + now rewrite Hp.
    + destruct Hp as (o1 & ->). cbn [bind]. apply IH.
Qed.

Lemma dtstartDate_Ok d :
  DateTimeLiteral d -> exists start, dtstartDate d = Ok start.
Proof.
  intros Hd. rewrite (dtstartDate_literal d Hd). cbv zeta.
  unfold Luxon.fromObjectUTC. cbn [Luxon.asNumber bind].
  destruct (_ || _); cbn [bind]; eauto.
Qed.

Lemma matchDtstart_literal s tz d :
  matchDtstart s = Some (tz, d) -> DateTimeLiteral d.
Proof.
  unfold matchDtstart. intros Hm.
  destruct (findFirst_sound _ _ _ Hm) as (p & t & _ & Ht).
  now destruct (dtstartAt_sound _ _ _ Ht) as (? & _ & _ & _ & ?).
Qed.

(** X11.  The faults of the class's parser.  On a text with a start
    declaration and an RRULE line, [parseRRuleString] of the class throws
    exactly when a part of the line is one of the keys UNTIL, BYDAY and
    BYSETPOS with no [=] after it; the fault is a [TypeError], and the
    generator lets it through.  On every other such text the parser returns
    options. *)
Theorem class_parser_faults_on_bare_keys
  (host : Host) (s startTime targetTimeZone tz d rrulePart : string) :
  matchDtstart s = Some (tz, d) -> matchRrule s = Some rrulePart ->
  if existsb bareKey (split ";" rrulePart)
  then TimezoneRRule.parseRRuleString host s startTime = Throw TypeError
       /\ TimezoneRRule.getDatesWithCustomTimezone host s targetTimeZone
            startTime = Throw TypeError
  else exists o, TimezoneRRule.parseRRuleString host s startTime = Ok (Some o).
Proof.
  intros Hm Hr.
  destruct (dtstartDate_Ok d (matchDtstart_literal _ _ _ Hm)) as (start & Hs).
  assert (Hp : TimezoneRRule.parseRRuleString host s startTime
               = (options <- forEachPart ClassCopy host (split ";" rrulePart)
                               (initialOptions start) ;;
                  Ok (Some options))).
  { unfold TimezoneRRule.parseRRuleString, parseRRuleString.
    destruct s as [|c s]; [discriminate Hm|].
    now rewrite Hm, Hr, Hs. }
  pose proof (forEachPart_class host (split ";" rrulePart)
                (initialOptions start)) as Hf.
  destruct (existsb bareKey (split ";" rrulePart)).
  - rewrite Hf in Hp. cbn [bind] in Hp. split; [exact Hp|].
    unfold TimezoneRRule.getDatesWithCustomTimezone, getDatesWithCustomTimezone.
    destruct s as [|c s]; [discriminate Hm|].
    unfold TimezoneRRule.parseRRuleString in Hp. now rewrite Hp.
  - destruct Hf as (o & Hf). rewrite Hf in Hp. eauto.
Qed.

Lemma class_parser_faults_on_bare_keys_witness :
  TimezoneRRule.parseRRuleString Sample.utcHost bareKeyRule
    "2024-09-29T04:45:00" = Throw TypeError
  /\ TimezoneRRule.getDatesWithCustomTimezone Sample.utcHost bareKeyRule
       "Europe/London" "2024-09-29T04:45:00" = Throw TypeError.
Proof.
  exact (class_parser_faults_on_bare_keys Sample.utcHost bareKeyRule
           "2024-09-29T04:45:00" "Europe/London" "UTC" "20240929T044500"
           "FREQ=DAILY;BYDAY" eq_refl eq_refl).
Defined.

(** *** The last part wins *)

Lemma parsePart_fields copy host o part o' :
  parsePart copy host o part = Ok o' -> fieldsAfter o part o'.
Proof.
  unfold parsePart, fieldsAfter. fold (keyOf part) (valueOf part).
  destruct (String.eqb_spec (keyOf part) "FREQ") as [E|_].
  { rewrite E. cbn [String.eqb Ascii.eqb Bool.eqb].
    destruct (freqOfString _); intros H; inversion H; repeat split. }
  destruct (String.eqb_spec (keyOf part) "INTERVAL") as [E|_].
  { rewrite E. cbn [String.eqb Ascii.eqb Bool.eqb].
    intros H; inversion H; repeat split. }
  destruct (String.eqb_spec (keyOf part) "UNTIL") as [E|_].
  { rewrite E. cbn [String.eqb Ascii.eqb Bool.eqb].
    destruct (defined _); cbn [bind]; [|discriminate].
    destruct (untilDate _ _ _); cbn [bind]; [|discriminate].
    intros H; inversion H; repeat split. }
  destruct (String.eqb_spec (keyOf part) "WKST") as [E|_].
  { rewrite E. cbn [String.eqb Ascii.eqb Bool.eqb]. unfold weekdayOfValue.
    destruct (valueOf part) as [v|]; [destruct (weekdayOfString v)|];
      intros H; inversion H; repeat split. }
  destruct (String.eqb_spec (keyOf part) "BYDAY") as [E|_].
  { rewrite E. cbn [String.eqb Ascii.eqb Bool.eqb].
    destruct (valueOf part) as [v|]; cbn [defined bind]; [|discriminate].
    intros H; inversion H; repeat split. }
  destruct (String.eqb_spec (keyOf part) "BYSETPOS") as [E|_].
  { rewrite E. cbn [String.eqb Ascii.eqb Bool.eqb].
    destruct (valueOf part) as [v|]; cbn [defined bind]; [|discriminate].
    intros H; inversion H; repeat split. }
  destruct (String.eqb_spec (keyOf part) "COUNT") as [E|_].
  { intros H; inversion H; repeat split. }
  intros H; inversion H; repeat split.
Qed.

Lemma forEachPart_fields copy host : forall parts o o',
  forEachPart copy host parts o = Ok o' ->
  freq o' = match lastRecognised freqOfString "FREQ" parts with
            | Some f => f
            | None => freq o
            end
  /\ wkst o' = match lastRecognised weekdayOfValue "WKST" parts with
               | Some w => Some w
               | None => wkst o
               end
  /\ byweekday o' = match lastValue "BYDAY" parts with
                    | Some v =>
                        option_map
                          (fun v => map weekdayOrMonday (split "," v)) v
                    | None => byweekday o
                    end
  /\ bysetpos o' = match lastValue "BYSETPOS" parts with
                   | Some v =>
                       option_map (fun v => map parseInt (split "," v)) v
                   | None => bysetpos o
                   end
  /\ count o' = match lastValue "COUNT" parts with
                | Some v => Some (parseInt (toStr v))
                | None => count o
                end.
Proof.
  induction parts as [|part rest IH]; cbn [forEachPart]; intros o o' H.
  - inversion H. repeat split.
  - destruct (parsePart copy host o part) as [o1|] eqn:E; cbn [bind] in H;
      [|discriminate].
    destruct (IH _ _ H) as (F1 & F2 & F3 & F4 & F5).
    destruct (parsePart_fields _ _ _ _ _ E) as (G1 & G2 & G3 & G4 & G5).
    cbn [lastRecognised lastValue].
    rewrite F1, F2, F3, F4, F5, G1, G2, G3, G4, G5.
    repeat split.
    + destruct (lastRecognised freqOfString "FREQ" rest); [reflexivity|].
      destruct (keyOf part =? "FREQ")%string; reflexivity.
    + destruct (lastRecognised weekdayOfValue "WKST" rest); [reflexivity|].
      destruct (keyOf part =? "WKST")%string; reflexivity.
    + destruct (lastValue "BYDAY" rest); [reflexivity|].
      destruct (keyOf part =? "BYDAY")%string; reflexivity.
    + destruct (lastValue "BYSETPOS" rest); [reflexivity|].
      destruct (keyOf part =? "BYSETPOS")%string; reflexivity.
    + destruct (lastValue "COUNT" rest); [reflexivity|].
      destruct (keyOf part =? "COUNT")%string; reflexivity.
Qed.

(** X12.  The frequency and the week start of a parsed rule.  Each is the
    value of the last part with its key whose value is one of the names
    the parser knows (DAILY, WEEKLY, MONTHLY, YEARLY; SU to SA); a part
    with any other value is passed over.  Without such a part the frequency
    is DAILY and the week start is Monday. *)
Theorem freq_and_wkst_of_parsed_rule
  (copy : Copy) (host : Host) (s startTime : string) (o : Options) :
  parseRRuleString copy host s startTime = Ok (Some o) ->
  exists rrulePart,
    matchRrule s = Some rrulePart
    /\ freq o = match lastRecognised freqOfString "FREQ" (split ";" rrulePart) with
                | Some f => f
                | None => DAILY
                end
    /\ wkst o = match lastRecognised weekdayOfValue "WKST"
                        (split ";" rrulePart) with
                | Some w => Some w
                | None => Some MO
                end.
Proof.
  intros H.
  destruct (parseRRuleString_Some _ _ _ _ _ H)
    as (tz & d & rrulePart & start & _ & Hr & _ & Hf).
  exists rrulePart. split; [exact Hr|].
  destruct (forEachPart_fields _ _ _ _ _ Hf) as (F1 & F2 & _).
  now rewrite F1, F2.
Qed.

Lemma freq_and_wkst_of_parsed_rule_witness :
  exists rrulePart,
    matchRrule weeklyRule = Some rrulePart
    /\ freq weeklyOptions
       = match lastRecognised freqOfString "FREQ" (split ";" rrulePart) with
         | Some f => f
         | None => DAILY
         end
    /\ wkst weeklyOptions
       = match lastRecognised weekdayOfValue "WKST" (split ";" rrulePart) with
         | Some w => Some w
         | None => Some MO
         end.
Proof.
  apply (freq_and_wkst_of_parsed_rule ClassCopy Sample.utcHost weeklyRule
           "2024-09-29T04:45:00" weeklyOptions).
  reflexivity.
Defined.

(** X13.  The weekdays, the positions and the count of a parsed rule.
    Each comes from the last part with its key.  The weekdays are the
    pieces between the commas of the BYDAY value, a piece that is not one
    of SU to SA read as Monday (so is a piece with a number before the
    name); the positions are [parseInt] of the pieces of the BYSETPOS
    value; the count is [parseInt] of the COUNT value.  Without the key the
    field is absent. *)
Theorem lists_and_count_of_parsed_rule
  (copy : Copy) (host : Host) (s startTime : string) (o : Options) :
  parseRRuleString copy host s startTime = Ok (Some o) ->
  exists rrulePart,
    matchRrule s = Some rrulePart
    /\ byweekday o = match lastValue "BYDAY" (split ";" rrulePart) with
                     | Some (Some v) =>
                         Some (map weekdayOrMonday (split "," v))
                     | _ => None
                     end
    /\ bysetpos o = match lastValue "BYSETPOS" (split ";" rrulePart) with
                    | Some (Some v) => Some (map parseInt (split "," v))
                    | _ => None
                    end
    /\ count o = match lastValue "COUNT" (split ";" rrulePart) with
                 | Some v => Some (parseInt (toStr v))
                 | None => None
                 end.
Proof.
  intros H.
  destruct (parseRRuleString_Some _ _ _ _ _ H)
    as (tz & d & rrulePart & start & _ & Hr & _ & Hf).
  exists rrulePart. split; [exact Hr|].
  destruct (forEachPart_fields _ _ _ _ _ Hf) as (_ & _ & F3 & F4 & F5).
  rewrite F3, F4, F5. cbn [initialOptions byweekday bysetpos count].
  split; [|split; [|reflexivity]].
  - now destruct (lastValue "BYDAY" (split ";" rrulePart)) as [[v|]|].
  - now destruct (lastValue "BYSETPOS" (split ";" rrulePart)) as [[v|]|].
Qed.

Lemma lists_and_count_of_parsed_rule_witness :
  exists rrulePart,
    matchRrule weeklyRule = Some rrulePart
    /\ byweekday weeklyOptions
       = match lastValue "BYDAY" (split ";" rrulePart) with
         | Some (Some v) => Some (map weekdayOrMonday (split "," v))
         | _ => None
         end
    /\ bysetpos weeklyOptions
       = match lastValue "BYSETPOS" (split ";" rrulePart) with
         | Some (Some v) => Some (map parseInt (split "," v))
         | _ => None
         end
    /\ count weeklyOptions
       = match lastValue "COUNT" (split ";" rrulePart) with
         | Some v => Some (parseInt (toStr v))
         | None => None
         end.
Proof.
  apply (lists_and_count_of_parsed_rule ClassCopy Sample.utcHost weeklyRule
           "2024-09-29T04:45:00" weeklyOptions).
  reflexivity.
Defined.

(* ------------------------------------------------------------------ *)
(** ** The sequence of dates, in closed form *)

(** A loop whose cursor goes through an arithmetic progression: what it
    returns is what its body pushes at the cursors before [until]. *)
Lemma while_every copy o z d
  (g : Luxon.DateTime -> result (list Luxon.DateTime))
  (nxt : Luxon.DateTime -> result Luxon.DateTime) body :
  (forall c, body c = (pushed <- g c ;; next <- nxt c ;; Ok (pushed, next))) ->
  forall fuel s,
    (forall i, (i < fuel)%nat ->
       nxt (Luxon.At (s + Z.of_nat i * d) z)
       = Ok (Luxon.At (s + Z.of_nat i * d + d) z)) ->
    while copy o body fuel (Luxon.At s z)
    = (ls <- mapM g (takeWhile (fun c => negb (untilReached copy o c))
                       (every z d fuel s)) ;;
       Ok (List.concat ls)).
Proof.
  intros Hb. induction fuel as [|fuel IH]; intros s Hn; [reflexivity|].
  cbn [while every takeWhile].
  destruct (untilReached copy o (Luxon.At s z)); [reflexivity|].
  cbn [negb mapM]. rewrite Hb.
  destruct (g (Luxon.At s z)) as [pushed|]; [|reflexivity]. cbn [bind].
  pose proof (Hn O ltac:(lia)) as H0. cbn [Z.of_nat] in H0.
  rewrite Z.mul_0_l, Z.add_0_r in H0. rewrite H0. cbn [bind snd fst].
  rewrite IH.
  - destruct (mapM g _) as [ls|]; reflexivity.
  - intros i Hi. specialize (Hn (S i) ltac:(lia)).
    replace (s + Z.of_nat (S i) * d) with (s + d + Z.of_nat i * d) in Hn by lia.
    exact Hn.
Qed.

Lemma mapM_singletons {A B : Type} (f : A -> result B) : forall l,
  (ls <- mapM (fun c => x <- f c ;; Ok [x]) l ;; Ok (List.concat ls)) = mapM f l.
Proof.
  induction l as [|a l IH]; [reflexivity|]. cbn [mapM].
  destruct (f a) as [b|]; [|reflexivity]. cbn [bind].
  rewrite <- IH.
  destruct (mapM (fun c => x <- f c ;; Ok [x]) l) as [ls|]; reflexivity.
Qed.

Lemma mapM_filtered {A B : Type} (f : A -> result B) (p : A -> bool) :
  forall l,
    (ls <- mapM (fun c => if p c then x <- f c ;; Ok [x] else Ok []) l ;;
     Ok (List.concat ls))
    = mapM f (filter p l).
Proof.
  induction l as [|a l IH]; [reflexivity|]. cbn [mapM filter].
  destruct (p a).
  - cbn [mapM]. destruct (f a) as [b|]; [|reflexivity]. cbn [bind].
    rewrite <- IH.
    destruct (mapM (fun c => if p c then x <- f c ;; Ok [x] else Ok []) l)
      as [ls|]; reflexivity.
  - cbn [bind]. rewrite <- IH.
    destruct (mapM (fun c => if p c then x <- f c ;; Ok [x] else Ok []) l)
      as [ls|]; reflexivity.
Qed.

Section FixedHost.
Import Luxon CalendarFacts.

Variable host : Host.

Let sys : Zone := systemZone host.
Let k : Z := hostOffset host.

Lemma sys_fixed : forall x, offset sys x = k.
Proof. reflexivity. Qed.

(** Adding days in the zone of the host moves the instant by that many
    days. *)
Lemma plus_days_host n t :
  Z.abs n <= 9000000 ->
  Z.abs (localOf k t + n * msPerDay) <= 8640000000000000 ->
  adjustTime 0 0 n 0 (At t sys) = At (t + n * msPerDay) sys.
Proof.
  intros Hn Hr. cbn [adjustTime].
  rewrite (civilOf_fixed sys k sys_fixed).
  destruct (tsToObj_proper (localOf k t)) as (Hd & Ht & Hu).
  remember (tsToObj (localOf k t)) as c eqn:Ec.
  destruct (properDate_spec c Hd) as [Hmo Hday].
  rewrite !Z.add_0_r, (Z.min_l _ _ (proj2 Hday)).
  remember {| year := year c; month := month c; day := day c + n;
              hour := hour c; minute := minute c; second := second c;
              millisecond := millisecond c |} as c' eqn:Ec'.
  assert (Hu' : utcMillis c' = localOf k t + n * msPerDay).
  { rewrite Ec', utcMillis_day, civil_eta. lia. }
  pose proof (daysInMonth_bounds (year c) (month c)).
  rewrite (objToTS_proper sys k sys_fixed c' t).
  - rewrite Hu', Z.add_0_r.
    replace (localOf k t + n * msPerDay - k * 60000) with (t + n * msPerDay)
      by (unfold localOf; lia).
    apply (mkDateTime_At sys k sys_fixed).
    replace (localOf k (t + n * msPerDay)) with (localOf k t + n * msPerDay)
      by (unfold localOf; lia).
    exact Hr.
  - rewrite Ec'. exact Ht.
  - rewrite Ec'. cbn [month]. lia.
  - rewrite Ec'. cbn [day]. lia.
  - now rewrite Hu'.
Qed.

(** The cursors of a loop that steps by [n] days, [fuel] times, stay
    valid. *)
Lemma days_in_range n t fuel i :
  (i < fuel)%nat ->
  Z.abs (localOf k t) + Z.of_nat fuel * (Z.abs n * msPerDay)
  <= 8640000000000000 ->
  Z.abs (localOf k (t + Z.of_nat i * (n * msPerDay)) + n * msPerDay)
  <= 8640000000000000.
Proof.
  intros Hi Hr. unfold localOf in *.
  assert (H1 : Z.abs (Z.of_nat i * (n * msPerDay) + n * msPerDay)
               <= Z.of_nat fuel * (Z.abs n * msPerDay)).
  { replace (Z.of_nat i * (n * msPerDay) + n * msPerDay)
      with ((Z.of_nat i + 1) * n * msPerDay) by lia.
    rewrite !Z.abs_mul.
    rewrite (Z.abs_eq (Z.of_nat i + 1)) by lia.
    rewrite (Z.abs_eq msPerDay) by (unfold msPerDay; lia).
    rewrite Z.mul_assoc.
    apply Z.mul_le_mono_nonneg_r; [unfold msPerDay; lia|].
    apply Z.mul_le_mono_nonneg_r; [lia|]. lia. }
  lia.
Qed.

Lemma startDate_host o t :
  dtstart o = DateAt t -> Z.abs (localOf k t) <= 8640000000000000 ->
  startDate host o = At t sys.
Proof.
  intros Hd Hr. unfold startDate. rewrite Hd. cbn [fromJSDate].
  exact (mkDateTime_At sys k sys_fixed t Hr).
Qed.

Lemma pushAndStep_shape targetTimeZone startTime u o c :
  pushAndStep host targetTimeZone startTime u o c
  = (pushed <- (x <- finalDateTime host targetTimeZone startTime c ;; Ok [x]) ;;
     next <- plus u (interval o) c ;; Ok (pushed, next)).
Proof.
  unfold pushAndStep.
  destruct (finalDateTime host targetTimeZone startTime c); reflexivity.
Qed.

(** The loop of DAILY, and of WEEKLY without weekdays. *)
Lemma while_days copy targetTimeZone startTime o n m t u :
  interval o = Num n -> Z.abs (n * m) <= 9000000 ->
  (u = Days /\ m = 1 \/ u = Weeks /\ m = 7) ->
  forall fuel,
    Z.abs (localOf k t) + Z.of_nat fuel * (Z.abs (n * m) * msPerDay)
    <= 8640000000000000 ->
    while copy o (pushAndStep host targetTimeZone startTime u o) fuel (At t sys)
    = mapM (finalDateTime host targetTimeZone startTime)
        (takeWhile (fun c => negb (untilReached copy o c))
           (every sys (n * m * msPerDay) fuel t)).
Proof.
  intros Hi Hn Hu fuel Hr.
  rewrite (while_every copy o sys (n * m * msPerDay)
             (fun c => x <- finalDateTime host targetTimeZone startTime c ;;
                       Ok [x])
             (plus u (interval o))).
  - apply mapM_singletons.
  - intros c. apply pushAndStep_shape.
  - intros i Hlt. rewrite Hi.
    assert (E : plus u (Num n) (At (t + Z.of_nat i * (n * m * msPerDay)) sys)
                = Ok (adjustTime 0 0 (n * m) 0
                        (At (t + Z.of_nat i * (n * m * msPerDay)) sys))).
    { destruct Hu as [[-> ->]|[-> ->]]; [now rewrite Z.mul_1_r | reflexivity]. }
    rewrite E. f_equal. apply plus_days_host; [exact Hn|].
    now apply (days_in_range (n * m) t fuel i).
Qed.

End FixedHost.

Lemma range_start x y : 0 <= y -> x + y <= 8640000000000000 -> x <= 8640000000000000.
Proof. lia. Qed.

Lemma fuel_term m d :
  0 <= d -> 0 <= Z.of_nat (Z.to_nat m) * d /\ Z.of_nat (Z.to_nat m) * d = Z.max 0 m * d.
Proof.
  intros H.
  assert (E : Z.of_nat (Z.to_nat m) = Z.max 0 m) by lia.
  rewrite E. split; [|reflexivity]. apply Z.mul_nonneg_nonneg; lia.
Qed.





Lemma existsb_pointwise {A : Type} (f g : A -> bool) :
  (forall a, f a = g a) -> forall l, existsb f l = existsb g l.
Proof.
  intros H. induction l as [|a l IH]; [reflexivity|].
  cbn [existsb]. now rewrite H, IH.
Qed.

Section WeeklyByDay.
Import Luxon CalendarFacts.

Variable host : Host.

Lemma includesWeekday_host l t :
  includesWeekday l (weekday (At t (systemZone host)))
  = onAnyWeekday (hostOffset host) l (At t (systemZone host)).
Proof.
  rewrite (weekday_fixed (systemZone host) (hostOffset host) (sys_fixed host)).
  unfold includesWeekday, onAnyWeekday, onWeekday.
  assert (H : 0 <= WeekDay (localOf (hostOffset host) t) < 7)
    by (unfold WeekDay; Z.div_mod_to_equations; lia).
  apply existsb_pointwise. intros w.
  destruct (Z.eqb_spec (WeekDay (localOf (hostOffset host) t)) 0) as [E|E].
  - rewrite E. cbn. apply Z.eqb_sym.
  - destruct (Z.eqb_spec (WeekDay (localOf (hostOffset host) t)) 7); [lia|].
    apply Z.eqb_sym.
Qed.

Lemma every_In z d : forall n s c,
  In c (every z d n s) -> exists s', c = At s' z.
Proof.
  induction n as [|n IH]; intros s c H; [destruct H|].
  destruct H as [<-|H]; [eauto | eauto].
Qed.

Lemma takeWhile_In {A : Type} (p : A -> bool) : forall l a,
  In a (takeWhile p l) -> In a l.
Proof.
  induction l as [|b l IH]; intros a H; [destruct H|].
  cbn [takeWhile] in H. destruct (p b); [|destruct H].
  destruct H as [<-|H]; [now left | right; auto].
Qed.

Lemma weeklyByDayBody_shape targetTimeZone startTime l c :
  weeklyByDayBody host targetTimeZone startTime l c
  = (pushed <- (if includesWeekday l (weekday c)
                then x <- finalDateTime host targetTimeZone startTime c ;;
                     Ok [x]
                else Ok []) ;;
     next <- plus Days (Num 1) c ;; Ok (pushed, next)).
Proof. reflexivity. Qed.

Lemma while_byday copy targetTimeZone startTime o l t fuel :
  Z.abs (localOf (hostOffset host) t) + Z.of_nat fuel * msPerDay
  <= 8640000000000000 ->
  while copy o (weeklyByDayBody host targetTimeZone startTime l) fuel
    (At t (systemZone host))
  = mapM (finalDateTime host targetTimeZone startTime)
      (filter (onAnyWeekday (hostOffset host) l)
         (takeWhile (fun c => negb (untilReached copy o c))
            (every (systemZone host) msPerDay fuel t))).
Proof.
  intros Hr.
  rewrite (while_every copy o (systemZone host) msPerDay
             (fun c => if includesWeekday l (weekday c)
                       then x <- finalDateTime host targetTimeZone startTime c ;;
                            Ok [x]
                       else Ok [])
             (plus Days (Num 1))).
  - rewrite (mapM_filtered (finalDateTime host targetTimeZone startTime)
               (fun c => includesWeekday l (weekday c))).
    f_equal. apply filter_ext_in. intros c Hc.
    apply takeWhile_In in Hc. apply every_In in Hc as (s' & ->).
    apply includesWeekday_host.
  - intros c. apply weeklyByDayBody_shape.
  - intros i Hlt. cbn [plus asNumber bind]. f_equal.
    pose proof (plus_days_host host 1 (t + Z.of_nat i * msPerDay)
                  ltac:(lia)) as Hp.
    pose proof (days_in_range host 1 t fuel i Hlt) as H.
    replace (1 * msPerDay) with msPerDay in * by lia.
    replace (Z.abs 1 * msPerDay) with msPerDay in H by lia.
    exact (Hp (H Hr)).
Qed.

End WeeklyByDay.



(** *** Steps of months and years *)

(** A loop whose cursor goes through the iterates of [f], as long as an
    invariant that counts the turns left makes each step a valid one. *)
Lemma while_iterate copy o z (f : Z -> Z)
  (g : Luxon.DateTime -> result (list Luxon.DateTime))
  (nxt : Luxon.DateTime -> result Luxon.DateTime) body
  (Inv : nat -> Z -> Prop) :
  (forall c, body c = (pushed <- g c ;; next <- nxt c ;; Ok (pushed, next))) ->
  (forall j s, Inv (S j) s ->
     nxt (Luxon.At s z) = Ok (Luxon.At (f s) z) /\ Inv j (f s)) ->
  forall fuel s,
    Inv fuel s ->
    while copy o body fuel (Luxon.At s z)
    = (ls <- mapM g (takeWhile (fun c => negb (untilReached copy o c))
                       (iterate z f fuel s)) ;;
       Ok (List.concat ls)).
Proof.
  intros Hb Hn. induction fuel as [|fuel IH]; intros s Hi; [reflexivity|].
  cbn [while iterate takeWhile].
  destruct (untilReached copy o (Luxon.At s z)); [reflexivity|].
  cbn [negb mapM]. rewrite Hb.
  destruct (g (Luxon.At s z)) as [pushed|]; [|reflexivity]. cbn [bind].
  destruct (Hn fuel s Hi) as [-> Hi']. cbn [bind snd fst].
  rewrite (IH _ Hi').
  destruct (mapM g _) as [ls|]; reflexivity.
Qed.

Section CalendarSteps.
Import Luxon CalendarFacts.

(** The time of day of a time value, from its civil fields. *)
Lemma TimeWithinDay_fields l :
  TimeWithinDay l
  = MakeTime (hour (tsToObj l)) (minute (tsToObj l)) (second (tsToObj l))
      (millisecond (tsToObj l)).
Proof.
  destruct (tsToObj_proper l) as (_ & Ht & Hu).
  apply properTime_spec in Ht as (Hh & Hm & Hs & Hms).
  pose proof (MakeTime_bounds _ _ _ _ Hh Hm Hs Hms) as Hb.
  rewrite <- Hu at 1. unfold utcMillis.
  now rewrite TimeWithinDay_MakeDate.
Qed.

(** A time value whose year is within 250000 of the year 0 is a valid
    time value, with room to spare. *)
Lemma year_in_range l :
  Z.abs (YearFromTime l) <= 250000 -> Z.abs l <= 8000000000000000.
Proof.
  intros Hy. unfold YearFromTime in Hy.
  pose proof (YearFromDay_spec (Day l)) as Hs.
  pose proof (DayFromYear_approx (YearFromDay (Day l))) as H1.
  pose proof (DayFromYear_approx (YearFromDay (Day l) + 1)) as H2.
  remember (YearFromDay (Day l)) as y eqn:Ey.
  remember (DayFromYear y) as a eqn:Ea.
  remember (DayFromYear (y + 1)) as b eqn:Eb.
  clear Ey Ea Eb. unfold Day, msPerDay in Hs.
  Z.div_mod_to_equations. lia.
Qed.

Lemma year_tsToObj l : year (tsToObj l) = YearFromTime l.
Proof. reflexivity. Qed.

(** [MakeDay] on a month carried over into the year. *)
Lemma MakeDay_mod y m d : MakeDay (y + m / 12) (m mod 12) d = MakeDay y m d.
Proof.
  unfold MakeDay. rewrite Z.mod_mod by lia.
  rewrite (Z.div_small (m mod 12) 12) by (apply Z.mod_pos_bound; lia).
  now rewrite Z.add_0_r.
Qed.

Variables (z : Zone) (k : Z).
Hypothesis zone_fixed : forall x, offset z x = k.

(** The civil fields after a step on the calendar. *)
Lemma calendarStep_civil ny nm t :
  let c := tsToObj (localOf k t) in
  let m := month c - 1 + nm in
  let y' := year c + ny + m / 12 in
  tsToObj (localOf k (calendarStep k ny nm t))
  = {| year := y'; month := m mod 12 + 1;
       day := Z.min (day c) (monthLength (m mod 12) (leapDay y'));
       hour := hour c; minute := minute c; second := second c;
       millisecond := millisecond c |}.
Proof.
  intros c m y'. unfold calendarStep. fold c. fold m. fold y'.
  replace (localOf k
             (MakeDate
                (MakeDay y' (m mod 12)
                   (Z.min (day c) (monthLength (m mod 12) (leapDay y'))))
                (TimeWithinDay (localOf k t)) - k * 60000))
    with (MakeDate
            (MakeDay y' (m mod 12)
               (Z.min (day c) (monthLength (m mod 12) (leapDay y'))))
            (TimeWithinDay (localOf k t)))
    by (unfold localOf; lia).
  rewrite TimeWithinDay_fields. fold c.
  destruct (tsToObj_proper (localOf k t)) as (Hd & Ht & _). fold c in Hd, Ht.
  destruct (properDate_spec c Hd) as [Hmo Hday].
  apply properTime_spec in Ht as (Hh & Hmi & Hs & Hms).
  assert (Hm12 : 0 <= m mod 12 < 12) by (apply Z.mod_pos_bound; lia).
  pose proof (monthLength_bounds (m mod 12) (leapDay y')
                ltac:(destruct (leapDay_cases y'); lia)) as Hlen.
  rewrite tsToObj_MakeDate; try assumption.
  - rewrite Z.mod_mod by lia. rewrite (Z.div_small (m mod 12) 12) by lia.
    now rewrite Z.add_0_r.
  - rewrite Z.mod_mod by lia. rewrite (Z.div_small (m mod 12) 12) by lia.
    rewrite Z.add_0_r. lia.
Qed.

(** [plus] with years and months is that step, as long as the year
    arrived at is within 250000 of the year 0. *)
Lemma adjustTime_calendar ny nm t :
  Z.abs nm <= 999000 ->
  let c := tsToObj (localOf k t) in
  Z.abs (year c + ny + (month c - 1 + nm) / 12) <= 250000 ->
  adjustTime ny nm 0 0 (At t z) = At (calendarStep k ny nm t) z.
Proof.
  intros Hnm c Hy. cbn [adjustTime]. rewrite (civilOf_fixed z k zone_fixed).
  fold c.
  pose proof (calendarStep_civil ny nm t) as Hciv. cbv zeta in Hciv. fold c in Hciv.
  destruct (tsToObj_proper (localOf k t)) as (Hd & Ht & _). fold c in Hd, Ht.
  destruct (properDate_spec c Hd) as [Hmo Hday].
  pose proof (daysInMonth_bounds (year c) (month c)) as Hdim.
  remember {| year := year c + ny; month := month c + nm;
              day := Z.min (day c) (daysInMonth (year c + ny) (month c + nm)) + 0;
              hour := hour c; minute := minute c; second := second c;
              millisecond := millisecond c |} as c' eqn:Ec'.
  assert (Hu : utcMillis c' = localOf k (calendarStep k ny nm t)).
  { rewrite Ec'. unfold utcMillis, calendarStep.
    cbn [year month day hour minute second millisecond]. fold c.
    rewrite daysInMonth_table, Z.add_0_r.
    replace (month c + nm - 1) with (month c - 1 + nm) by lia.
    rewrite (TimeWithinDay_fields (localOf k t)). fold c.
    rewrite (MakeDay_mod (year c + ny) (month c - 1 + nm)).
    unfold localOf. lia. }
  assert (Hr : Z.abs (utcMillis c') <= 8000000000000000).
  { rewrite Hu. apply year_in_range.
    rewrite <- year_tsToObj, Hciv. exact Hy. }
  pose proof (daysInMonth_bounds (year c + ny) (month c + nm)) as Hdim'.
  rewrite (objToTS_proper z k zone_fixed c' t).
  - rewrite Hu, Z.add_0_r.
    replace (localOf k (calendarStep k ny nm t) - k * 60000)
      with (calendarStep k ny nm t) by (unfold localOf; lia).
    apply (mkDateTime_At z k zone_fixed). rewrite <- Hu. lia.
  - rewrite Ec'. exact Ht.
  - rewrite Ec'. cbn [month]. lia.
  - rewrite Ec'. cbn [day]. lia.
  - lia.
Qed.

End CalendarSteps.

Section CalendarLoops.
Import Luxon CalendarFacts.

Variable host : Host.

Let sys : Zone := systemZone host.
Let k : Z := hostOffset host.

(** The loop of a rule that steps by years and months: its cursors are
    the iterates of the step on the calendar. *)
Lemma while_calendar copy o ny nm
  (g : DateTime -> result (list DateTime)) body :
  Z.abs nm <= 999000 ->
  (forall c, body c
             = (pushed <- g c ;; next <- Ok (adjustTime ny nm 0 0 c) ;;
                Ok (pushed, next))) ->
  forall fuel t,
    Z.abs (year (tsToObj (localOf k t)))
    + Z.of_nat fuel * (Z.abs ny + Z.abs nm + 1) <= 250000 ->
    while copy o body fuel (At t sys)
    = (ls <- mapM g (takeWhile (fun c => negb (untilReached copy o c))
                       (iterate sys (calendarStep k ny nm) fuel t)) ;;
       Ok (List.concat ls)).
Proof.
  intros Hnm Hb fuel t Hr.
  apply (while_iterate copy o sys (calendarStep k ny nm) g
           (fun c => Ok (adjustTime ny nm 0 0 c)) body
           (fun j s => Z.abs (year (tsToObj (localOf k s)))
                       + Z.of_nat j * (Z.abs ny + Z.abs nm + 1) <= 250000));
    [exact Hb | | exact Hr].
  intros j s Hi.
  pose proof (calendarStep_civil k ny nm s) as Hciv. cbv zeta in Hciv.
  destruct (tsToObj_proper (localOf k s)) as (Hd & _ & _).
  destruct (properDate_spec _ Hd) as [Hmo _].
  remember (tsToObj (localOf k s)) as c eqn:Ec.
  assert (Hdiv : Z.abs ((month c - 1 + nm) / 12) <= Z.abs nm + 1)
    by (Z.div_mod_to_equations; lia).
  assert (Hj : 0 <= Z.of_nat j * (Z.abs ny + Z.abs nm + 1))
    by (apply Z.mul_nonneg_nonneg; lia).
  assert (Hy : Z.abs (year c + ny + (month c - 1 + nm) / 12)
               + Z.of_nat j * (Z.abs ny + Z.abs nm + 1) <= 250000).
  { replace (Z.of_nat (S j)) with (Z.of_nat j + 1) in Hi by lia. lia. }
  split.
  - f_equal. apply (adjustTime_calendar sys k (sys_fixed host) ny nm s Hnm).
    cbv zeta. rewrite <- Ec. lia.
  - rewrite Hciv. cbn [year]. exact Hy.
Qed.

Lemma pushAndStep_years targetTimeZone startTime o n c :
  interval o = Num n ->
  pushAndStep host targetTimeZone startTime Years o c
  = (pushed <- (x <- finalDateTime host targetTimeZone startTime c ;; Ok [x]) ;;
     next <- Ok (adjustTime n 0 0 0 c) ;; Ok (pushed, next)).
Proof.
  intros Hi. rewrite pushAndStep_shape, Hi. now destruct c.
Qed.

Lemma monthlyBody_plain targetTimeZone startTime o n c :
  byweekday o = None \/ bysetpos o = None -> interval o = Num n ->
  monthlyBody host targetTimeZone startTime o c
  = (pushed <- (x <- finalDateTime host targetTimeZone startTime c ;; Ok [x]) ;;
     next <- Ok (adjustTime 0 n 0 0 c) ;; Ok (pushed, next)).
Proof.
  intros Hw Hi. unfold monthlyBody. rewrite Hi.
  assert (E : match byweekday o, bysetpos o with
              | Some ws, Some ps =>
                  match
                    targetOccurrence (nth_error ps 0)
                      (fst (weekdayOccurrences 31 (nth_error ws 0)
                              (endOfMonth c) (startOfMonth c)))
                  with
                  | Some d =>
                      d' <- finalDateTime host targetTimeZone startTime d ;;
                      Ok [d']
                  | None => Ok []
                  end
              | _, _ =>
                  d <- finalDateTime host targetTimeZone startTime c ;; Ok [d]
              end
              = (x <- finalDateTime host targetTimeZone startTime c ;; Ok [x])).
  { destruct Hw as [-> | ->]; [reflexivity|]. now destruct (byweekday o). }
  rewrite E. now destruct c.
Qed.

End CalendarLoops.





(* ------------------------------------------------------------------ *)
(** ** The class [RRule] *)

Section DateSetters.
Import Luxon CalendarFacts JsDate.

Lemma month_tsToObj l : month (tsToObj l) = MonthFromTime l + 1.
Proof. reflexivity. Qed.

Lemma day_tsToObj l : day (tsToObj l) = DateFromTime l.
Proof. reflexivity. Qed.

Lemma Day_of_civil l c :
  utcMillis c = l ->
  0 <= MakeTime (hour c) (minute c) (second c) (millisecond c) < msPerDay ->
  Day l = MakeDay (year c) (month c - 1) (day c).
Proof.
  intros Hu Hb.
  pose proof (Day_MakeDate (MakeDay (year c) (month c - 1) (day c)) _ Hb) as HD.
  unfold utcMillis in Hu. rewrite Hu in HD. exact HD.
Qed.

Lemma MakeDay_tsToObj l :
  MakeDay (year (tsToObj l)) (month (tsToObj l) - 1) (day (tsToObj l))
  = MakeDay (YearFromTime l) (MonthFromTime l) (DateFromTime l).
Proof.
  rewrite year_tsToObj, month_tsToObj, day_tsToObj. f_equal. lia.
Qed.

Lemma MakeTime_tsToObj_bounds l :
  0 <= MakeTime (hour (tsToObj l)) (minute (tsToObj l)) (second (tsToObj l))
         (millisecond (tsToObj l)) < msPerDay.
Proof.
  destruct (tsToObj_proper l) as (_ & Ht & Hu).
  apply properTime_spec in Ht as (Hh & Hm & Hs & Hms).
  exact (MakeTime_bounds _ _ _ _ Hh Hm Hs Hms).
Qed.

(** The day number of a time value, from its civil fields. *)
Lemma MakeDay_of_time l :
  MakeDay (YearFromTime l) (MonthFromTime l) (DateFromTime l) = Day l.
Proof.
  rewrite <- MakeDay_tsToObj. symmetry.
  apply (Day_of_civil l (tsToObj l));
    [apply tsToObj_proper | apply MakeTime_tsToObj_bounds].
Qed.

Lemma MakeDay_add y m d n : MakeDay y m (d + n) = MakeDay y m d + n.
Proof. unfold MakeDay. lia. Qed.

Variable k : Z.

Lemma setSeconds_shift n d :
  setSeconds k (numAdd (getSeconds k d) n) d = shift (n * 1000) d.
Proof.
  destruct d as [|t]; [reflexivity|].
  cbn [getSeconds getter numAdd setSeconds shift]. do 2 f_equal.
  unfold UTC, LocalTime, MakeDate, MakeTime, Day, HourFromTime, MinFromTime,
    SecFromTime, msFromTime, msPerDay.
  Z.div_mod_to_equations. lia.
Qed.

Lemma setMinutes_shift n d :
  setMinutes k (numAdd (getMinutes k d) n) d = shift (n * 60000) d.
Proof.
  destruct d as [|t]; [reflexivity|].
  cbn [getMinutes getter numAdd setMinutes shift]. do 2 f_equal.
  unfold UTC, LocalTime, MakeDate, MakeTime, Day, HourFromTime, MinFromTime,
    SecFromTime, msFromTime, msPerDay.
  Z.div_mod_to_equations. lia.
Qed.

Lemma setHours_shift n d :
  setHours k (numAdd (getHours k d) n) d = shift (n * 3600000) d.
Proof.
  destruct d as [|t]; [reflexivity|].
  cbn [getHours getter numAdd setHours shift]. do 2 f_equal.
  unfold UTC, LocalTime, MakeDate, MakeTime, Day, HourFromTime, MinFromTime,
    SecFromTime, msFromTime, msPerDay.
  Z.div_mod_to_equations. lia.
Qed.

Lemma setDate_days t n :
  setDate k (Num (DateFromTime (LocalTime k t) + n)) (DateAt t)
  = dateOf (TimeClip (t + n * msPerDay)).
Proof.
  cbn [setDate]. do 2 f_equal.
  rewrite MakeDay_add, MakeDay_of_time.
  pose proof (MakeDate_Day (LocalTime k t)) as H.
  unfold UTC, LocalTime, MakeDate in *. lia.
Qed.

Lemma setDate_shift n d :
  setDate k (numAdd (getDate k d) n) d = shift (n * 86400000) d.
Proof.
  destruct d as [|t]; [reflexivity|].
  cbn [getDate getter numAdd shift]. apply setDate_days.
Qed.

End DateSetters.

(** The next occurrence, for the frequencies that move by a fixed span. *)
Lemma getNextOccurrence_fixed host this d u :
  fixedStep (RRule.options this) = Some u ->
  RRule.getNextOccurrence host this d
  = shift (orNumber (Types.interval (RRule.options this)) 1 * u) d.
Proof.
  unfold fixedStep, RRule.getNextOccurrence.
  destruct (Types.freq (RRule.options this)) as [f|]; [|discriminate].
  destruct (f =? Types.SECONDLY)%string.
  { intros H; inversion H. apply setSeconds_shift. }
  destruct (f =? Types.MINUTELY)%string.
  { intros H; inversion H. apply setMinutes_shift. }
  destruct (f =? Types.HOURLY)%string.
  { intros H; inversion H. apply setHours_shift. }
  destruct (f =? Types.DAILY)%string.
  { intros H; inversion H. apply setDate_shift. }
  destruct (f =? Types.WEEKLY)%string; [|discriminate].
  destruct (Types.byday (RRule.options this)) as [[|w l]|];
    try discriminate; intros H; inversion H;
    rewrite setDate_shift; f_equal; lia.
Qed.

Lemma fixedStep_positive o u : fixedStep o = Some u -> 0 < u.
Proof.
  unfold fixedStep. destruct (Types.freq o) as [f|]; [|discriminate].
  destruct (f =? Types.SECONDLY)%string; [intros H; inversion H; lia|].
  destruct (f =? Types.MINUTELY)%string; [intros H; inversion H; lia|].
  destruct (f =? Types.HOURLY)%string; [intros H; inversion H; lia|].
  destruct (f =? Types.DAILY)%string; [intros H; inversion H; lia|].
  destruct (f =? Types.WEEKLY)%string; [|discriminate].
  destruct (Types.byday o) as [[|w l]|]; try discriminate;
    intros H; inversion H; lia.
Qed.



(** *** The occurrences *)

Lemma getOccurrences_loop host now this count until :
  RRule.getOccurrences host now this count until
  = RRule.occurrencesFrom host this (endDateOf now this until)
      (Z.to_nat (maxCountOf this count)) (RRule.startDate this).
Proof. reflexivity. Qed.

Lemma occurrencesFrom_invalid host this e fuel :
  RRule.occurrencesFrom host this e fuel InvalidDate = [].
Proof. destruct fuel; reflexivity. Qed.

Lemma occurrencesFrom_bounds host this e : forall fuel d,
  let l := RRule.occurrencesFrom host this e fuel d in
  (List.length l <= fuel)%nat
  /\ Forall (fun occ => JsDate.dateLe (Types.date occ) e = true
                        /\ Types.isAllDay occ = RRule.isAllDayEvent this) l
  /\ (l = [] \/ exists rest,
        l = {| Types.date := d;
               Types.isAllDay := RRule.isAllDayEvent this |} :: rest).
Proof.
  induction fuel as [|fuel IH]; intros d; cbn [RRule.occurrencesFrom].
  - split; [cbn; lia | split; [constructor | now left]].
  - destruct (JsDate.dateLe d e) eqn:E.
    + destruct (IH (RRule.getNextOccurrence host this d)) as (H1 & H2 & _).
      cbv zeta. cbn [List.length]. split; [lia | split].
      * constructor; [split; [exact E | reflexivity] | exact H2].
      * right. eauto.
    + split; [cbn; lia | split; [constructor | now left]].
Qed.


Lemma occurrencesFrom_fixed host this u e x :
  fixedStep (RRule.options this) = Some u ->
  x = orNumber (Types.interval (RRule.options this)) 1 * u -> 0 < x ->
  Z.abs e <= 8640000000000000 ->
  forall fuel t,
    Z.abs t <= 8640000000000000 ->
    map Types.date
      (RRule.occurrencesFrom host this (DateAt e) fuel (DateAt t))
    = map (fun j => DateAt (t + Z.of_nat j * x))
        (seq 0 (Z.to_nat (Z.min (Z.of_nat fuel) ((e - t) / x + 1)))).
Proof.
  intros Hu Hx Hpos He.
  induction fuel as [|fuel IH]; intros t Ht.
  - replace (Z.to_nat (Z.min (Z.of_nat 0) ((e - t) / x + 1))) with O by lia.
    reflexivity.
  - cbn [RRule.occurrencesFrom JsDate.dateLe].
    destruct (Z.leb_spec t e) as [Hle|Hgt].
    + assert (Hq : 0 <= (e - t) / x) by (apply Z.div_pos; lia).
      replace (Z.to_nat (Z.min (Z.of_nat (S fuel)) ((e - t) / x + 1)))
        with (S (Z.to_nat (Z.min (Z.of_nat fuel) ((e - t) / x)))) by lia.
      cbn [seq map Types.date]. f_equal.
      * f_equal. lia.
      * rewrite (getNextOccurrence_fixed host this (DateAt t) u Hu).
        rewrite <- Hx. cbn [shift]. unfold TimeClip.
        destruct (Z.leb_spec (Z.abs (t + x)) 8640000000000000) as [Hin|Hout].
        -- cbn [dateOf]. rewrite (IH (t + x) Hin).
           replace ((e - (t + x)) / x + 1) with ((e - t) / x).
           2:{ replace (e - (t + x)) with (e - t + (-1) * x) by lia.
               rewrite Z.div_add by lia. lia. }
           rewrite <- seq_shift, map_map. apply map_ext. intros j.
           f_equal. lia.
        -- cbn [dateOf]. rewrite occurrencesFrom_invalid.
           replace ((e - t) / x) with 0.
           2:{ symmetry. apply Z.div_small. lia. }
           replace (Z.to_nat (Z.min (Z.of_nat fuel) 0)) with O by lia.
           reflexivity.
    + assert (Hq : (e - t) / x < 0) by (apply Z.div_lt_upper_bound; lia).
      replace (Z.to_nat (Z.min (Z.of_nat (S fuel)) ((e - t) / x + 1)))
        with O by lia.
      reflexivity.
Qed.



(** *** WEEKLY with weekdays *)

Lemma getDayNumber_range w : 0 <= RRule.getDayNumber w <= 6.
Proof. destruct w; cbv; split; discriminate. Qed.

Lemma minOf_In d rest : In (RRule.minOf (d :: rest)) (d :: rest).
Proof.
  cbn [RRule.minOf]. revert d.
  induction rest as [|a rest IH]; intros d; [now left|].
  cbn [fold_left]. destruct (IH (Z.min d a)) as [H|H].
  - rewrite <- H.
    destruct (Z.min_spec d a) as [[_ E]|[_ E]]; rewrite E.
    + now left.
    + right. now left.
  - right. right. exact H.
Qed.

Lemma WeekDay_days l n :
  WeekDay (l + n * msPerDay) = (WeekDay l + n) mod 7.
Proof.
  unfold WeekDay, Day, msPerDay. Z.div_mod_to_equations. lia.
Qed.

(** The next occurrence of a WEEKLY rule with weekdays. *)
Lemma weekly_next_days host this w l t :
  Types.freq (RRule.options this) = Some Types.WEEKLY ->
  Types.byday (RRule.options this) = Some (w :: l) ->
  exists delta,
    1 <= delta <= 7
    /\ RRule.getNextOccurrence host this (DateAt t)
       = dateOf (TimeClip (t + delta * msPerDay))
    /\ In (WeekDay (JsDate.LocalTime (hostOffset host) (t + delta * msPerDay)))
         (map RRule.getDayNumber (w :: l)).
Proof.
  intros Hf Hb. unfold RRule.getNextOccurrence. rewrite Hf, Hb.
  cbn [String.eqb Ascii.eqb Bool.eqb Types.WEEKLY Types.SECONDLY
       Types.MINUTELY Types.HOURLY Types.DAILY].
  remember (map RRule.getDayNumber (w :: l)) as targetDays eqn:Et.
  assert (Hrange : forall y, In y targetDays -> 0 <= y <= 6).
  { intros y Hy. rewrite Et in Hy. apply in_map_iff in Hy as (v & <- & _).
    apply getDayNumber_range. }
  assert (Hmin : In (RRule.minOf targetDays) targetDays).
  { rewrite Et. cbn [map]. apply minOf_In. }
  cbn [JsDate.getDay JsDate.getDate JsDate.getter RRule.findAfter].
  set (k := hostOffset host).
  set (c := WeekDay (JsDate.LocalTime k t)).
  assert (Hc : 0 <= c < 7)
    by (unfold c, WeekDay; Z.div_mod_to_equations; lia).
  assert (Hloc : forall n,
             JsDate.LocalTime k (t + n * msPerDay)
             = JsDate.LocalTime k t + n * msPerDay)
    by (intros n; unfold JsDate.LocalTime; lia).
  destruct (find (fun day => c <? day) targetDays) as [x|] eqn:Efind.
  - apply find_some in Efind as [Hin Hlt]. apply Z.ltb_lt in Hlt.
    pose proof (Hrange x Hin) as Hx.
    destruct (Z.eqb_spec x 0) as [E0|_]; [lia|].
    exists (x - c). split; [lia|].
    cbn [RRule.subNum RRule.addNum]. split.
    + apply setDate_days.
    + rewrite Hloc, WeekDay_days. fold c.
      replace (c + (x - c)) with x by lia.
      now rewrite Z.mod_small by lia.
  - pose proof (find_none _ _ Efind _ Hmin) as Hle. apply Z.ltb_ge in Hle.
    pose proof (Hrange _ Hmin) as Hm.
    exists (7 - c + RRule.minOf targetDays). split; [lia|].
    cbn [RRule.subNum RRule.addNum numAdd]. split.
    + apply setDate_days.
    + rewrite Hloc, WeekDay_days. fold c.
      replace (c + (7 - c + RRule.minOf targetDays))
        with (RRule.minOf targetDays + 1 * 7) by lia.
      rewrite Z.mod_add by lia. now rewrite Z.mod_small by lia.
Qed.


(** *** MONTHLY and YEARLY *)

Section Overflow.
Import Luxon CalendarFacts.

(** The civil fields of a day number written with a day of the month that
    may lie after the end of the month. *)
Lemma tsToObj_overflow y m d h mi s ms :
  1 <= d <= 31 ->
  0 <= h <= 23 -> 0 <= mi <= 59 -> 0 <= s <= 59 -> 0 <= ms <= 999 ->
  let y' := y + m / 12 in
  let m' := m mod 12 in
  let len := monthLength m' (leapDay y') in
  tsToObj (MakeDate (MakeDay y m d) (MakeTime h mi s ms))
  = if d <=? len
    then {| year := y'; month := m' + 1; day := d;
            hour := h; minute := mi; second := s; millisecond := ms |}
    else {| year := y' + (m' + 1) / 12; month := (m' + 1) mod 12 + 1;
            day := d - len;
            hour := h; minute := mi; second := s; millisecond := ms |}.
Proof.
  intros Hd Hh Hmi Hs Hms y' m' len.
  assert (Hm' : 0 <= m' < 12) by (apply Z.mod_pos_bound; lia).
  pose proof (monthLength_bounds m' (leapDay y')
                ltac:(destruct (leapDay_cases y'); lia)) as Hlen.
  fold len in Hlen.
  rewrite <- (MakeDay_mod y m d). fold y'. fold m'.
  assert (Hnorm : forall yy mm, 0 <= mm < 12 ->
                    yy + mm / 12 = yy /\ mm mod 12 = mm).
  { intros yy mm Hmm. rewrite Z.div_small, Z.mod_small by lia. lia. }
  destruct (Z.leb_spec d len) as [Hle|Hgt].
  - rewrite tsToObj_MakeDate; try assumption.
    + destruct (Hnorm y' m' Hm') as [-> ->]. reflexivity.
    + destruct (Hnorm y' m' Hm') as [-> ->]. fold len. lia.
  - assert (E : MakeDay y' m' d = MakeDay y' (m' + 1) (d - len)).
    { replace (d - len) with (1 + (d - len - 1)) by lia.
      rewrite MakeDay_add, MakeDay_next_month.
      destruct (Hnorm y' m' Hm') as [-> ->]. fold len.
      replace d with (1 + (d - 1)) at 1 by lia. rewrite MakeDay_add. lia. }
    rewrite E.
    pose proof (monthLength_bounds ((m' + 1) mod 12)
                  (leapDay (y' + (m' + 1) / 12))
                  ltac:(destruct (leapDay_cases (y' + (m' + 1) / 12)); lia))
      as Hlen'.
    rewrite tsToObj_MakeDate; try assumption; [reflexivity | lia].
Qed.


Variable k : Z.

(** [setMonth] and [setFullYear] with a month and a year counted from
    those of the date. *)
Lemma set_calendar_overflow t ny nm :
  Z.abs k <= 1440 ->
  let c := tsToObj (JsDate.LocalTime k t) in
  Z.abs (year c + ny + (month c - 1 + nm) / 12) <= 249999 ->
  exists t',
    dateOf (TimeClip
              (JsDate.UTC k
                 (MakeDate
                    (MakeDay (YearFromTime (JsDate.LocalTime k t) + ny)
                       (MonthFromTime (JsDate.LocalTime k t) + nm)
                       (DateFromTime (JsDate.LocalTime k t)))
                    (TimeWithinDay (JsDate.LocalTime k t)))))
    = DateAt t'
    /\ tsToObj (JsDate.LocalTime k t') = overflowCivil c ny nm.
Proof.
  intros Hk c Hy.
  destruct (tsToObj_proper (JsDate.LocalTime k t)) as (Hd & Ht & _).
  fold c in Hd, Ht.
  destruct (properDate_spec c Hd) as [Hmo Hday].
  pose proof (daysInMonth_bounds (year c) (month c)) as Hdim.
  apply properTime_spec in Ht as (Hh & Hmi & Hs & Hms).
  rewrite (TimeWithinDay_fields (JsDate.LocalTime k t)). fold c.
  change (YearFromTime (JsDate.LocalTime k t)) with (year c).
  change (DateFromTime (JsDate.LocalTime k t)) with (day c).
  replace (MonthFromTime (JsDate.LocalTime k t) + nm)
    with (month c - 1 + nm) by (cbn [c tsToObj month]; lia).
  remember (MakeDate (MakeDay (year c + ny) (month c - 1 + nm) (day c))
              (MakeTime (hour c) (minute c) (second c) (millisecond c)))
    as L eqn:EL.
  assert (Hciv : tsToObj L = overflowCivil c ny nm).
  { rewrite EL, tsToObj_overflow by (assumption || lia).
    unfold overflowCivil. reflexivity. }
  assert (Hr : Z.abs L <= 8000000000000000).
  { apply year_in_range. rewrite <- year_tsToObj, Hciv.
    unfold overflowCivil.
    assert (Hm' : 0 <= (month c - 1 + nm) mod 12 < 12)
      by (apply Z.mod_pos_bound; lia).
    assert (H1 : 0 <= ((month c - 1 + nm) mod 12 + 1) / 12 <= 1)
      by (Z.div_mod_to_equations; lia).
    destruct (_ <=? _); cbn [year]; lia. }
  exists (JsDate.UTC k L). split.
  - rewrite TimeClip_Some; [reflexivity|]. unfold JsDate.UTC. lia.
  - replace (JsDate.LocalTime k (JsDate.UTC k L)) with L
      by (unfold JsDate.LocalTime, JsDate.UTC; lia).
    exact Hciv.
Qed.

End Overflow.



(* ------------------------------------------------------------------ *)
(** ** The helpers *)

Lemma truthyBelowOne_negative a : Utils.truthyBelowOne a = negative a.
Proof.
  destruct a as [[|z]|]; try reflexivity. cbn [Utils.truthyBelowOne negative].
  destruct (Z.eqb_spec z 0); destruct (Z.ltb_spec z 1);
    destruct (Z.ltb_spec z 0); try reflexivity; lia.
Qed.

Lemma validateRRule_plain o f c :
  Types.freq o = Some (String c f) -> Types.until o = None ->
  Utils.validateRRule o = verdictOf (Types.interval o) (Types.count o).
Proof.
  intros Hf Hu. unfold Utils.validateRRule, verdictOf.
  rewrite Hf, Hu, !truthyBelowOne_negative.
  cbn [truthyString negb isSome andb].
  destruct (negative (Types.interval o)); destruct (negative (Types.count o));
    reflexivity.
Qed.


(* ------------------------------------------------------------------ *)
(** ** The parser of [RRule] *)

Section ParsePairs.

Variable parse_date : string -> JSDate.

Lemma parsePair_fields o pair :
  let o' := RRule.parsePair parse_date o pair in
  Types.freq o' = (if (keyOf pair =? "FREQ")%string then valueOf pair
                   else Types.freq o)
  /\ Types.interval o'
     = (if (keyOf pair =? "INTERVAL")%string
        then Some (parseInt10 (toStr (valueOf pair)))
        else Types.interval o)
  /\ Types.count o'
     = (if (keyOf pair =? "COUNT")%string
        then Some (parseInt10 (toStr (valueOf pair)))
        else Types.count o)
  /\ Types.until o'
     = (if (keyOf pair =? "UNTIL")%string
        then Some (match valueOf pair with
                   | Some x => parse_date x
                   | None => InvalidDate
                   end)
        else Types.until o)
  /\ (Types.bysecond o', Types.byminute o', Types.byhour o', Types.byday o',
      Types.bymonthday o', Types.byyearday o', Types.byweekno o',
      Types.bymonth o', Types.bysetpos o', Types.wkst o')
     = (Types.bysecond o, Types.byminute o, Types.byhour o, Types.byday o,
        Types.bymonthday o, Types.byyearday o, Types.byweekno o,
        Types.bymonth o, Types.bysetpos o, Types.wkst o).
Proof.
  cbv zeta. unfold RRule.parsePair. fold (keyOf pair) (valueOf pair).
  destruct (String.eqb_spec (keyOf pair) "FREQ") as [E|_].
  { rewrite E. repeat split. }
  destruct (String.eqb_spec (keyOf pair) "INTERVAL") as [E|_].
  { rewrite E. repeat split. }
  destruct (String.eqb_spec (keyOf pair) "COUNT") as [E|_].
  { rewrite E. repeat split. }
  destruct (String.eqb_spec (keyOf pair) "UNTIL") as [E|_].
  { repeat split. }
  repeat split.
Qed.

Lemma parsePairs_fields : forall pairs o,
  let o' := fold_left (RRule.parsePair parse_date) pairs o in
  Types.freq o' = match lastValue "FREQ" pairs with
                  | Some v => v
                  | None => Types.freq o
                  end
  /\ Types.interval o'
     = match lastValue "INTERVAL" pairs with
       | Some v => Some (parseInt10 (toStr v))
       | None => Types.interval o
       end
  /\ Types.count o'
     = match lastValue "COUNT" pairs with
       | Some v => Some (parseInt10 (toStr v))
       | None => Types.count o
       end
  /\ Types.until o'
     = match lastValue "UNTIL" pairs with
       | Some v => Some (match v with
                         | Some x => parse_date x
                         | None => InvalidDate
                         end)
       | None => Types.until o
       end
  /\ (Types.bysecond o', Types.byminute o', Types.byhour o', Types.byday o',
      Types.bymonthday o', Types.byyearday o', Types.byweekno o',
      Types.bymonth o', Types.bysetpos o', Types.wkst o')
     = (Types.bysecond o, Types.byminute o, Types.byhour o, Types.byday o,
        Types.bymonthday o, Types.byyearday o, Types.byweekno o,
        Types.bymonth o, Types.bysetpos o, Types.wkst o).
Proof.
  induction pairs as [|pair rest IH]; intros o; cbv zeta.
  - repeat split.
  - cbn [fold_left lastValue].
    destruct (IH (RRule.parsePair parse_date o pair)) as (F1 & F2 & F3 & F4 & F5).
    destruct (parsePair_fields o pair) as (G1 & G2 & G3 & G4 & G5).
    cbv zeta in F1, F2, F3, F4, F5, G1, G2, G3, G4, G5.
    rewrite F1, F2, F3, F4, F5, G1, G2, G3, G4, G5.
    split; [|split; [|split; [|split; [|reflexivity]]]].
    + destruct (lastValue "FREQ" rest); [reflexivity|].
      destruct (keyOf pair =? "FREQ")%string; reflexivity.
    + destruct (lastValue "INTERVAL" rest); [reflexivity|].
      destruct (keyOf pair =? "INTERVAL")%string; reflexivity.
    + destruct (lastValue "COUNT" rest); [reflexivity|].
      destruct (keyOf pair =? "COUNT")%string; reflexivity.
    + destruct (lastValue "UNTIL" rest); [reflexivity|].
      destruct (keyOf pair =? "UNTIL")%string; reflexivity.
Qed.

(** What [parse] returns, in terms of the last pair of each key. *)
Lemma parse_pairs rruleString :
  RRule.parse parse_date rruleString
  = match stripPrefix "RRULE:" rruleString with
    | None => refusal "Invalid RRULE format"
    | Some rrulePart =>
        match lastValue "FREQ" (split ";" rrulePart) with
        | Some (Some (String c f)) =>
            {| Types.valid := true;
               Types.rrule :=
                 Some (optionsOfPairs parse_date (String c f)
                         (split ";" rrulePart));
               Types.error := None |}
        | _ => refusal "FREQ is required"
        end
    end.
Proof.
  unfold RRule.parse.
  destruct (stripPrefix "RRULE:" rruleString) as [rrulePart|]; [|reflexivity].
  destruct (parsePairs_fields (split ";" rrulePart) Types.empty)
    as (F1 & F2 & F3 & F4 & F5).
  cbv zeta in F1, F2, F3, F4, F5.
  remember (fold_left (RRule.parsePair parse_date) (split ";" rrulePart)
              Types.empty) as o' eqn:Eo.
  cbn [Types.empty Types.freq Types.interval Types.count Types.until
       Types.bysecond Types.byminute Types.byhour Types.byday
       Types.bymonthday Types.byyearday Types.byweekno Types.bymonth
       Types.bysetpos Types.wkst] in F1, F2, F3, F4, F5.
  rewrite F1.
  destruct (lastValue "FREQ" (split ";" rrulePart)) as [[[|c f]|]|] eqn:Ef;
    try reflexivity.
  cbn [truthyString negb]. f_equal. f_equal.
  unfold optionsOfPairs. destruct o'. cbn in F1, F2, F3, F4, F5.
  inversion F5. subst.
  destruct (lastValue "INTERVAL" (split ";" rrulePart));
    destruct (lastValue "COUNT" (split ";" rrulePart));
    destruct (lastValue "UNTIL" (split ";" rrulePart)); reflexivity.
Qed.

End ParsePairs.

(** X25.  What [RRule.parse] accepts and what it keeps.  A text that does
    not begin with [RRULE:] is refused as of an invalid format.  The rest
    is cut at the semicolons, and the last pair of each key counts.  The
    text is accepted exactly when its last FREQ pair has a value that is
    not empty, whatever that value is; without one it is refused as without
    a frequency.  The options hold that value as the frequency, the last
    INTERVAL and COUNT values as read by [parseInt] with the radix 10, and
    [new Date] of the last UNTIL value; a pair with any other key is
    passed over. *)
Theorem parse_keeps_last_pairs
  (parse_date : string -> JSDate) (rruleString : string) :
  RRule.parse parse_date rruleString
  = match stripPrefix "RRULE:" rruleString with
    | None => refusal "Invalid RRULE format"
    | Some rrulePart =>
        match lastValue "FREQ" (split ";" rrulePart) with
        | Some (Some (String c f)) =>
            {| Types.valid := true;
               Types.rrule :=
                 Some (optionsOfPairs parse_date (String c f)
                         (split ";" rrulePart));
               Types.error := None |}
        | _ => refusal "FREQ is required"
        end
    end.
Proof. intros. apply parse_pairs. Qed.

(** *** Numerals, written and read back *)

Lemma decimalFrom_acc d : forall acc,
  decimalFrom (Z.pos acc) (NilEmpty.string_of_uint d)
  = Z.pos (Pos.of_uint_acc d acc).
Proof.
  induction d as [|d IH|d IH|d IH|d IH|d IH|d IH|d IH|d IH|d IH|d IH];
    intros acc; cbn [NilEmpty.string_of_uint decimalFrom Pos.of_uint_acc];
    [reflexivity|..];
    rewrite <- IH; f_equal;
    match goal with
    | |- context [codeOf ?c - 48] =>
        let v := eval vm_compute in (codeOf c - 48) in
        change (codeOf c - 48) with v
    end; lia.
Qed.

Lemma decimalFrom_uint d :
  decimalFrom 0 (NilEmpty.string_of_uint d) = Z.of_N (Pos.of_uint d).
Proof.
  induction d as [|d IH|d IH|d IH|d IH|d IH|d IH|d IH|d IH|d IH|d IH];
    cbn [NilEmpty.string_of_uint decimalFrom Pos.of_uint];
    [reflexivity | exact IH |..];
    match goal with
    | |- context [codeOf ?c - 48] =>
        let v := eval vm_compute in (0 * 10 + (codeOf c - 48)) in
        change (0 * 10 + (codeOf c - 48)) with v
    end; rewrite decimalFrom_acc; reflexivity.
Qed.

Lemma digits_of_uint d : allb isDigit (NilEmpty.string_of_uint d) = true.
Proof.
  induction d as [|d IH|d IH|d IH|d IH|d IH|d IH|d IH|d IH|d IH|d IH];
    cbn [NilEmpty.string_of_uint allb]; [reflexivity|..]; rewrite IH;
    reflexivity.
Qed.

Lemma decimalValue_uint d :
  decimalValue (NilZero.string_of_uint d) = Z.of_N (N.of_uint d).
Proof.
  unfold N.of_uint.
  destruct d; try (unfold decimalValue; cbn [NilZero.string_of_uint];
                   apply decimalFrom_uint).
  reflexivity.
Qed.

Lemma digits_of_uint_zero d :
  allb isDigit (NilZero.string_of_uint d) = true
  /\ NilZero.string_of_uint d <> EmptyString.
Proof.
  destruct d; (split; [|discriminate]);
    try (cbn [NilZero.string_of_uint]; apply digits_of_uint).
  reflexivity.
Qed.

(** The numeral of a natural number: digits, at least one, with the number
    as their value. *)
Lemma decimal_numeral z :
  0 <= z ->
  allb isDigit (Luxon.decimal z) = true
  /\ Luxon.decimal z <> EmptyString
  /\ decimalValue (Luxon.decimal z) = z.
Proof.
  intros Hz. unfold Luxon.decimal.
  destruct (digits_of_uint_zero (N.to_uint (Z.to_N z))) as [Hd Hn].
  split; [exact Hd | split; [exact Hn |]].
  rewrite decimalValue_uint, DecimalN.Unsigned.of_to. lia.
Qed.

Lemma readDigits_numeral s :
  s <> EmptyString -> allb isDigit s = true ->
  readDigits 10 None s = Some (decimalValue s).
Proof.
  destruct s as [|c s]; [congruence|]. intros _ H.
  cbn [allb] in H. apply andb_prop in H as [Hc Hs].
  destruct (digit_facts c Hc) as (_ & _ & _ & _ & _ & Hv & _).
  cbn [readDigits]. rewrite Hv. unfold decimalValue. cbn [decimalFrom].
  rewrite Z.mul_0_l, Z.add_0_l. now apply readDigits_decimal.
Qed.

(** [parseInt] with the radix 10 reads back what a template literal
    writes. *)
Lemma parseInt10_numberToString z :
  parseInt10 (numberToString (Num z)) = Num z.
Proof.
  unfold numberToString. destruct (Z.ltb_spec z 0) as [Hneg|Hpos].
  - destruct (decimal_numeral (- z) ltac:(lia)) as (Hd & Hn & Hv).
    unfold parseInt10. cbn [append trimStart].
    change (isStrWhiteSpace "-") with false. cbn [Ascii.eqb Bool.eqb].
    unfold parseInt10Body. rewrite (readDigits_numeral _ Hn Hd), Hv.
    f_equal. lia.
  - destruct (decimal_numeral z Hpos) as (Hd & Hn & Hv).
    destruct (Luxon.decimal z) as [|c s] eqn:E; [congruence|].
    cbn [allb] in Hd. apply andb_prop in Hd as [Hc Hs].
    destruct (digit_facts c Hc) as (Hw & Hm & Hp & _).
    unfold parseInt10. cbn [trimStart]. rewrite Hw, Hm, Hp.
    unfold parseInt10Body.
    rewrite (readDigits_numeral (String c s)), Hv;
      [f_equal; lia | discriminate | cbn [allb]; now rewrite Hc, Hs].
Qed.

Lemma isDigit_plain c : isDigit c = true -> plainChar c = true.
Proof.
  destruct c as [[] [] [] [] [] [] [] []]; intros H; vm_compute in H;
    try discriminate H; reflexivity.
Qed.

Lemma allb_impl (p q : ascii -> bool) :
  (forall c, p c = true -> q c = true) ->
  forall s, allb p s = true -> allb q s = true.
Proof.
  intros Hpq. induction s as [|c s IH]; [reflexivity|].
  cbn [allb]. intros H. apply andb_prop in H as [Hc Hs].
  now rewrite (Hpq c Hc), (IH Hs).
Qed.

Lemma numberToString_plain z : allb plainChar (numberToString (Num z)) = true.
Proof.
  unfold numberToString. destruct (Z.ltb_spec z 0) as [Hneg|Hpos].
  - destruct (decimal_numeral (- z) ltac:(lia)) as (Hd & _).
    cbn [append allb]. change (plainChar "-") with true. cbn [andb].
    exact (allb_impl _ _ isDigit_plain _ Hd).
  - destruct (decimal_numeral z Hpos) as (Hd & _).
    exact (allb_impl _ _ isDigit_plain _ Hd).
Qed.

(** *** Texts cut at a separator *)

Lemma split_whole sep : forall a,
  allb (fun c => negb (Ascii.eqb c sep)) a = true -> split sep a = [a].
Proof.
  induction a as [|c a IH]; [reflexivity|]. cbn [allb split]. intros H.
  apply andb_prop in H as [Hc Ha]. apply negb_true_iff in Hc.
  rewrite Hc, (IH Ha). reflexivity.
Qed.

Lemma split_first sep b : forall a,
  allb (fun c => negb (Ascii.eqb c sep)) a = true ->
  split sep (a ++ String sep b) = a :: split sep b.
Proof.
  induction a as [|c a IH]; cbn [allb append split]; intros H.
  - now rewrite Ascii.eqb_refl.
  - apply andb_prop in H as [Hc Ha]. apply negb_true_iff in Hc.
    rewrite Hc, (IH Ha). reflexivity.
Qed.

Lemma plain_no_semicolon s :
  allb plainChar s = true ->
  allb (fun c => negb (Ascii.eqb c ";")) s = true.
Proof.
  apply allb_impl. intros c H. unfold plainChar in H.
  now apply andb_prop in H as [H _].
Qed.

Lemma plain_no_equals s :
  allb plainChar s = true ->
  allb (fun c => negb (Ascii.eqb c "=")) s = true.
Proof.
  apply allb_impl. intros c H. unfold plainChar in H.
  now apply andb_prop in H as [_ H].
Qed.

Lemma allb_append p a b :
  allb p (a ++ b) = allb p a && allb p b.
Proof.
  induction a as [|c a IH]; [reflexivity|]. cbn [append allb].
  now rewrite IH, andb_assoc.
Qed.

(** Joining parts that hold no semicolon and cutting the text at the
    semicolons gives the parts back. *)
Lemma split_join : forall parts,
  parts <> [] ->
  Forall (fun part => allb (fun c => negb (Ascii.eqb c ";")) part = true) parts ->
  split ";" (join ";" parts) = parts.
Proof.
  induction parts as [|p rest IH]; intros Hne HF; [congruence|].
  inversion HF as [|? ? Hp Hrest]; subst.
  destruct rest as [|q rest].
  - cbn [join]. now apply split_whole.
  - change (join ";" (p :: q :: rest)) with (p ++ ";" ++ join ";" (q :: rest)).
    change (";" ++ join ";" (q :: rest))
      with (String ";" (join ";" (q :: rest))).
    rewrite (split_first ";" _ p Hp), IH; [reflexivity | discriminate | exact Hrest].
Qed.

(** A pair [key=value] is cut into its key and its value. *)
Lemma pair_key_value key value :
  allb (fun c => negb (Ascii.eqb c "=")) key = true ->
  allb (fun c => negb (Ascii.eqb c "=")) value = true ->
  keyOf (key ++ String "=" value) = key
  /\ valueOf (key ++ String "=" value) = Some value.
Proof.
  intros Hk Hv. unfold keyOf, valueOf.
  rewrite (split_first "=" value key Hk), (split_whole "=" value Hv).
  split; reflexivity.
Qed.

Lemma lastValue_pair key value k rest :
  allb plainChar key = true -> allb plainChar value = true ->
  lastValue k ((key ++ String "=" value) :: rest)
  = match lastValue k rest with
    | Some v => Some v
    | None => if (key =? k)%string then Some (Some value) else None
    end.
Proof.
  intros Hk Hv. cbn [lastValue].
  destruct (pair_key_value key value (plain_no_equals _ Hk)
              (plain_no_equals _ Hv)) as [-> ->].
  reflexivity.
Qed.

Lemma part_plain key value :
  allb plainChar key = true -> allb plainChar value = true ->
  allb (fun c => negb (Ascii.eqb c ";")) (key ++ String "=" value) = true.
Proof.
  intros Hk Hv. rewrite allb_append. cbn [allb].
  rewrite (plain_no_semicolon _ Hk), (plain_no_semicolon _ Hv). reflexivity.
Qed.

Lemma frequencyNames_plain f :
  In f frequencyNames ->
  allb plainChar f = true /\ exists c rest, f = String c rest.
Proof.
  intros H. cbn [frequencyNames In] in H.
  repeat (destruct H as [<-|H]; [split; [reflexivity | eexists; eexists; reflexivity]|]).
  destruct H.
Qed.

(** The text that [toString] builds from parts, read by [parse]. *)
Lemma parse_joined parse_date parts c f :
  parts <> [] ->
  Forall (fun part => allb (fun c => negb (Ascii.eqb c ";")) part = true)
    parts ->
  lastValue "FREQ" parts = Some (Some (String c f)) ->
  RRule.parse parse_date ("RRULE:" ++ join ";" parts)
  = {| Types.valid := true;
       Types.rrule := Some (optionsOfPairs parse_date (String c f) parts);
       Types.error := None |}.
Proof.
  intros Hne HF HL. rewrite parse_pairs.
  change (stripPrefix "RRULE:" ("RRULE:" ++ join ";" parts))
    with (Some (join ";" parts)).
  cbv iota beta. rewrite (split_join parts Hne HF), HL. reflexivity.
Qed.

(** X26.  [toString] followed by [parse] gives back the frequency, the
    interval and the count of a rule, and nothing else: for options with
    one of the seven frequencies, no [until], and an interval and a count
    that a template literal writes out in full, the text of [toString] is
    accepted by [parse], and the options read from it hold the frequency,
    the interval and the count where these are numbers other than zero;
    every other field is absent. *)
Theorem toString_then_parse (parse_date : string -> JSDate) (now : Z)
  (o : Types.RRuleOptions) (start : option JSDate) (f : string) :
  Types.freq o = Some f ->
  In f frequencyNames ->
  Types.until o = None ->
  writtenInFull (Types.interval o) ->
  writtenInFull (Types.count o) ->
  exists text,
    RRule.toString (RRule.new now o start) = Some text
    /\ RRule.parse parse_date text
       = {| Types.valid := true;
            Types.rrule := Some (keptOptions f o);
            Types.error := None |}.
Proof.
  intros Hf Hin Hu _ _.
  destruct (frequencyNames_plain f Hin) as (Hp & c & rest & ->).
  unfold RRule.toString, RRule.new. cbn [RRule.options].
  rewrite Hf, Hu. cbn [toStr]. unfold keptOptions.
  assert (HFREQ : allb plainChar "FREQ" = true) by reflexivity.
  assert (HINT : allb plainChar "INTERVAL" = true) by reflexivity.
  assert (HCNT : allb plainChar "COUNT" = true) by reflexivity.
  change ("FREQ=" ++ String c rest) with ("FREQ" ++ String "=" (String c rest)).
  destruct (Types.interval o) as [[|i]|];
    destruct (Types.count o) as [[|n]|];
    cbn [truthy];
    try destruct (Z.eqb_spec i 0) as [Hi|Hi];
    try destruct (Z.eqb_spec n 0) as [Hn|Hn];
    cbn [negb push app];
    eexists; (split; [reflexivity|]);
    repeat match goal with
      | |- context ["INTERVAL=" ++ ?s] =>
          change ("INTERVAL=" ++ s) with ("INTERVAL" ++ String "=" s)
      | |- context ["COUNT=" ++ ?s] =>
          change ("COUNT=" ++ s) with ("COUNT" ++ String "=" s)
      end;
    (erewrite parse_joined;
     [
     | discriminate
     | repeat (apply Forall_cons;
               [apply part_plain;
                first [assumption | apply numberToString_plain]|]);
       apply Forall_nil
     | rewrite ?lastValue_pair
         by first [assumption | apply numberToString_plain];
       reflexivity ]);
    unfold optionsOfPairs;
    rewrite ?lastValue_pair
      by first [assumption | apply numberToString_plain];
    cbn [lastValue String.eqb Ascii.eqb Bool.eqb option_map toStr];
    rewrite ?parseInt10_numberToString; reflexivity.
Qed.

Lemma toString_then_parse_witness :
  exists text,
    RRule.toString everyOtherDay = Some text
    /\ RRule.parse readsNothing text
       = {| Types.valid := true;
            Types.rrule :=
              Some (keptOptions Types.DAILY (RRule.options everyOtherDay));
            Types.error := None |}.
Proof.
  apply (toString_then_parse readsNothing 0
           (Utils.createDailyRule (Some (Num 2)) (Some (Num 5)))
           (Some (DateAt 1727585100000)) Types.DAILY);
    [reflexivity | cbn; tauto | reflexivity
     | vm_compute; intros H; discriminate H
     | vm_compute; intros H; discriminate H].
Defined.

(** *** The occurrences of a WEEKLY rule with weekdays *)

Lemma dateLe_valid a b :
  JsDate.dateLe a b = true -> exists t, a = DateAt t.
Proof. destruct a as [|t]; [discriminate | eauto]. Qed.

Lemma dateOf_TimeClip x d t :
  dateOf (TimeClip x) = d -> d = DateAt t -> t = x.
Proof.
  unfold TimeClip. destruct (Z.abs x <=? 8640000000000000); cbn [dateOf];
    intros <- H; [now inversion H | discriminate H].
Qed.

Lemma occurrencesFrom_weekly host this e w l :
  Types.freq (RRule.options this) = Some Types.WEEKLY ->
  Types.byday (RRule.options this) = Some (w :: l) ->
  forall fuel d,
    let dates := map Types.date (RRule.occurrencesFrom host this e fuel d) in
    Forall (onListedDay (hostOffset host) (w :: l)) (tl dates)
    /\ consecutive (daysApart 1 7) dates.
Proof.
  intros Hf Hb. induction fuel as [|fuel IH]; intros d; cbv zeta;
    cbn [RRule.occurrencesFrom].
  - split; [constructor | exact I].
  - destruct (JsDate.dateLe d e) eqn:E;
      [|split; [constructor | exact I]].
    destruct (dateLe_valid _ _ E) as [t ->].
    destruct (weekly_next_days host this w l t Hf Hb)
      as (delta & Hdelta & Hnext & Hday).
    destruct (IH (RRule.getNextOccurrence host this (DateAt t)))
      as [IH1 IH2].
    destruct (occurrencesFrom_bounds host this e fuel
                (RRule.getNextOccurrence host this (DateAt t)))
      as (_ & Hall & Hhead).
    cbv zeta in IH1, IH2, Hall, Hhead.
    cbn [map Types.date tl].
    destruct Hhead as [Hnil|[rest Hcons]].
    + rewrite Hnil. split; [constructor | exact I].
    + rewrite Hcons in IH1, IH2, Hall |- *.
      cbn [map Types.date tl] in IH1, IH2 |- *.
      inversion Hall as [|? ? [Hle _] _]; subst.
      cbn [Types.date] in Hle.
      destruct (dateLe_valid _ _ Hle) as [t' Ht'].
      pose proof (dateOf_TimeClip _ _ _ (eq_sym Hnext) Ht') as ->.
      split.
      * constructor; [|exact IH1].
        exists (t + delta * msPerDay). split; [exact Ht' | exact Hday].
      * cbn [consecutive]. split; [|exact IH2].
        exists t, delta. split; [reflexivity | split; [exact Ht' | exact Hdelta]].
Qed.



